(** * TravelAIAgent: itinerary allocation and budget fitting

    A shallow embedding of [agents/itinerary_planner_agent.py] and
    [agents/budget_optimizer_agent.py] together with the models they
    use, followed by the properties of the allocation and fitting
    engine.

    Conventions of the embedding.
    - Python [int] is [Z]; list positions are [Z] as well and go through
      [py_index], which knows Python's negative indices and [IndexError].
    - Python [float] is an exact rational [Q]: comparisons are the
      rational ones and [round(x, 2)] is rounding half to even at two
      decimals.  Binary rounding error is outside this model; the module
      [Binary64] embeds [_fit_to_budget] once more on the binary64
      numbers, for the property that depends on it.
    - [str] is [string] (a byte string; UTF-8 keeps code point order).
    - [dict] is an insertion-ordered association list ([dict_set] keeps
      the position of an existing key, as CPython does).
    - exceptions are the [Raise] branch of [result].
    - [date] is its proleptic Gregorian ordinal, from 1 for [date.min] to
      3652059 for [date.max]; [d + timedelta(days=n)] is [date_add_days],
      which raises [OverflowError] outside that range. *)

From Stdlib Require Import ZArith QArith Qround Qminmax Qabs Lqa Lia.
From Stdlib Require Import List String Ascii Bool Permutation Sorted.
From Stdlib Require PrimFloat SpecFloat FloatOps.
Import ListNotations.

Local Open Scope string_scope.
Local Open Scope list_scope.

(* ================================================================= *)
(** ** Python runtime: exceptions, arithmetic, sequences, dicts *)

Inductive exn : Type :=
| ValueError (msg : string)
| ZeroDivisionError
| IndexError
| KeyError (key : string)
| OverflowError.

Inductive result (A : Type) : Type :=
| Ok (a : A)
| Raise (e : exn).
Arguments Ok {A} a.
Arguments Raise {A} e.

Definition bind {A B : Type} (m : result A) (k : A -> result B) : result B :=
  match m with
  | Ok a => k a
  | Raise e => Raise e
  end.

Notation "x <- m ;; k" := (bind m (fun x => k))
  (at level 61, m at next level, right associativity).

Fixpoint mapM {A B : Type} (f : A -> result B) (l : list A) : result (list B) :=
  match l with
  | [] => Ok []
  | x :: r => y <- f x ;; ys <- mapM f r ;; Ok (y :: ys)
  end.

Fixpoint foldM {A S : Type} (f : S -> A -> result S) (l : list A) (s : S) : result S :=
  match l with
  | [] => Ok s
  | x :: r => s' <- f s x ;; foldM f r s'
  end.

(** [date.min.toordinal()] and [date.max.toordinal()]. *)
Definition date_min_ordinal : Z := 1.
Definition date_max_ordinal : Z := 3652059.

(** [d + timedelta(days=n)]: [timedelta] takes at most 999999999 days
    either way, and the sum has to be a date. *)
Definition date_add_days (d n : Z) : result Z :=
  if (Z.abs n <=? 999999999)%Z
     && (date_min_ordinal <=? d + n)%Z && (d + n <=? date_max_ordinal)%Z
  then Ok (d + n)%Z
  else Raise OverflowError.

(** [a // b] and [a % b] on ints. *)
Definition py_floordiv (a b : Z) : result Z :=
  if (b =? 0)%Z then Raise ZeroDivisionError else Ok (a / b)%Z.

Definition py_mod (a b : Z) : result Z :=
  if (b =? 0)%Z then Raise ZeroDivisionError else Ok (a mod b)%Z.

(** [a / b] on floats. *)
Definition py_truediv (a b : Q) : result Q :=
  if Qeq_bool b 0 then Raise ZeroDivisionError else Ok (a / b)%Q.

Definition Qltb (a b : Q) : bool :=
  match (a ?= b)%Q with Lt => true | _ => false end.

Definition Qleb (a b : Q) : bool :=
  match (a ?= b)%Q with Gt => false | _ => true end.

(** Two-argument [max(a, b)] and [min(a, b)]: the first argument wins ties. *)
Definition py_max (a b : Q) : Q := if Qltb a b then b else a.
Definition py_min (a b : Q) : Q := if Qltb b a then b else a.

(** [sum(xs)]: left to right, starting at 0. *)
Definition py_sum (xs : list Q) : Q := fold_left Qplus xs 0%Q.
Definition py_sumZ (xs : list Z) : Z := fold_left Z.add xs 0%Z.

Definition round_half_even (x : Q) : Z :=
  let f := Qfloor x in
  match ((x - inject_Z f) ?= (1 # 2))%Q with
  | Lt => f
  | Gt => (f + 1)%Z
  | Eq => if Z.even f then f else (f + 1)%Z
  end.

(** [round(x, 2)]. *)
Definition py_round2 (x : Q) : Q := Qmake (round_half_even (x * 100)) 100.

Definition py_len {A : Type} (l : list A) : Z := Z.of_nat (List.length l).

(** [l[i]]. *)
Definition py_index {A : Type} (l : list A) (i : Z) : result A :=
  let j := if (i <? 0)%Z then (py_len l + i)%Z else i in
  if (j <? 0)%Z then Raise IndexError
  else match nth_error l (Z.to_nat j) with
       | Some x => Ok x
       | None => Raise IndexError
       end.

(** [l[:n]] for [n >= 0], and a negative [n] counted from the end. *)
Definition py_take {A : Type} (l : list A) (n : Z) : list A :=
  if (n <? 0)%Z then firstn (Z.to_nat (py_len l + n)) l else firstn (Z.to_nat n) l.

(** [range(n)]. *)
Definition py_range (n : Z) : list Z := map Z.of_nat (seq 0 (Z.to_nat n)).

(** [enumerate(l)]. *)
Definition enumerate {A : Type} (l : list A) : list (Z * A) :=
  combine (py_range (py_len l)) l.

Section PyDict.
Context {K V : Type} (eqb : K -> K -> bool).

Fixpoint dict_get (d : list (K * V)) (k : K) : option V :=
    match d with
    | [] => None
    | (k', v) :: r => if eqb k' k then Some v else dict_get r k
    end.

Fixpoint dict_set (d : list (K * V)) (k : K) (v : V) : list (K * V) :=
    match d with
    | [] => [(k, v)]
    | (k', v') :: r => if eqb k' k then (k', v) :: r else (k', v') :: dict_set r k v
    end.

Definition dict_get_default (d : list (K * V)) (k : K) (dflt : V) : V :=
    match dict_get d k with
    | Some v => v
    | None => dflt
    end.
End PyDict.

Definition dict_values {K V : Type} (d : list (K * V)) : list V := map snd d.
Definition dict_keys {K V : Type} (d : list (K * V)) : list K := map fst d.

Definition leg_eqb (a b : string * string) : bool :=
  (fst a =? fst b) && (snd a =? snd b).

(** [x in l] on a list of strings. *)
Definition str_in (x : string) (l : list string) : bool := existsb (String.eqb x) l.

(** [sorted(l, key=...)], where [ltb] is [<] on the keys of two elements:
    a stable insertion sort, which uses [<] only, as [sorted] does. *)
Section Sorted.
Context {A : Type} (ltb : A -> A -> bool).

Fixpoint insert_sorted (x : A) (l : list A) : list A :=
    match l with
    | [] => [x]
    | y :: r => if ltb y x then y :: insert_sorted x r else x :: y :: r
    end.

Fixpoint py_sorted (l : list A) : list A :=
    match l with
    | [] => []
    | x :: r => insert_sorted x (py_sorted r)
    end.

  (** [min(l, key=...)] on a non-empty list: the first minimal element. *)
Fixpoint min_from (best : A) (l : list A) : A :=
    match l with
    | [] => best
    | x :: r => min_from (if ltb x best then x else best) r
    end.

Definition py_min_by (l : list A) : option A :=
    match l with
    | [] => None
    | x :: r => Some (min_from x r)
    end.
End Sorted.

(** The rich-comparison interface of the sort keys: a three-way
    comparison that is a total order up to its own [Eq]. *)
Class CmpOrder {A : Type} (cmp : A -> A -> comparison) : Prop := {
  cmp_antisym : forall a b, cmp a b = CompOpp (cmp b a);
  cmp_lt_trans : forall a b c, cmp a b = Lt -> cmp b c = Lt -> cmp a c = Lt;
  cmp_eq_l : forall a b c, cmp a b = Eq -> cmp a c = cmp b c
}.

Definition cmp_ltb {A : Type} (cmp : A -> A -> comparison) (a b : A) : bool :=
  match cmp a b with Lt => true | _ => false end.

(** Tuple comparison: the first components that differ decide. *)
Definition lex_cmp {A B : Type} (ca : A -> A -> comparison) (cb : B -> B -> comparison)
    (x y : A * B) : comparison :=
  match ca (fst x) (fst y) with
  | Eq => cb (snd x) (snd y)
  | c => c
  end.

(* ================================================================= *)
(** ** utils/airport_codes.py *)

Definition CITY_TO_AIRPORT : list (string * string) :=
  [ ("Baku", "GYD"); ("Istanbul", "IST"); ("Ankara", "ESB"); ("Izmir", "ADB");
    ("Tbilisi", "TBS"); ("Dubai", "DXB"); ("Abu Dhabi", "AUH"); ("Amsterdam", "AMS");
    ("Athens", "ATH"); ("Barcelona", "BCN"); ("Berlin", "BER"); ("Brussels", "BRU");
    ("Budapest", "BUD"); ("Copenhagen", "CPH"); ("Dublin", "DUB"); ("Frankfurt", "FRA");
    ("Helsinki", "HEL"); ("Lisbon", "LIS"); ("London", "LHR"); ("Madrid", "MAD");
    ("Munich", "MUC"); ("Oslo", "OSL"); ("Paris", "CDG"); ("Prague", "PRG"); ("Rome", "FCO");
    ("Stockholm", "ARN"); ("Vienna", "VIE"); ("Warsaw", "WAW"); ("Zurich", "ZRH");
    ("Manchester", "MAN"); ("Doha", "DOH"); ("Jeddah", "JED"); ("Kuwait City", "KWI");
    ("Muscat", "MCT"); ("Riyadh", "RUH"); ("Bangkok", "BKK"); ("Hong Kong", "HKG");
    ("Jakarta", "CGK"); ("Kuala Lumpur", "KUL"); ("Manila", "MNL"); ("Mumbai", "BOM");
    ("New Delhi", "DEL"); ("Seoul", "ICN"); ("Shanghai", "PVG"); ("Singapore", "SIN");
    ("Taipei", "TPE"); ("Tokyo", "HND"); ("Atlanta", "ATL"); ("Boston", "BOS");
    ("Chicago", "ORD"); ("Dallas", "DFW"); ("Denver", "DEN"); ("Houston", "IAH");
    ("Los Angeles", "LAX"); ("New York", "JFK"); ("Miami", "MIA"); ("Montreal", "YUL");
    ("San Francisco", "SFO"); ("Seattle", "SEA"); ("Toronto", "YYZ"); ("Vancouver", "YVR");
    ("Washington D.C.", "IAD"); ("Buenos Aires", "EZE"); ("Mexico City", "MEX");
    ("Rio de Janeiro", "GIG"); ("Sao Paulo", "GRU"); ("Cairo", "CAI"); ("Cape Town", "CPT");
    ("Johannesburg", "JNB"); ("Lagos", "LOS"); ("Nairobi", "NBO"); ("Auckland", "AKL");
    ("Melbourne", "MEL"); ("Sydney", "SYD") ].

(** [{v: k for k, v in CITY_TO_AIRPORT.items()}]. *)
Definition _airport_to_city : list (string * string) :=
  Eval cbv in
    fold_left (fun d kv => dict_set String.eqb d (snd kv) (fst kv)) CITY_TO_AIRPORT [].

Definition _label_city (value : string) : string :=
  match dict_get String.eqb _airport_to_city value with
  | Some city => city
  | None => value
  end.

(* ================================================================= *)
(** ** models/ *)

Module TravelPreferences.
Record t : Type := mk {
    origin_city : string;
    destinations : list string;
    num_days : Z;
    num_locations : Z;
    total_budget : Q;
    start_date : option Z;
    end_date : option Z
  }.
End TravelPreferences.

Module FlightOption.
Record t : Type := mk {
    origin : string;
    destination : string;
    depart_date : string;
    airline : string;
    price : Q;
    departure_time : string;
    arrival_time : string;
    booking_link : string
  }.
End FlightOption.

Module HotelOption.
Record t : Type := mk {
    name : string;
    location : string;
    check_in : string;
    check_out : string;
    price : Q;
    rating : Q;
    reviews : Z;
    link : string
  }.
End HotelOption.

Module Activity.
Record t : Type := mk {
    name : string;
    description : string;
    est_cost : Q;
    link : option string
  }.

Definition set_est_cost (a : t) (c : Q) : t :=
    mk (name a) (description a) c (link a).
End Activity.

Module ItineraryDay.
Record t : Type := mk {
    date : Z;
    city : string;
    activities : list Activity.t;
    transport : option string
  }.

Definition set_activities (d : t) (acts : list Activity.t) : t :=
    mk (date d) (city d) acts (transport d).
End ItineraryDay.

Module Itinerary.
Record t : Type := mk {
    origin : string;
    destinations : list string;
    days : list ItineraryDay.t
  }.
End Itinerary.

Module BudgetBreakdown.
Record t : Type := mk {
    flights : Q;
    hotels : Q;
    activities : Q
  }.

Definition total (b : t) : Q := (flights b + hotels b + activities b)%Q.
End BudgetBreakdown.

(** A point-of-interest record: a [Dict[str, str]]. *)
Definition Attraction : Type := list (string * string).

Module TravelGuideInfo.
Record t : Type := mk {
    tips : list string;
    transit_fare : option Q;
    attractions : list Attraction
  }.
End TravelGuideInfo.

(* ================================================================= *)
(** ** agents/itinerary_planner_agent.py *)

Section ItineraryPlannerAgent.

(** [self.attractions.top_attractions(city, limit=...)]: the attractions
    client is a network collaborator, so its answer is a parameter. *)
Variable top_attractions : string -> Z -> list Attraction.

Definition depart_date_ltb (a b : FlightOption.t) : bool :=
  (FlightOption.depart_date a <? FlightOption.depart_date b)%string.

Definition route_append (origin_label : string) (route : list string) (city : string)
    : list string :=
  if city =? origin_label then route
  else if str_in city route then route
  else route ++ [city].

Definition _build_city_route (prefs : TravelPreferences.t) (flights : list FlightOption.t)
    : list string :=
  let origin_label := _label_city (TravelPreferences.origin_city prefs) in
  let route :=
    fold_left
      (fun route f => route_append origin_label route (_label_city (FlightOption.destination f)))
      (py_sorted depart_date_ltb flights) [] in
  let route :=
    fold_left
      (fun route dest => route_append origin_label route (_label_city dest))
      (TravelPreferences.destinations prefs) route in
  let filtered := filter (fun c => negb (c =? origin_label)) route in
  match filtered with
  | _ :: _ => filtered
  | [] =>
      filter (fun c => negb (c =? origin_label))
        (map _label_city (TravelPreferences.destinations prefs))
  end.

Definition _allocate_days (total_days : Z) (cities : list string)
    : result (list (string * Z)) :=
  let total_days := Z.max 1 total_days in
  base <- py_floordiv total_days (py_len cities) ;;
  remainder <- py_mod total_days (py_len cities) ;;
  Ok (fold_left
        (fun allocation ic =>
           dict_set String.eqb allocation (snd ic)
             (base + (if (fst ic <? remainder)%Z then 1 else 0))%Z)
        (enumerate cities) []).

Definition _cheapest_hotel_price (city : string) (hotels : list HotelOption.t) : Q :=
  let city_label := _label_city city in
  let prices :=
    map HotelOption.price
      (filter (fun h => _label_city (HotelOption.location h) =? city_label) hotels) in
  match py_min_by Qltb prices with
  | Some p => p
  | None => 0%Q
  end.

Definition _estimate_activity_budget (prefs : TravelPreferences.t)
    (flights : list FlightOption.t) (hotels : list HotelOption.t)
    (days_per_city : list (string * Z)) : result Q :=
  let cheapest_flight :=
    match py_min_by Qltb (map FlightOption.price flights) with
    | Some p => p
    | None => 0%Q
    end in
  let hotel_floor :=
    fold_left
      (fun hotel_floor cn =>
         (hotel_floor
          + _cheapest_hotel_price (fst cn) hotels * inject_Z (Z.max 1%Z (snd cn)))%Q)
      days_per_city 0%Q in
  let remaining := (TravelPreferences.total_budget prefs - cheapest_flight - hotel_floor)%Q in
  if Qleb remaining 0 then Ok 0%Q
  else
    let s := py_sumZ (dict_values days_per_city) in
    let total_days := if (s =? 0)%Z then 1%Z else s in
    py_truediv remaining (inject_Z total_days).

Definition _find_leg (origin destination : string) (flights : list FlightOption.t)
    : option FlightOption.t :=
  find
    (fun f =>
       (_label_city (FlightOption.destination f) =? _label_city destination)
       && (_label_city (FlightOption.origin f) =? _label_city origin))
    flights.

Definition _choose_hotel_name (city : string) (hotels : list HotelOption.t) : string :=
  let city_label := _label_city city in
  let matches := filter (fun h => _label_city (HotelOption.location h) =? city_label) hotels in
  match py_min_by (fun a b => Qltb (HotelOption.price a) (HotelOption.price b)) matches with
  | None => ""
  | Some h => HotelOption.name h
  end.

Definition _local_transport_cost (budget_per_day : Q) (guide : option TravelGuideInfo.t) : Q :=
  let fare :=
    match guide with
    | Some g => TravelGuideInfo.transit_fare g
    | None => None
    end in
  match fare with
  | None => 0%Q
  | Some fare =>
      if Qleb budget_per_day 0 then 0%Q
      else py_min (py_round2 fare) budget_per_day
  end.

Definition _ground_transfer_cost (budget_per_day : Q) : Q := 0%Q.

Definition _intercity_transport_cost (budget_per_day : Q) : Q := 0%Q.

Definition slot_table : list (string * Q) :=
  [ ("Morning", 32 # 100); ("Afternoon", 28 # 100); ("Evening", 22 # 100); ("Late", 18 # 100) ]%Q.

(** [str(x)] inside an f-string, for the result of [dict.get]. *)
Definition fmt_opt (o : option string) : string :=
  match o with
  | Some s => s
  | None => "None"
  end.

Definition slot_activity (selected : list Attraction) (budget_per_day : Q)
    (entry : Z * (string * Q)) : result Activity.t :=
  let idx := fst entry in
  let slot_label := fst (snd entry) in
  let share := snd (snd entry) in
  i <- py_mod idx (py_len selected) ;;
  item <- py_index selected i ;;
  let name := dict_get String.eqb item "name" in
  let link :=
    match dict_get String.eqb item "link" with
    | Some "" => None
    | other => other
    end in
  let est := py_round2 (py_max 0 (budget_per_day * share)) in
  let desc := dict_get_default String.eqb item "description" "" in
  Ok (Activity.mk (slot_label ++ ": " ++ fmt_opt name)%string desc est link).

(** The first lines of [_activities_for_city]: the guide's records, cut to
    the pool size, and the attractions client when the guide has none. *)
Definition attraction_pool (city : string) (days_in_city : Z)
    (travel_guide : option TravelGuideInfo.t) : list Attraction :=
  let city_label := _label_city city in
  let pool_size := Z.min 30 (Z.max 6 (days_in_city * 3)) in
  let attractions :=
    match travel_guide with
    | Some g =>
        match TravelGuideInfo.attractions g with
        | [] => []
        | l => py_take l pool_size
        end
    | None => []
    end in
  match attractions with
  | [] => top_attractions city_label pool_size
  | _ => attractions
  end.

Definition _activities_for_city (city : string) (budget_per_day : Q) (day_offset : Z)
    (days_in_city : Z) (travel_guide : option TravelGuideInfo.t)
    : result (list Activity.t) :=
  let attractions := attraction_pool city days_in_city travel_guide in
  match attractions with
  | [] => Ok []
  | _ =>
      start <- py_mod (day_offset * 3) (py_len attractions) ;;
      selected <-
        mapM (fun i => idx <- py_mod (start + i) (py_len attractions) ;;
                       py_index attractions idx)
             (py_range 3) ;;
      let slots := py_take slot_table (py_len selected) in
      let transport_cost := _local_transport_cost budget_per_day travel_guide in
      let activities :=
        if Qltb 0 transport_cost
        then [Activity.mk "Getting around" "Metro/tram/bus (typical single ride)"
                transport_cost None]
        else [] in
      slot_acts <- mapM (slot_activity selected budget_per_day) (enumerate slots) ;;
      Ok (activities ++ slot_acts)
  end.

(** [activities[-1].est_cost = c]. *)
Fixpoint set_last_cost (activities : list Activity.t) (c : Q) : list Activity.t :=
  match activities with
  | [] => []
  | [a] => [Activity.set_est_cost a c]
  | a :: r => a :: set_last_cost r c
  end.

Definition is_paid (a : Activity.t) : bool := Qltb 0 (Activity.est_cost a).

Definition _fit_to_budget (activities : list Activity.t) (budget_per_day : Q)
    : result (list Activity.t) :=
  let paid := filter is_paid activities in
  let total := py_sum (map Activity.est_cost paid) in
  if Qleb total (py_max budget_per_day 0) then Ok activities
  else if Qeq_bool total 0 then Ok activities
  else
    scale <- (if Qeq_bool total 0 then Ok 1%Q else py_truediv budget_per_day total) ;;
    let activities :=
      map (fun act =>
             if is_paid act
             then Activity.set_est_cost act (py_round2 (Activity.est_cost act * scale))
             else act)
          activities in
    match activities with
    | _ :: _ => if Qltb budget_per_day 5 then Ok (set_last_cost activities 0) else Ok activities
    | [] => Ok activities
    end.

(** The entries of the first day in a city: the transport description with
    its zero-cost transfer item, and the hotel check-in. *)
Definition first_day_entries (prev_city city : string) (flights : list FlightOption.t)
    (hotels : list HotelOption.t) (activity_budget_per_day : Q)
    : option string * list Activity.t :=
  let leg_part :=
    match _find_leg prev_city city flights with
    | Some leg =>
        (Some (_label_city (FlightOption.origin leg) ++ " → "
               ++ _label_city (FlightOption.destination leg) ++ " with "
               ++ FlightOption.airline leg ++ " (" ++ FlightOption.departure_time leg
               ++ "–" ++ FlightOption.arrival_time leg ++ ")")%string,
         [Activity.mk "Airport/ground transfer"
            "Local bus/metro/taxi from airport to hotel (price varies)"
            (_ground_transfer_cost activity_budget_per_day) None])
    | None =>
        (Some ("Travel to " ++ _label_city city ++ " (train/bus recommended)")%string,
         [Activity.mk "Intercity transport"
            ("Train/bus transfer to " ++ _label_city city ++ " (price varies)")%string
            (_intercity_transport_cost activity_budget_per_day) None])
    end in
  let hotel_name := _choose_hotel_name city hotels in
  (fst leg_part,
   snd leg_part
   ++ (if hotel_name =? "" then []
       else [Activity.mk "Hotel check-in" ("Check in at " ++ hotel_name)%string 0%Q None])).

(** A day's activities as they are created, before [_fit_to_budget]. *)
Definition draft_day (flights : list FlightOption.t)
    (hotels : list HotelOption.t) (travel_guides : list (string * TravelGuideInfo.t))
    (activity_budget_per_day : Q) (prev_city city : string) (days_in_city day_idx : Z)
    : result (option string * list Activity.t) :=
  let entries :=
    if (day_idx =? 0)%Z
    then first_day_entries prev_city city flights hotels activity_budget_per_day
    else (None, []) in
  more <- _activities_for_city city activity_budget_per_day day_idx days_in_city
            (dict_get String.eqb travel_guides city) ;;
  Ok (fst entries, snd entries ++ more).

(** The body of the inner loop of [run]. *)
Definition plan_day (flights : list FlightOption.t)
    (hotels : list HotelOption.t) (travel_guides : list (string * TravelGuideInfo.t))
    (activity_budget_per_day : Q) (prev_city city : string) (days_in_city : Z)
    (current_date day_idx : Z) : result ItineraryDay.t :=
  draft <- draft_day flights hotels travel_guides activity_budget_per_day
             prev_city city days_in_city day_idx ;;
  activities <- _fit_to_budget (snd draft) activity_budget_per_day ;;
  Ok (ItineraryDay.mk current_date (_label_city city) activities (fst draft)).

(** The loop state of [run]: [current_date], [itinerary_days], [prev_city]. *)
Definition plan_city (flights : list FlightOption.t)
    (hotels : list HotelOption.t) (travel_guides : list (string * TravelGuideInfo.t))
    (activity_budget_per_day : Q) (days_per_city : list (string * Z))
    (state : Z * list ItineraryDay.t * string) (city : string)
    : result (Z * list ItineraryDay.t * string) :=
  match dict_get String.eqb days_per_city city with
  | None => Raise (KeyError city)
  | Some days_in_city =>
      st <- foldM
              (fun st day_idx =>
                 d <- plan_day flights hotels travel_guides activity_budget_per_day
                        (snd state) city days_in_city (fst st) day_idx ;;
                 current_date <- date_add_days (fst st) 1 ;;
                 Ok (current_date, snd st ++ [d]))
              (py_range days_in_city) (fst state) ;;
      Ok (st, city)
  end.

Definition run (prefs : TravelPreferences.t) (flights : list FlightOption.t)
    (hotels : list HotelOption.t) (travel_guides : option (list (string * TravelGuideInfo.t)))
    : result Itinerary.t :=
  match TravelPreferences.start_date prefs with
  | None => Raise (ValueError "start_date required for itinerary planning")
  | Some start =>
      let travel_guides :=
        match travel_guides with
        | Some g => g
        | None => []
        end in
      let ordered_cities := _build_city_route prefs flights in
      days_per_city <- _allocate_days (TravelPreferences.num_days prefs) ordered_cities ;;
      activity_budget_per_day <-
        _estimate_activity_budget prefs flights hotels days_per_city ;;
      st <- foldM
              (plan_city flights hotels travel_guides activity_budget_per_day
                 days_per_city)
              ordered_cities (start, [], TravelPreferences.origin_city prefs) ;;
      Ok (Itinerary.mk
            (_label_city (TravelPreferences.origin_city prefs))
            (map _label_city ordered_cities)
            (snd (fst st)))
  end.

End ItineraryPlannerAgent.

(* ================================================================= *)
(** ** agents/budget_optimizer_agent.py *)

(** A naive [datetime]; its order is the lexicographic one on its fields. *)
Record datetime : Type := mk_datetime {
  year : Z;
  month : Z;
  day : Z;
  hour : Z;
  minute : Z;
  second : Z;
  microsecond : Z
}.

Definition datetime_fields (d : datetime) : Z * (Z * (Z * (Z * (Z * (Z * Z))))) :=
  (year d, (month d, (day d, (hour d, (minute d, (second d, microsecond d)))))).

Definition datetime_cmp (a b : datetime) : comparison :=
  lex_cmp Z.compare
    (lex_cmp Z.compare
       (lex_cmp Z.compare
          (lex_cmp Z.compare (lex_cmp Z.compare (lex_cmp Z.compare Z.compare)))))
    (datetime_fields a) (datetime_fields b).

(** [datetime.max]. *)
Definition datetime_max : datetime := mk_datetime 9999 12 31 23 59 59 999999.

(** What the [datetime] constructor accepts. *)
Definition datetime_valid (d : datetime) : Prop :=
  (1 <= year d <= 9999 /\ 1 <= month d <= 12 /\ 1 <= day d <= 31 /\ 0 <= hour d <= 23
   /\ 0 <= minute d <= 59 /\ 0 <= second d <= 59 /\ 0 <= microsecond d <= 999999)%Z.

(** [dt.replace(year=y)]. *)
Definition replace_year (d : datetime) (y : Z) : datetime :=
  mk_datetime y (month d) (day d) (hour d) (minute d) (second d) (microsecond d).

(** The characters [str.strip()] removes, within ASCII. *)
Definition is_space (c : ascii) : bool :=
  let n := nat_of_ascii c in
  ((9 <=? n) && (n <=? 13) || (28 <=? n) && (n <=? 32))%nat.

Fixpoint lstrip (s : string) : string :=
  match s with
  | String c r => if is_space c then lstrip r else s
  | EmptyString => EmptyString
  end.

Fixpoint rstrip (s : string) : string :=
  match s with
  | EmptyString => EmptyString
  | String c r =>
      match rstrip r with
      | EmptyString => if is_space c then EmptyString else String c EmptyString
      | r' => String c r'
      end
  end.

Definition py_strip (s : string) : string := rstrip (lstrip s).

Section BudgetOptimizerAgent.

(** [datetime.strptime(v, fmt)] of the Python library, [None] for its
    [ValueError]. *)
Variable strptime : string -> string -> option datetime.

Definition departure_formats : list string :=
  [ "%Y-%m-%d %H:%M"; "%Y-%m-%dT%H:%M"; "%H:%M"; "%I:%M %p" ].

Fixpoint first_parse (v : string) (fmts : list string) : option datetime :=
  match fmts with
  | [] => None
  | fmt :: rest =>
      match strptime v fmt with
      | Some dt => Some (if (year dt =? 1900)%Z then replace_year dt 2100 else dt)
      | None => first_parse v rest
      end
  end.

Definition _parse_departure_time (value : string) : option datetime :=
  if value =? "" then None
  else first_parse (py_strip value) departure_formats.

Definition flight_key : Type := Q * (datetime * string).

Definition _flight_sort_key (flight : FlightOption.t) : flight_key :=
  let dep := _parse_departure_time (FlightOption.departure_time flight) in
  (FlightOption.price flight,
   (match dep with Some d => d | None => datetime_max end,
    FlightOption.departure_time flight)).

Definition flight_key_cmp : flight_key -> flight_key -> comparison :=
  lex_cmp Qcompare (lex_cmp datetime_cmp String.compare).

(** [_flight_sort_key(a) < _flight_sort_key(b)]. *)
Definition flight_ltb (a b : FlightOption.t) : bool :=
  cmp_ltb flight_key_cmp (_flight_sort_key a) (_flight_sort_key b).

Definition _nights_per_city (itinerary : Itinerary.t) : list (string * Z) :=
  fold_left
    (fun nights day =>
       dict_set String.eqb nights (ItineraryDay.city day)
         (dict_get_default String.eqb nights (ItineraryDay.city day) 0 + 1)%Z)
    (Itinerary.days itinerary) [].

Definition _scale_activity_costs (itinerary : Itinerary.t) (scale : Q) : Itinerary.t :=
  Itinerary.mk (Itinerary.origin itinerary) (Itinerary.destinations itinerary)
    (map (fun day =>
            ItineraryDay.set_activities day
              (map (fun activity =>
                      Activity.set_est_cost activity
                        (py_round2 (Activity.est_cost activity * scale)))
                   (ItineraryDay.activities day)))
         (Itinerary.days itinerary)).

(** [sum(a.est_cost for day in itinerary.days for a in day.activities)]. *)
Definition activities_cost_of (itinerary : Itinerary.t) : Q :=
  py_sum (flat_map (fun day => map Activity.est_cost (ItineraryDay.activities day))
            (Itinerary.days itinerary)).

(** The required legs: origin, then each destination in turn, then origin. *)
Fixpoint legs_from (current : string) (dests : list string) (origin_label : string)
    : list (string * string) :=
  match dests with
  | [] => [(current, origin_label)]
  | dest :: rest => (current, dest) :: legs_from dest rest origin_label
  end.

Definition flight_leg (f : FlightOption.t) : string * string :=
  (_label_city (FlightOption.origin f), _label_city (FlightOption.destination f)).

Definition flights_by_leg (flights_sorted : list FlightOption.t)
    : list (string * string * FlightOption.t) :=
  fold_left
    (fun by_leg f =>
       match dict_get leg_eqb by_leg (flight_leg f) with
       | None => dict_set leg_eqb by_leg (flight_leg f) f
       | Some existing =>
           if flight_ltb f existing then dict_set leg_eqb by_leg (flight_leg f) f
           else by_leg
       end)
    flights_sorted [].

Definition choose_flights (prefs : TravelPreferences.t) (flights : list FlightOption.t)
    (itinerary : Itinerary.t) : list FlightOption.t :=
  let multi_city := (1 <? py_len (TravelPreferences.destinations prefs))%Z in
  let flights_sorted := py_sorted flight_ltb flights in
  if multi_city then
    let origin_label := _label_city (TravelPreferences.origin_city prefs) in
    let leg_order := legs_from origin_label (Itinerary.destinations itinerary) origin_label in
    let by_leg := flights_by_leg flights_sorted in
    flat_map
      (fun leg =>
         match dict_get leg_eqb by_leg leg with
         | Some f => [f]
         | None => []
         end)
      leg_order
  else
    let flight_budget := (TravelPreferences.total_budget prefs * (45 # 100))%Q in
    match find (fun f => Qleb (FlightOption.price f) flight_budget) flights_sorted with
    | Some best_in_budget => [best_in_budget]
    | None => py_take flights_sorted 1
    end.

Definition hotel_price_ltb (a b : HotelOption.t) : bool :=
  Qltb (HotelOption.price a) (HotelOption.price b).

Definition hotel_budgets (prefs : TravelPreferences.t) (nights_per_city : list (string * Z))
    (total_nights : Z) (hotel_budget : Q) : result (list (string * Q)) :=
  match nights_per_city with
  | _ :: _ =>
      foldM
        (fun per_city cn =>
           share <- py_truediv (inject_Z (snd cn)) (inject_Z total_nights) ;;
           Ok (dict_set String.eqb per_city (fst cn) (hotel_budget * share)%Q))
        nights_per_city []
  | [] =>
      per_city <-
        py_truediv hotel_budget
          (inject_Z (Z.max 1 (py_len (TravelPreferences.destinations prefs)))) ;;
      Ok (fold_left
            (fun d city => dict_set String.eqb d (_label_city city) per_city)
            (TravelPreferences.destinations prefs) [])
  end.

Definition choose_hotels (prefs : TravelPreferences.t) (hotels : list HotelOption.t)
    (nights_per_city : list (string * Z)) (hotel_budget_per_city : list (string * Q))
    (hotel_budget : Q) : list (string * HotelOption.t) :=
  fold_left
    (fun chosen city =>
       let city_label := _label_city city in
       let candidates :=
         filter
           (fun h =>
              (_label_city (HotelOption.location h) =? city_label)
              && Qleb
                   (HotelOption.price h
                    * inject_Z
                        (Z.max 1%Z
                           (dict_get_default String.eqb nights_per_city city_label 0%Z)))
                   (dict_get_default String.eqb hotel_budget_per_city city_label hotel_budget))
           hotels in
       match py_min_by hotel_price_ltb candidates with
       | Some h => dict_set String.eqb chosen city_label h
       | None =>
           let city_hotels :=
             filter (fun h => _label_city (HotelOption.location h) =? city_label) hotels in
           match py_min_by hotel_price_ltb city_hotels with
           | Some h => dict_set String.eqb chosen city_label h
           | None => chosen
           end
       end)
    (TravelPreferences.destinations prefs) [].

(** The outcome of [run]: the returned triple and the itinerary, whose
    activity costs [run] rescales in place. *)
Record Outcome : Type := mk_outcome {
  chosen_flights : list FlightOption.t;
  chosen_hotels : list (string * HotelOption.t);
  budget : BudgetBreakdown.t;
  final_itinerary : Itinerary.t
}.

Definition optimizer_run (prefs : TravelPreferences.t) (flights : list FlightOption.t)
    (hotels : list HotelOption.t) (itinerary : Itinerary.t) : result Outcome :=
  let nights_per_city := _nights_per_city itinerary in
  let s := py_sumZ (dict_values nights_per_city) in
  let total_nights := if (s =? 0)%Z then Z.max 1 (TravelPreferences.num_days prefs) else s in
  let chosen_flights := choose_flights prefs flights itinerary in
  let flight_cost := py_sum (map FlightOption.price chosen_flights) in
  let hotel_budget := py_max 0 (TravelPreferences.total_budget prefs - flight_cost) in
  hotel_budget_per_city <- hotel_budgets prefs nights_per_city total_nights hotel_budget ;;
  let chosen_hotels :=
    choose_hotels prefs hotels nights_per_city hotel_budget_per_city hotel_budget in
  let hotel_cost :=
    py_sum
      (map (fun ch =>
              HotelOption.price (snd ch)
              * inject_Z
                  (Z.max 1%Z (dict_get_default String.eqb nights_per_city (fst ch) 0%Z)))%Q
           chosen_hotels) in
  let activities_cost := activities_cost_of itinerary in
  let total_spend := (flight_cost + hotel_cost + activities_cost)%Q in
  fitted <-
    (if Qltb (TravelPreferences.total_budget prefs) total_spend && Qltb 0 activities_cost
     then
       let allowed_for_activities :=
         py_max 0 (TravelPreferences.total_budget prefs - flight_cost - hotel_cost) in
       ratio <- py_truediv allowed_for_activities activities_cost ;;
       let scale := py_max 0 (py_min 1 ratio) in
       if Qltb scale 1
       then
         let itinerary := _scale_activity_costs itinerary scale in
         Ok (itinerary, activities_cost_of itinerary)
       else Ok (itinerary, activities_cost)
     else Ok (itinerary, activities_cost)) ;;
  Ok (mk_outcome chosen_flights chosen_hotels
        (BudgetBreakdown.mk flight_cost hotel_cost (snd fitted))
        (fst fitted)).

End BudgetOptimizerAgent.

(* ================================================================= *)
(** ** agents/travel_agent.py: the planner followed by the optimizer *)

Definition plan_and_optimize (top_attractions : string -> Z -> list Attraction)
    (strptime : string -> string -> option datetime)
    (prefs : TravelPreferences.t) (flights : list FlightOption.t)
    (hotels : list HotelOption.t) (travel_guides : option (list (string * TravelGuideInfo.t)))
    : result (Itinerary.t * Outcome) :=
  itinerary <- run top_attractions prefs flights hotels travel_guides ;;
  outcome <- optimizer_run strptime prefs flights hotels itinerary ;;
  Ok (itinerary, outcome).

(* ================================================================= *)
(** ** utils/airport_codes.py: [to_airport_code]

    [str.isupper], [str.title] and [len] are modelled on ASCII text,
    where a byte is a character and the cased characters are the
    letters. *)

Definition IATA_ALIASES : list (string * string) :=
  [ ("BAK", "GYD"); ("ROM", "FCO"); ("PAR", "CDG"); ("NYC", "JFK"); ("LON", "LHR") ].

Definition is_upper_char (c : ascii) : bool :=
  let n := nat_of_ascii c in ((65 <=? n) && (n <=? 90))%nat.

Definition is_lower_char (c : ascii) : bool :=
  let n := nat_of_ascii c in ((97 <=? n) && (n <=? 122))%nat.

Definition to_upper_char (c : ascii) : ascii :=
  if is_lower_char c then ascii_of_nat (nat_of_ascii c - 32) else c.

Definition to_lower_char (c : ascii) : ascii :=
  if is_upper_char c then ascii_of_nat (nat_of_ascii c + 32) else c.

Fixpoint string_forallb (p : ascii -> bool) (s : string) : bool :=
  match s with
  | EmptyString => true
  | String c r => p c && string_forallb p r
  end.

(** [s.isupper()]: no lower-case letter and at least one upper-case one. *)
Definition py_isupper (s : string) : bool :=
  string_forallb (fun c => negb (is_lower_char c)) s
  && negb (string_forallb (fun c => negb (is_upper_char c)) s).

(** [s.title()]: a letter that follows a letter is lowered, any other
    letter is raised. *)
Fixpoint title_from (previous_is_cased : bool) (s : string) : string :=
  match s with
  | EmptyString => EmptyString
  | String c r =>
      if is_upper_char c || is_lower_char c
      then String (if previous_is_cased then to_lower_char c else to_upper_char c)
             (title_from true r)
      else String c (title_from false r)
  end.

Definition py_title (s : string) : string := title_from false s.

Definition to_airport_code (value : string) : result string :=
  let v := py_strip value in
  if (String.length v =? 3)%nat && py_isupper v
  then Ok (dict_get_default String.eqb IATA_ALIASES v v)
  else
    match dict_get String.eqb CITY_TO_AIRPORT v with
    | Some code => Ok code
    | None =>
        match dict_get String.eqb CITY_TO_AIRPORT (py_title v) with
        | Some code => Ok code
        | None => Raise (ValueError ("No airport code mapping found for: " ++ v)%string)
        end
    end.

(* ================================================================= *)
(** ** agents/hotel_finder_agent.py and agents/flight_finder_agent.py:
       the dates of the legs

    Both [run] methods raise before [_leg_dates] when there is no start
    date, so [_leg_dates] takes the start date itself. *)

Module HotelFinderAgent.

(** The loop state: [dates], [current]. *)
Definition _leg_dates (prefs : TravelPreferences.t) (start_date : Z) : result (list Z) :=
  let num_cities := Z.max 1 (py_len (TravelPreferences.destinations prefs)) in
  let total_days := Z.max 1 (TravelPreferences.num_days prefs) in
  let base := (total_days / num_cities)%Z in
  let remainder := (total_days mod num_cities)%Z in
  st <- foldM
          (fun st i =>
             let step := (base + (if (i <? remainder)%Z then 1 else 0))%Z in
             current <- date_add_days (snd st) step ;;
             Ok (fst st ++ [snd st], current))
          (py_range num_cities) ([], start_date) ;;
  Ok (fst st).

End HotelFinderAgent.

Module FlightFinderAgent.

Definition _leg_dates (prefs : TravelPreferences.t) (start_date : Z) : result (list Z) :=
  let num_cities := Z.max 1 (py_len (TravelPreferences.destinations prefs)) in
  let base := Z.max 1 (TravelPreferences.num_days prefs / num_cities) in
  let remainder := (TravelPreferences.num_days prefs mod num_cities)%Z in
  st <- foldM
          (fun st i =>
             let step := (base + (if (i <? remainder)%Z then 1 else 0))%Z in
             current <- date_add_days (snd st) step ;;
             Ok (fst st ++ [snd st], current))
          (py_range num_cities) ([], start_date) ;;
  Ok (fst st).

End FlightFinderAgent.

(* ================================================================= *)
(** ** agents/travel_agent.py: the travel tips and fares of [run] *)

(** [[t for t in tips if not (t in seen or seen.add(t))]], with the set
    [seen] as the list of its elements. *)
Definition dedupe_tips (tips : list string) : list string :=
  snd (fold_left
         (fun st t =>
            if str_in t (fst st) then st else (t :: fst st, snd st ++ [t]))
         tips ([], [])).

(** [combined_tips]: the tips of all guides, in the order of the guides,
    without repeats. *)
Definition combined_tips (travel_guides : list (string * TravelGuideInfo.t)) : list string :=
  dedupe_tips (flat_map TravelGuideInfo.tips (dict_values travel_guides)).

(* ================================================================= *)
(** ** agents/itinerary_planner_agent.py: [_fit_to_budget] on binary64

    [_fit_to_budget] once more, with Python's [float] as the IEEE
    binary64 numbers of the machine in place of exact rationals.  [+],
    [*], [/] and the comparisons are the processor's; [sum] starts at 0;
    [round(x, 2)] is CPython's, the double nearest to the value of [x]
    rounded half to even at two decimals. *)

Module Binary64.

Definition float : Set := PrimFloat.float.

(** The double of an [int]. *)
Definition float_of_Z (z : Z) : float :=
  FloatOps.SF2Prim (SpecFloat.binary_normalize FloatOps.prec FloatOps.emax z 0 false).


(** [max(a, b)]: [b] when [b > a]. *)
Definition py_max (a b : float) : float := if PrimFloat.ltb a b then b else a.

(** [sum(xs)], which adds from left to right (CPython before 3.12; later
    versions compensate the rounding errors of a sum of floats). *)
Definition py_sum (xs : list float) : float := fold_left PrimFloat.add xs (float_of_Z 0).

(** The double nearest to [p / q], half to even, for [p, q > 0] with a
    quotient in the normal range: [float(s)] for the decimal [s] that
    [round] arrives at. *)
Definition nearest_double (negative : bool) (p q : Z) : float :=
  let e1 := (Z.log2 p - Z.log2 q - 53)%Z in
  let scaled e := (inject_Z p / inject_Z q * Qpower 2 (- e))%Q in
  let e := if (Qfloor (scaled e1) <? 2 ^ 53)%Z then e1 else (e1 + 1)%Z in
  let m := round_half_even (scaled e) in
  FloatOps.SF2Prim (SpecFloat.S754_finite negative (Z.to_pos m) e).

(** [round(x, 2)]: infinities and NaN are returned as they are, and a
    value that rounds to zero keeps its sign. *)
Definition py_round2 (x : float) : float :=
  match FloatOps.Prim2SF x with
  | SpecFloat.S754_finite s m e =>
      let k := round_half_even (inject_Z (Zpos m) * Qpower 2 e * 100)%Q in
      if (k =? 0)%Z
      then (if s then PrimFloat.opp (float_of_Z 0) else float_of_Z 0)
      else nearest_double s k 100
  | _ => x
  end.

Record Activity : Type := mk {
  name : string;
  description : string;
  est_cost : float;
  link : option string
}.

Definition set_est_cost (a : Activity) (c : float) : Activity :=
  mk (name a) (description a) c (link a).

(** [activities[-1].est_cost = c]. *)
Fixpoint set_last_cost (activities : list Activity) (c : float) : list Activity :=
  match activities with
  | [] => []
  | [a] => [set_est_cost a c]
  | a :: r => a :: set_last_cost r c
  end.

Definition is_paid (a : Activity) : bool := PrimFloat.ltb (float_of_Z 0) (est_cost a).

(** The division is guarded by [if total], so that nothing is raised. *)
Definition _fit_to_budget (activities : list Activity) (budget_per_day : float)
    : list Activity :=
  let paid := filter is_paid activities in
  let total := py_sum (map est_cost paid) in
  if PrimFloat.leb total (py_max budget_per_day (float_of_Z 0)) then activities
  else if PrimFloat.eqb total (float_of_Z 0) then activities
  else
    let scale :=
      if PrimFloat.eqb total (float_of_Z 0) then float_of_Z 1
      else PrimFloat.div budget_per_day total in
    let activities :=
      map (fun act =>
             if is_paid act
             then set_est_cost act (py_round2 (PrimFloat.mul (est_cost act) scale))
             else act)
          activities in
    match activities with
    | _ :: _ =>
        if PrimFloat.ltb budget_per_day (float_of_Z 5)
        then set_last_cost activities (float_of_Z 0)
        else activities
    | [] => activities
    end.

End Binary64.

(* ================================================================= *)
(** * Statements of the specification *)

(** Day allocation as specified: the counts sum to the trip length and
    the city at position [i] of the route has [base + 1] days when
    [i < remainder] and [base] days otherwise. *)
Definition allocation_as_specified (total_days : Z) (cities : list string)
    (allocation : list (string * Z)) : Prop :=
  let base := (total_days / py_len cities)%Z in
  let remainder := (total_days mod py_len cities)%Z in
  py_sumZ (dict_values allocation) = total_days
  /\ forall (i : nat) (city : string),
       nth_error cities i = Some city ->
       dict_get String.eqb allocation city
       = Some (base + (if (Z.of_nat i <? remainder)%Z then 1 else 0))%Z.

(** A trip whose only declared destination is its origin. *)
Definition prefs_round_trip_home : TravelPreferences.t :=
  TravelPreferences.mk "Baku" ["Baku"] 3 1 500%Q (Some 739000%Z) None.

(** Walking [labels] in order and collecting each one unless it is already
    in [seen]; a collected label is seen from then on, so the first
    occurrence fixes the position. *)
Fixpoint collect (seen labels : list string) : list string :=
  match labels with
  | [] => []
  | c :: rest =>
      if str_in c seen then collect seen rest else c :: collect (c :: seen) rest
  end.

(** The labels of the flight destinations, in departure-date order. *)
Definition flight_destination_labels (flights : list FlightOption.t) : list string :=
  map (fun f => _label_city (FlightOption.destination f)) (py_sorted depart_date_ltb flights).

(** The flight-derived walk: every destination label but the origin's. *)
Definition flight_walk (prefs : TravelPreferences.t) (flights : list FlightOption.t)
    : list string :=
  collect [_label_city (TravelPreferences.origin_city prefs)]
    (flight_destination_labels flights).

(** The route as C7 words it: the flight-derived walk, and the declared
    order (without the origin) only when that walk is empty. *)
Definition route_fallback_only (prefs : TravelPreferences.t) (flights : list FlightOption.t)
    : list string :=
  match flight_walk prefs flights with
  | [] =>
      filter (fun c => negb (c =? _label_city (TravelPreferences.origin_city prefs)))
        (map _label_city (TravelPreferences.destinations prefs))
  | walk => walk
  end.

Definition sample_flight (origin destination depart_date : string) (price : Q)
    (departure_time : string) : FlightOption.t :=
  FlightOption.mk origin destination depart_date "AZAL" price departure_time "12:00" "".

Definition prefs_two_cities (num_days : Z) : TravelPreferences.t :=
  TravelPreferences.mk "Baku" ["Paris"; "Rome"] num_days 2 500%Q (Some 739000%Z) None.

Definition sample_activity (name : string) (cost : Q) : Activity.t :=
  Activity.mk name "" cost None.

(** The activity that the slot [label], with its [share] of the day's
    envelope, makes of a point-of-interest record. *)
Definition slot_item (label : string) (share : Q) (budget_per_day : Q) (item : Attraction)
    : Activity.t :=
  Activity.mk
    (label ++ ": " ++ fmt_opt (dict_get String.eqb item "name"))%string
    (dict_get_default String.eqb item "description" "")
    (py_round2 (py_max 0 (budget_per_day * share)))
    (match dict_get String.eqb item "link" with
     | Some "" => None
     | other => other
     end).

(** The local-transport line of a day, present when a fare is charged. *)
Definition getting_around (budget_per_day : Q) (travel_guide : option TravelGuideInfo.t)
    : list Activity.t :=
  if Qltb 0 (_local_transport_cost budget_per_day travel_guide)
  then [Activity.mk "Getting around" "Metro/tram/bus (typical single ride)"
          (_local_transport_cost budget_per_day travel_guide) None]
  else [].

(** The records a travel guide carries, none when there is no guide. *)
Definition guide_attractions (travel_guide : option TravelGuideInfo.t) : list Attraction :=
  match travel_guide with
  | Some g => TravelGuideInfo.attractions g
  | None => []
  end.

Definition sample_pool : list Attraction :=
  [ [("name", "Louvre"); ("link", "https://louvre.fr"); ("description", "Museum")];
    [("name", "Eiffel Tower"); ("link", "")];
    [("name", "Montmartre")];
    [("name", "Orsay"); ("link", "https://orsay.fr")] ].

Definition sample_top_attractions (city : string) (limit : Z) : list Attraction :=
  py_take sample_pool limit.

Definition no_attractions (city : string) (limit : Z) : list Attraction := [].

(** The slot activities of a day as the code assigns them: a three-item
    window of the pool starting at [(day_offset * 3) mod len(pool)] and
    wrapping around, whose items take the first three slots in order,
    after the local-transport line; each cost is that slot's share of the
    envelope, to the cent. *)
Definition day_slots_as_amended (pool : list Attraction) (budget_per_day : Q)
    (day_offset : Z) (travel_guide : option TravelGuideInfo.t)
    (outcome : result (list Activity.t)) : Prop :=
  let n := py_len pool in
  let start := ((day_offset * 3) mod n)%Z in
  exists item0 item1 item2 slots,
    nth_error pool (Z.to_nat ((start + 0) mod n)) = Some item0
    /\ nth_error pool (Z.to_nat ((start + 1) mod n)) = Some item1
    /\ nth_error pool (Z.to_nat ((start + 2) mod n)) = Some item2
    /\ slots = [ slot_item "Morning" (32 # 100) budget_per_day item0;
                 slot_item "Afternoon" (28 # 100) budget_per_day item1;
                 slot_item "Evening" (22 # 100) budget_per_day item2 ]
    /\ outcome = Ok (getting_around budget_per_day travel_guide ++ slots)
    /\ ((0 <= budget_per_day)%Q ->
        Forall2
          (fun a slot =>
             Qabs (Activity.est_cost a - budget_per_day * snd slot) <= 1 # 200)%Q
          slots (firstn 3 slot_table)).

(** The slot activities as C8 words them: the window has three items and
    there are four slots, so items repeat and the Late slot goes to the
    first item of the window again. *)
Definition day_slots_as_claimed (pool : list Attraction) (budget_per_day : Q)
    (day_offset : Z) (travel_guide : option TravelGuideInfo.t)
    (outcome : result (list Activity.t)) : Prop :=
  let n := py_len pool in
  let start := ((day_offset * 3) mod n)%Z in
  exists item0 item1 item2,
    nth_error pool (Z.to_nat ((start + 0) mod n)) = Some item0
    /\ nth_error pool (Z.to_nat ((start + 1) mod n)) = Some item1
    /\ nth_error pool (Z.to_nat ((start + 2) mod n)) = Some item2
    /\ outcome
       = Ok (getting_around budget_per_day travel_guide
             ++ [ slot_item "Morning" (32 # 100) budget_per_day item0;
                  slot_item "Afternoon" (28 # 100) budget_per_day item1;
                  slot_item "Evening" (22 # 100) budget_per_day item2;
                  slot_item "Late" (18 # 100) budget_per_day item0 ]).

(** The names of the entries a first day in a city starts with. *)
Definition is_first_day_entry (a : Activity.t) : Prop :=
  Activity.name a = "Airport/ground transfer"
  \/ Activity.name a = "Intercity transport"
  \/ Activity.name a = "Hotel check-in".

Definition cost_nonneg (a : Activity.t) : Prop := (0 <= Activity.est_cost a)%Q.

Definition day_costs_nonneg (d : ItineraryDay.t) : Prop :=
  Forall cost_nonneg (ItineraryDay.activities d).

Definition costs_nonneg (itinerary : Itinerary.t) : Prop :=
  Forall day_costs_nonneg (Itinerary.days itinerary).

(** An ordinal that is a [date]. *)
Definition date_valid (d : Z) : Prop := (date_min_ordinal <= d <= date_max_ordinal)%Z.

(** [n] days can be planned from [date] on: there is none, or every
    [current_date += timedelta(days=1)], the one after the last day
    included, gives a date. *)
Definition days_fit (date n : Z) : bool :=
  (n =? 0)%Z || ((0 <=? date)%Z && (date + n <=? date_max_ordinal)%Z).

(** Every destination of the itinerary is the city of one of its days. *)
Definition every_destination_has_a_day (itinerary : Itinerary.t) : Prop :=
  forall c, In c (Itinerary.destinations itinerary) ->
            exists d, In d (Itinerary.days itinerary) /\ ItineraryDay.city d = c.

(** A stand-in for [datetime.strptime] that knows two clock times. *)
Definition sample_strptime (v fmt : string) : option datetime :=
  if (fmt =? "%H:%M") && (v =? "10:00") then Some (mk_datetime 1900 1 1 10 0 0 0)
  else if (fmt =? "%H:%M") && (v =? "07:30") then Some (mk_datetime 1900 1 1 7 30 0 0)
  else None.

Definition sample_flights : list FlightOption.t :=
  [ sample_flight "GYD" "CDG" "2025-06-01" 300 "10:00";
    sample_flight "CDG" "FCO" "2025-06-02" 150 "07:30" ].

(** The costs of all activities of all days, in order. *)
Definition activity_costs (itinerary : Itinerary.t) : list Q :=
  flat_map (fun day => map Activity.est_cost (ItineraryDay.activities day))
    (Itinerary.days itinerary).

(** [clamp(lo, hi, x)]. *)
Definition clamp (lo hi x : Q) : Q := Qmax lo (Qmin hi x).

(** Global reconciliation as C1 words it: when the spend exceeds the
    budget and the activities cost something, every activity cost is
    multiplied by the clamped ratio (and rounded to cents, as all costs
    are), and the total then fits the budget. *)
Definition reconciliation_as_claimed (prefs : TravelPreferences.t) (itinerary : Itinerary.t)
    (out : Outcome) : Prop :=
  let B := TravelPreferences.total_budget prefs in
  let f := BudgetBreakdown.flights (budget out) in
  let h := BudgetBreakdown.hotels (budget out) in
  let a := activities_cost_of itinerary in
  (B < f + h + a)%Q -> (0 < a)%Q ->
  final_itinerary out = _scale_activity_costs itinerary (clamp 0 1 ((B - f - h) / a))
  /\ (BudgetBreakdown.total (budget out) <= B)%Q.

(** The nights of a city: the days of the itinerary spent in it. *)
Definition nights_in (itinerary : Itinerary.t) (city : string) : Z :=
  Z.of_nat (count_occ string_dec (map ItineraryDay.city (Itinerary.days itinerary)) city).

(** The cost of the selected hotels: the nightly price of each, times the
    nights of its city, and one night for a city without a day. *)
Definition selected_hotel_cost (itinerary : Itinerary.t)
    (chosen : list (string * HotelOption.t)) : Q :=
  py_sum
    (map (fun ch =>
            (HotelOption.price (snd ch)
             * inject_Z (Z.max 1 (nights_in itinerary (fst ch))))%Q)
       chosen).

(** Global reconciliation with the bound the code meets.  The reported
    flight cost is the sum of the prices of the selected flights, the
    reported hotel cost is that of the selected hotels for their nights,
    and the reported activity cost is the sum of the costs of all
    activities of the itinerary that is left.  When these flights and
    hotels and the activities as they came exceed the budget and the
    activities cost something, every activity cost is multiplied by the
    clamped ratio and rounded to cents, and the total spend stays within
    half a cent per activity of the budget, or of the flight and hotel
    cost when these alone exceed the budget. *)
Definition reconciliation_as_amended (prefs : TravelPreferences.t) (itinerary : Itinerary.t)
    (out : Outcome) : Prop :=
  let B := TravelPreferences.total_budget prefs in
  let f := py_sum (map FlightOption.price (chosen_flights out)) in
  let h := selected_hotel_cost itinerary (chosen_hotels out) in
  let a := py_sum (activity_costs itinerary) in
  BudgetBreakdown.flights (budget out) = f
  /\ BudgetBreakdown.hotels (budget out) = h
  /\ BudgetBreakdown.activities (budget out) = py_sum (activity_costs (final_itinerary out))
  /\ ((B < f + h + a)%Q -> (0 < a)%Q ->
      final_itinerary out = _scale_activity_costs itinerary (clamp 0 1 ((B - f - h) / a))
      /\ activity_costs (final_itinerary out)
         = map (fun c => py_round2 (c * clamp 0 1 ((B - f - h) / a)))
             (activity_costs itinerary)
      /\ (f + h + py_sum (activity_costs (final_itinerary out))
          <= Qmax B (f + h) + inject_Z (py_len (activity_costs itinerary)) * (1 # 200))%Q).

(** The nights over which the hotel budget is shared: those of the
    itinerary, and [max(1, num_days)] for an itinerary without a day. *)
Definition total_nights_of (prefs : TravelPreferences.t) (itinerary : Itinerary.t) : Z :=
  let s := py_sumZ (dict_values (_nights_per_city itinerary)) in
  if (s =? 0)%Z then Z.max 1 (TravelPreferences.num_days prefs) else s.

Definition prefs_paris_100 : TravelPreferences.t :=
  TravelPreferences.mk "Baku" ["Paris"] 1 1 100%Q (Some 739000%Z) None.

Definition hotel_paris_150 : HotelOption.t :=
  HotelOption.mk "Hotel Lutetia" "Paris" "2025-06-01" "2025-06-02" 150 (9 # 2) 1200 "".

Definition itinerary_paris_one_day : Itinerary.t :=
  Itinerary.mk "Baku" ["Paris"]
    [ItineraryDay.mk 739000 "Paris" [sample_activity "Morning: Louvre" 10] None].

Definition hotel_paris_95 : HotelOption.t :=
  HotelOption.mk "Hotel du Nord" "Paris" "2025-06-01" "2025-06-02" 95 4 800 "".

(** [_flight_sort_key(a) <= _flight_sort_key(b)], as Python compares the
    two tuples. *)
Definition flight_key_le (strptime : string -> string -> option datetime)
    (a b : FlightOption.t) : Prop :=
  flight_key_cmp (_flight_sort_key strptime a) (_flight_sort_key strptime b) <> Gt.

(** What is selected for a leg: a discovered flight of that leg whose key
    is minimal among the discovered flights of the leg, and nothing when
    no discovered flight matches. *)
Definition selection_for_leg (strptime : string -> string -> option datetime)
    (flights : list FlightOption.t) (leg : string * string)
    (choice : option FlightOption.t) : Prop :=
  match choice with
  | Some f =>
      In f flights /\ flight_leg f = leg
      /\ forall g, In g flights -> flight_leg g = leg -> flight_key_le strptime f g
  | None => forall g, In g flights -> flight_leg g <> leg
  end.

(** The departure time a flight is ordered by: its parsed departure
    time, and [datetime.max] when the text does not parse. *)
Definition departure_for_sort (strptime : string -> string -> option datetime)
    (f : FlightOption.t) : datetime :=
  match _parse_departure_time strptime (FlightOption.departure_time f) with
  | Some d => d
  | None => datetime_max
  end.

(** The order of the specification, [a] before [b] or level with it: by
    price; at the same price by departure time; at the same price and
    time by the text of the departure time. *)
Definition flight_order (strptime : string -> string -> option datetime)
    (a b : FlightOption.t) : Prop :=
  (FlightOption.price a < FlightOption.price b)%Q
  \/ ((FlightOption.price a == FlightOption.price b)%Q
      /\ (datetime_cmp (departure_for_sort strptime a) (departure_for_sort strptime b) = Lt
          \/ (datetime_cmp (departure_for_sort strptime a) (departure_for_sort strptime b) = Eq
              /\ String.compare (FlightOption.departure_time a)
                   (FlightOption.departure_time b) <> Gt))).

(** The flight serves the leg: the labels of its origin and of its
    destination are those of the leg. *)
Definition flight_on_leg (f : FlightOption.t) (leg : string * string) : Prop :=
  _label_city (FlightOption.origin f) = fst leg
  /\ _label_city (FlightOption.destination f) = snd leg.

(** What the specification selects for a leg: a discovered flight that
    serves the leg and is before, or level with, every discovered flight
    that serves it; nothing when no discovered flight serves the leg. *)
Definition selected_for_leg (strptime : string -> string -> option datetime)
    (flights : list FlightOption.t) (leg : string * string)
    (choice : option FlightOption.t) : Prop :=
  match choice with
  | Some f =>
      In f flights /\ flight_on_leg f leg
      /\ forall g, In g flights -> flight_on_leg g leg -> flight_order strptime f g
  | None => forall g, In g flights -> ~ flight_on_leg g leg
  end.

(** A three-city trip, as the planner hands it to the optimizer. *)
Definition itinerary_paris_rome : Itinerary.t :=
  Itinerary.mk "Baku" ["Paris"; "Rome"]
    [ ItineraryDay.mk 739000 "Paris" [sample_activity "Morning: Louvre" 10] None;
      ItineraryDay.mk 739001 "Rome" [sample_activity "Morning: Forum" 10] None ].

Definition flights_without_middle_leg : list FlightOption.t :=
  [ sample_flight "GYD" "CDG" "2025-06-01" 120 "10:00";
    sample_flight "FCO" "GYD" "2025-06-03" 90 "late";
    sample_flight "GYD" "CDG" "2025-06-01" 120 "07:30";
    sample_flight "GYD" "CDG" "2025-06-01" 80 "noon" ].

(** Flight selection of a multi-destination trip as specified: the legs
    lead from the origin through the destinations of the itinerary and
    back; the sorted list holds the discovered flights in the order of
    the specification; a parsed departure time is never after
    [datetime.max], so that a text that does not parse sorts last; and
    the selection is, leg after leg, the flight selected for the leg,
    where there is one. *)
Definition multi_city_selection_as_specified (strptime : string -> string -> option datetime)
    (prefs : TravelPreferences.t) (flights : list FlightOption.t) (itinerary : Itinerary.t)
    : Prop :=
  let origin_label := _label_city (TravelPreferences.origin_city prefs) in
  let legs :=
    combine (origin_label :: Itinerary.destinations itinerary)
      (Itinerary.destinations itinerary ++ [origin_label]) in
  let sorted := py_sorted (flight_ltb strptime) flights in
  Permutation sorted flights
  /\ StronglySorted (flight_order strptime) sorted
  /\ (forall value d,
        _parse_departure_time strptime value = Some d ->
        datetime_cmp d datetime_max <> Gt)
  /\ exists select : string * string -> option FlightOption.t,
       (forall leg, selected_for_leg strptime flights leg (select leg))
       /\ choose_flights strptime prefs flights itinerary
          = flat_map (fun leg => match select leg with Some f => [f] | None => [] end) legs.

(* ================================================================= *)
(** * Statements about the rest of the code *)

(** One day of the plan: its date, the city before, the city, the days
    allotted to the city and the index of the day within the city. *)
Record DaySlot : Type := mk_slot {
  slot_date : Z;
  slot_prev_city : string;
  slot_city : string;
  slot_days_in_city : Z;
  slot_day_idx : Z
}.

Definition city_slots (date : Z) (prev_city city : string) (days_in_city : Z)
    : list DaySlot :=
  map (fun k => mk_slot (date + k) prev_city city days_in_city k) (py_range days_in_city).

(** The days [run] plans, flattened: the cities in allocation order, each
    with its days in a row, on consecutive dates. *)
Fixpoint schedule (date : Z) (prev_city : string) (allocation : list (string * Z))
    : list DaySlot :=
  match allocation with
  | [] => []
  | cn :: rest =>
      city_slots date prev_city (fst cn) (snd cn)
      ++ schedule (date + Z.max 0 (snd cn)) (fst cn) rest
  end.

Definition plan_slot (top_attractions : string -> Z -> list Attraction)
    (flights : list FlightOption.t) (hotels : list HotelOption.t)
    (travel_guides : list (string * TravelGuideInfo.t)) (budget_per_day : Q)
    (s : DaySlot) : result ItineraryDay.t :=
  plan_day top_attractions flights hotels travel_guides budget_per_day
    (slot_prev_city s) (slot_city s) (slot_days_in_city s) (slot_date s) (slot_day_idx s).

(** [travel_guides or {}]. *)
Definition guides_or_empty (travel_guides : option (list (string * TravelGuideInfo.t)))
    : list (string * TravelGuideInfo.t) :=
  match travel_guides with
  | Some g => g
  | None => []
  end.

(** The consecutive dates [start], [start + 1], ... *)
Definition dates_from (start : Z) (n : nat) : list Z :=
  map (fun k => (start + Z.of_nat k)%Z) (seq 0 n).

(** A sample planner run: three days over Paris and Rome. *)
Definition sample_run : result Itinerary.t :=
  run sample_top_attractions (prefs_two_cities 3) sample_flights [] None.

(** What [_fit_to_budget] and the reconciliation leave alone in an
    activity: everything but the cost. *)
Definition activity_label (a : Activity.t) : string * string * option string :=
  (Activity.name a, Activity.description a, Activity.link a).

(** The sum of the positive costs of a day. *)
Definition paid_total (activities : list Activity.t) : Q :=
  py_sum (map Activity.est_cost (filter is_paid activities)).

(** The hotels of a city: those whose location has the city's label. *)
Definition hotel_in_city (city : string) (h : HotelOption.t) : Prop :=
  _label_city (HotelOption.location h) = _label_city city.

Definition sample_hotels : list HotelOption.t :=
  [ hotel_paris_150; hotel_paris_95;
    HotelOption.mk "Albergo Roma" "Rome" "2025-06-02" "2025-06-03" 70 4 300 "" ].

Definition sample_guide : TravelGuideInfo.t :=
  TravelGuideInfo.mk ["Buy a carnet"; "Museums close on Tuesday"] (Some (215 # 100)) sample_pool.

Definition flight_prices_nonneg (flights : list FlightOption.t) : Prop :=
  Forall (fun f => 0 <= FlightOption.price f)%Q flights.

Definition hotel_prices_nonneg (hotels : list HotelOption.t) : Prop :=
  Forall (fun h => 0 <= HotelOption.price h)%Q hotels.

Definition prefs_paris_only (total_budget : Q) : TravelPreferences.t :=
  TravelPreferences.mk "Baku" ["Paris"] 3 1 total_budget (Some 739000%Z) None.

(** The selection of a single-destination trip: nothing when no flight
    was discovered, and else one discovered flight that is before, or
    level with, every discovered flight in the order of the
    specification. *)
Definition cheapest_flight_only (strptime : string -> string -> option datetime)
    (flights chosen : list FlightOption.t) : Prop :=
  match chosen with
  | [] => flights = []
  | [f] => In f flights /\ forall g, In g flights -> flight_order strptime f g
  | _ => False
  end.

(** A hotel fits the share of its city: nights times nightly price is at
    most the city's share of the hotel budget (the whole hotel budget for
    a city without a share). *)
Definition hotel_fits (nights_per_city : list (string * Z))
    (hotel_budget_per_city : list (string * Q)) (hotel_budget : Q) (city_label : string)
    (h : HotelOption.t) : Prop :=
  (HotelOption.price h
   * inject_Z (Z.max 1 (dict_get_default String.eqb nights_per_city city_label 0%Z))
   <= dict_get_default String.eqb hotel_budget_per_city city_label hotel_budget)%Q.

(** What the loop body of the hotel selection picks for one city label:
    the cheapest hotel that fits, else the cheapest of the city. *)
Definition pick_hotel (hotels : list HotelOption.t) (nights_per_city : list (string * Z))
    (hotel_budget_per_city : list (string * Q)) (hotel_budget : Q) (city_label : string)
    : option HotelOption.t :=
  match
    py_min_by hotel_price_ltb
      (filter
         (fun h =>
            (_label_city (HotelOption.location h) =? city_label)
            && Qleb
                 (HotelOption.price h
                  * inject_Z
                      (Z.max 1%Z
                         (dict_get_default String.eqb nights_per_city city_label 0%Z)))
                 (dict_get_default String.eqb hotel_budget_per_city city_label hotel_budget))
         hotels)
  with
  | Some h => Some h
  | None =>
      py_min_by hotel_price_ltb
        (filter (fun h => _label_city (HotelOption.location h) =? city_label) hotels)
  end.

(** The hotel of a declared city: a discovered hotel of that city, the
    cheapest of those that fit the city's share, or, when none fits, the
    cheapest of the city; no entry when the city has no discovered hotel. *)
Definition hotel_choice (hotels : list HotelOption.t) (nights_per_city : list (string * Z))
    (hotel_budget_per_city : list (string * Q)) (hotel_budget : Q) (city_label : string)
    (choice : option HotelOption.t) : Prop :=
  let located h := In h hotels /\ _label_city (HotelOption.location h) = city_label in
  let fits := hotel_fits nights_per_city hotel_budget_per_city hotel_budget city_label in
  match choice with
  | Some h =>
      located h
      /\ ((fits h
           /\ forall h', located h' -> fits h' ->
                         (HotelOption.price h <= HotelOption.price h')%Q)
          \/ ((forall h', located h' -> ~ fits h')
              /\ forall h', located h' ->
                            (HotelOption.price h <= HotelOption.price h')%Q))
  | None => forall h, ~ located h
  end.

(** The first day of the stay in each city of an allocation that starts
    on [start_date]. *)
Definition stay_starts (start_date : Z) (allocation : list (string * Z)) : list Z :=
  map (fun i => (start_date + py_sumZ (firstn i (dict_values allocation)))%Z)
    (seq 0 (List.length allocation)).

Definition sample_guides : list (string * TravelGuideInfo.t) :=
  [ ("Paris", sample_guide);
    ("Rome", TravelGuideInfo.mk ["Carry coins"; "Buy a carnet"; "Carry coins"] None []) ].

Definition all_spaces (s : string) : bool := string_forallb is_space s.

(** The days between the first and the day after the last departure that
    the flight finder computes: every leg takes [max(1, num_days //
    num_cities)] days, and the first [num_days % num_cities] one more. *)
Definition flight_legs_span (prefs : TravelPreferences.t) : Z :=
  let num_cities := Z.max 1 (py_len (TravelPreferences.destinations prefs)) in
  (num_cities * Z.max 1 (TravelPreferences.num_days prefs / num_cities)
   + TravelPreferences.num_days prefs mod num_cities)%Z.







(** The position of the first occurrence of [t] in [l]; the length of [l]
    when [t] does not occur. *)
Fixpoint first_index (t : string) (l : list string) : nat :=
  match l with
  | [] => O
  | x :: r => if String.eqb x t then O else S (first_index t r)
  end.

(* ================================================================= *)
(** * Properties *)

(** ** Rational comparisons, [max], [min], [sum], [round] *)

Lemma Qltb_lt (a b : Q) : Qltb a b = true <-> (a < b)%Q.
Proof.
  unfold Qltb. rewrite Qlt_alt. destruct (a ?= b)%Q; split; congruence.
Qed.

Lemma Qltb_ge (a b : Q) : Qltb a b = false <-> (b <= a)%Q.
Proof.
  split.
  - intros H. apply Qnot_lt_le. intros L. apply Qltb_lt in L. congruence.
  - intros H. destruct (Qltb a b) eqn:E; [|reflexivity].
    apply Qltb_lt in E. exfalso. apply (Qlt_not_le _ _ E H).
Qed.

Lemma Qleb_le (a b : Q) : Qleb a b = true <-> (a <= b)%Q.
Proof.
  unfold Qleb. rewrite Qle_alt. destruct (a ?= b)%Q; split; congruence.
Qed.

Lemma Qleb_gt (a b : Q) : Qleb a b = false <-> (b < a)%Q.
Proof.
  split.
  - intros H. apply Qnot_le_lt. intros L. apply Qleb_le in L. congruence.
  - intros H. destruct (Qleb a b) eqn:E; [|reflexivity].
    apply Qleb_le in E. exfalso. apply (Qlt_not_le _ _ H E).
Qed.

Lemma py_max_cases (a b : Q) :
  ((a < b)%Q /\ py_max a b = b) \/ ((b <= a)%Q /\ py_max a b = a).
Proof.
  unfold py_max. destruct (Qltb a b) eqn:E.
  - left. split; [apply Qltb_lt, E | reflexivity].
  - right. split; [apply Qltb_ge, E | reflexivity].
Qed.

Lemma py_min_cases (a b : Q) :
  ((b < a)%Q /\ py_min a b = b) \/ ((a <= b)%Q /\ py_min a b = a).
Proof.
  unfold py_min. destruct (Qltb b a) eqn:E.
  - left. split; [apply Qltb_lt, E | reflexivity].
  - right. split; [apply Qltb_ge, E | reflexivity].
Qed.

Lemma py_max_Qmax (a b : Q) : (py_max a b == Qmax a b)%Q.
Proof.
  destruct (py_max_cases a b) as [[L ->] | [L ->]].
  - symmetry. apply Q.max_r. lra.
  - symmetry. apply Q.max_l. exact L.
Qed.

Lemma py_min_Qmin (a b : Q) : (py_min a b == Qmin a b)%Q.
Proof.
  destruct (py_min_cases a b) as [[L ->] | [L ->]].
  - symmetry. apply Q.min_r. lra.
  - symmetry. apply Q.min_l. exact L.
Qed.

Lemma fold_left_Qplus_acc (l : list Q) (a : Q) :
  (fold_left Qplus l a == a + fold_left Qplus l 0)%Q.
Proof.
  revert a. induction l as [|x l IH]; intros a; simpl.
  - lra.
  - rewrite (IH (a + x)%Q), (IH (0 + x)%Q). lra.
Qed.

Lemma py_sum_cons (x : Q) (l : list Q) : (py_sum (x :: l) == x + py_sum l)%Q.
Proof.
  unfold py_sum. simpl. rewrite fold_left_Qplus_acc. lra.
Qed.

Lemma py_sum_app (l1 l2 : list Q) : (py_sum (l1 ++ l2) == py_sum l1 + py_sum l2)%Q.
Proof.
  induction l1 as [|x l1 IH]; simpl.
  - unfold py_sum at 2. simpl. lra.
  - rewrite !py_sum_cons, IH. lra.
Qed.

Lemma py_sum_nonneg (l : list Q) :
  Forall (fun x => 0 <= x)%Q l -> (0 <= py_sum l)%Q.
Proof.
  induction 1 as [|x l Hx _ IH].
  - unfold py_sum. simpl. lra.
  - rewrite py_sum_cons. lra.
Qed.

Lemma fold_left_Zadd_acc (l : list Z) (a : Z) :
  fold_left Z.add l a = (a + fold_left Z.add l 0)%Z.
Proof.
  revert a. induction l as [|x l IH]; intros a; simpl.
  - lia.
  - rewrite (IH (a + x)%Z), (IH x). lia.
Qed.

Lemma py_sumZ_cons (x : Z) (l : list Z) : py_sumZ (x :: l) = (x + py_sumZ l)%Z.
Proof.
  unfold py_sumZ. simpl. rewrite fold_left_Zadd_acc. reflexivity.
Qed.

Lemma py_sumZ_app (l1 l2 : list Z) : py_sumZ (l1 ++ l2) = (py_sumZ l1 + py_sumZ l2)%Z.
Proof.
  induction l1 as [|x l1 IH]; simpl.
  - reflexivity.
  - rewrite !py_sumZ_cons, IH. lia.
Qed.

Lemma py_sumZ_nonneg (l : list Z) : Forall (fun v => 0 <= v)%Z l -> (0 <= py_sumZ l)%Z.
Proof.
  induction 1 as [|x l Hx _ IH]; [unfold py_sumZ; simpl; lia|].
  rewrite py_sumZ_cons. lia.
Qed.

Lemma round_half_even_near (x : Q) :
  (inject_Z (round_half_even x) - x <= 1 # 2)%Q
  /\ (x - inject_Z (round_half_even x) <= 1 # 2)%Q.
Proof.
  unfold round_half_even.
  pose proof (Qfloor_le x) as Hlo.
  pose proof (Qlt_floor x) as Hhi.
  rewrite inject_Z_plus in Hhi.
  change (inject_Z 1) with 1%Q in Hhi.
  destruct (x - inject_Z (Qfloor x) ?= 1 # 2)%Q eqn:E.
  - apply Qeq_alt in E.
    destruct (Z.even (Qfloor x)); [|rewrite inject_Z_plus; change (inject_Z 1) with 1%Q];
      split; lra.
  - apply Qlt_alt in E. split; lra.
  - apply Qgt_alt in E. rewrite inject_Z_plus. change (inject_Z 1) with 1%Q. split; lra.
Qed.

Lemma round_half_even_nonneg (x : Q) : (0 <= x)%Q -> (0 <= round_half_even x)%Z.
Proof.
  intros Hx. unfold round_half_even.
  assert (0 <= Qfloor x)%Z as Hf.
  { change 0%Z with (Qfloor 0). apply Qfloor_resp_le, Hx. }
  destruct (x - inject_Z (Qfloor x) ?= 1 # 2)%Q; [destruct (Z.even (Qfloor x))| |]; lia.
Qed.

Lemma round_half_even_comp (x y : Q) : (x == y)%Q -> round_half_even x = round_half_even y.
Proof.
  intros E. unfold round_half_even.
  rewrite (Qfloor_comp x y E).
  assert (x - inject_Z (Qfloor y) == y - inject_Z (Qfloor y))%Q as E' by (rewrite E; reflexivity).
  rewrite (Qcompare_comp _ _ E' (1 # 2) (1 # 2) (Qeq_refl _)). reflexivity.
Qed.

Lemma Qmake_100 (z : Z) : (z # 100 == inject_Z z * (1 # 100))%Q.
Proof. unfold Qeq, inject_Z. simpl. lia. Qed.

Lemma py_round2_nonneg (x : Q) : (0 <= x)%Q -> (0 <= py_round2 x)%Q.
Proof.
  intros Hx. unfold py_round2.
  assert (0 <= round_half_even (x * 100))%Z as H.
  { apply round_half_even_nonneg. lra. }
  unfold Qle. simpl. lia.
Qed.

Lemma py_round2_near (x : Q) :
  (py_round2 x - x <= 1 # 200)%Q /\ (x - py_round2 x <= 1 # 200)%Q.
Proof.
  unfold py_round2. rewrite Qmake_100.
  destruct (round_half_even_near (x * 100)) as [H1 H2]. split; lra.
Qed.

Lemma py_round2_comp (x y : Q) : (x == y)%Q -> py_round2 x = py_round2 y.
Proof.
  intros E. unfold py_round2. f_equal. apply round_half_even_comp. rewrite E. reflexivity.
Qed.

(** ** The result monad *)

Lemma bind_Ok {A B : Type} (m : result A) (k : A -> result B) (b : B) :
  bind m k = Ok b -> exists a, m = Ok a /\ k a = Ok b.
Proof.
  destruct m as [a|e]; simpl; intros H; [exists a; auto | discriminate].
Qed.

Lemma py_floordiv_ok (a b : Z) : b <> 0%Z -> py_floordiv a b = Ok (a / b)%Z.
Proof.
  intros H. unfold py_floordiv. destruct (Z.eqb_spec b 0); [contradiction | reflexivity].
Qed.

Lemma py_mod_ok (a b : Z) : b <> 0%Z -> py_mod a b = Ok (a mod b)%Z.
Proof.
  intros H. unfold py_mod. destruct (Z.eqb_spec b 0); [contradiction | reflexivity].
Qed.

Lemma py_truediv_ok (a b : Q) : ~ (b == 0)%Q -> py_truediv a b = Ok (a / b)%Q.
Proof.
  intros H. unfold py_truediv. destruct (Qeq_bool b 0) eqn:E; [|reflexivity].
  apply Qeq_bool_iff in E. contradiction.
Qed.

(** ** Sequences *)

Lemma py_len_nonneg {A : Type} (l : list A) : (0 <= py_len l)%Z.
Proof. unfold py_len. lia. Qed.

Lemma py_len_pos {A : Type} (l : list A) : l <> [] -> (0 < py_len l)%Z.
Proof. destruct l; [congruence | unfold py_len; simpl; lia]. Qed.

Lemma py_range_len {A : Type} (l : list A) :
  py_range (py_len l) = map Z.of_nat (seq 0 (List.length l)).
Proof. unfold py_range, py_len. rewrite Nat2Z.id. reflexivity. Qed.

Lemma enumerate_from {A : Type} (l : list A) (s : nat) :
  combine (map Z.of_nat (seq s (List.length l))) l
  = map (fun p => (Z.of_nat (fst p), snd p)) (combine (seq s (List.length l)) l).
Proof.
  revert s. induction l as [|x l IH]; intros s; simpl; [reflexivity|].
  rewrite IH. reflexivity.
Qed.

Lemma nth_error_combine_seq {A : Type} (l : list A) (s i : nat) (x : A) :
  nth_error l i = Some x ->
  nth_error (combine (seq s (List.length l)) l) i = Some ((s + i)%nat, x).
Proof.
  revert s i. induction l as [|y l IH]; intros s [|i] H; simpl in *; try discriminate.
  - injection H as ->. rewrite Nat.add_0_r. reflexivity.
  - rewrite (IH (S s) i H). f_equal. f_equal. lia.
Qed.

Lemma nth_error_enumerate {A : Type} (l : list A) (i : nat) (x : A) :
  nth_error l i = Some x -> nth_error (enumerate l) i = Some (Z.of_nat i, x).
Proof.
  intros H. unfold enumerate. rewrite py_range_len, enumerate_from.
  rewrite nth_error_map, (nth_error_combine_seq l 0 i x H). reflexivity.
Qed.

Lemma map_snd_enumerate {A : Type} (l : list A) : map snd (enumerate l) = l.
Proof.
  unfold enumerate. rewrite py_range_len.
  generalize 0%nat. induction l as [|x l IH]; intros s; simpl; [reflexivity|].
  rewrite IH. reflexivity.
Qed.

Lemma map_fst_enumerate {A : Type} (l : list A) :
  map fst (enumerate l) = map Z.of_nat (seq 0 (List.length l)).
Proof.
  unfold enumerate. rewrite py_range_len.
  generalize 0%nat. induction l as [|x l IH]; intros s; simpl; [reflexivity|].
  rewrite IH. reflexivity.
Qed.

(** ** Dicts *)

Section DictFacts.
Context {K V : Type} (eqb : K -> K -> bool).
Hypothesis eqb_spec : forall a b, eqb a b = true <-> a = b.

Lemma eqb_refl_of (a : K) : eqb a a = true.
Proof. apply eqb_spec. reflexivity. Qed.

Lemma eqb_neq_of (a b : K) : a <> b -> eqb a b = false.
Proof.
  intros H. destruct (eqb a b) eqn:E; [|reflexivity].
  apply eqb_spec in E. contradiction.
Qed.

Lemma dict_get_None (d : list (K * V)) (k : K) :
  dict_get eqb d k = None <-> ~ In k (dict_keys d).
Proof.
  induction d as [|[k' v] d IH]; simpl.
  - tauto.
  - destruct (eqb k' k) eqn:E.
    + apply eqb_spec in E. split; [discriminate | intros H; exfalso; apply H; auto].
    + rewrite IH. split.
      * intros H [H1 | H1]; [|tauto]. subst. rewrite eqb_refl_of in E. discriminate.
      * tauto.
Qed.

Lemma dict_get_In (d : list (K * V)) (k : K) (v : V) :
  dict_get eqb d k = Some v -> In (k, v) d.
Proof.
  induction d as [|[k' v'] d IH]; simpl; [discriminate|].
  destruct (eqb k' k) eqn:E.
  - apply eqb_spec in E. intros H. injection H as ->. subst. auto.
  - auto.
Qed.

Lemma dict_set_fresh (d : list (K * V)) (k : K) (v : V) :
  ~ In k (dict_keys d) -> dict_set eqb d k v = d ++ [(k, v)].
Proof.
  induction d as [|[k' v'] d IH]; simpl; intros H; [reflexivity|].
  rewrite (eqb_neq_of k' k) by (intros ->; tauto).
  rewrite IH by tauto. reflexivity.
Qed.

Lemma dict_get_set (d : list (K * V)) (k k' : K) (v : V) :
  dict_get eqb (dict_set eqb d k v) k' = if eqb k k' then Some v else dict_get eqb d k'.
Proof.
  induction d as [|[k0 v0] d IH]; simpl.
  - reflexivity.
  - destruct (eqb k0 k) eqn:E; simpl.
    + apply eqb_spec in E. subst. destruct (eqb k k'); reflexivity.
    + rewrite IH. destruct (eqb k0 k') eqn:E'; [|reflexivity].
      apply eqb_spec in E'. subst k0.
      destruct (eqb k k') eqn:E2; [|reflexivity].
      apply eqb_spec in E2. subst k'. rewrite eqb_refl_of in E. discriminate.
Qed.

Lemma dict_keys_set (d : list (K * V)) (k : K) (v : V) :
  forall x, In x (dict_keys (dict_set eqb d k v)) <-> x = k \/ In x (dict_keys d).
Proof.
  intros x. induction d as [|[k0 v0] d IH]; simpl.
  - intuition auto.
  - destruct (eqb k0 k) eqn:E; simpl.
    + apply eqb_spec in E. subst. intuition auto.
    + rewrite IH. intuition auto.
Qed.

(** Storing entries with pairwise distinct fresh keys appends them in order. *)
Lemma fold_dict_set_fresh {X : Type} (key : X -> K) (val : X -> V) (l : list X) :
  forall d,
    NoDup (map key l) ->
    (forall x, In x l -> ~ In (key x) (dict_keys d)) ->
    fold_left (fun d x => dict_set eqb d (key x) (val x)) l d
    = d ++ map (fun x => (key x, val x)) l.
Proof.
  induction l as [|x l IH]; intros d ND Hfresh; simpl.
  - rewrite app_nil_r. reflexivity.
  - inversion ND as [|? ? Hx ND']; subst.
    rewrite dict_set_fresh by (apply Hfresh; simpl; auto).
    rewrite IH; [rewrite <- app_assoc; reflexivity | exact ND' |].
    intros y Hy. unfold dict_keys. rewrite map_app, in_app_iff. simpl.
    intros [H | [H | []]].
    + apply (Hfresh y); [simpl; auto | exact H].
    + apply Hx. rewrite H. apply in_map, Hy.
Qed.

Lemma dict_get_nth (d : list (K * V)) (i : nat) (k : K) (v : V) :
  NoDup (dict_keys d) -> nth_error d i = Some (k, v) -> dict_get eqb d k = Some v.
Proof.
  revert i. induction d as [|[k0 v0] d IH]; intros [|i] ND H; simpl in *; try discriminate.
  - injection H as -> ->. rewrite eqb_refl_of. reflexivity.
  - inversion ND as [|? ? Hk ND']; subst.
    rewrite eqb_neq_of.
    + apply (IH i ND' H).
    + intros ->. apply Hk. apply nth_error_In in H.
      change k with (fst (k, v)). apply in_map, H.
Qed.

End DictFacts.

Lemma string_eqb_spec (a b : string) : (a =? b) = true <-> a = b.
Proof. apply String.eqb_eq. Qed.

(** ** DayAllocator *)

Lemma py_sumZ_single (x : Z) : py_sumZ [x] = x.
Proof. unfold py_sumZ. simpl. lia. Qed.

Lemma sum_day_counts (n : nat) (base r : Z) :
  (0 <= r)%Z ->
  py_sumZ (map (fun i => base + (if i <? r then 1 else 0))%Z (map Z.of_nat (seq 0 n)))
  = (Z.of_nat n * base + Z.min r (Z.of_nat n))%Z.
Proof.
  intros Hr. induction n as [|n IH].
  - simpl. unfold py_sumZ. simpl. lia.
  - rewrite seq_S, !map_app, py_sumZ_app, IH. simpl map. rewrite py_sumZ_single.
    destruct (Z.ltb_spec (Z.of_nat n) r); lia.
Qed.

(** On a route without repeated cities the allocation lists the cities in
    route order, each with the count of its position. *)
Lemma allocate_days_nodup (total_days : Z) (cities : list string) :
  cities <> [] ->
  NoDup cities ->
  _allocate_days total_days cities
  = Ok (map (fun ic =>
               (snd ic,
                (Z.max 1 total_days / py_len cities
                 + (if fst ic <? Z.max 1 total_days mod py_len cities then 1 else 0))%Z))
            (enumerate cities)).
Proof.
  intros Hne ND. unfold _allocate_days.
  pose proof (py_len_pos cities Hne) as Hlen.
  rewrite py_floordiv_ok, py_mod_ok by lia. simpl bind. f_equal.
  rewrite (fold_dict_set_fresh String.eqb string_eqb_spec snd
             (fun ic => (Z.max 1 total_days / py_len cities
                         + (if fst ic <? Z.max 1 total_days mod py_len cities
                            then 1 else 0))%Z)).
  - reflexivity.
  - rewrite map_snd_enumerate. exact ND.
  - intros x _ [].
Qed.

Lemma allocate_days_nodup_specified (total_days : Z) (cities : list string) :
  (1 <= total_days)%Z ->
  cities <> [] ->
  NoDup cities ->
  exists allocation,
    _allocate_days total_days cities = Ok allocation
    /\ dict_keys allocation = cities
    /\ allocation_as_specified total_days cities allocation.
Proof.
  intros Hd Hne ND. eexists. split; [apply (allocate_days_nodup _ _ Hne ND)|].
  replace (Z.max 1 total_days) with total_days by lia.
  pose proof (py_len_pos cities Hne) as Hlen.
  assert (Hkeys : forall (f : Z * string -> Z),
             dict_keys (map (fun ic => (snd ic, f ic)) (enumerate cities)) = cities).
  { intros f. unfold dict_keys. rewrite map_map. simpl. apply map_snd_enumerate. }
  split; [apply Hkeys|]. split.
  - unfold dict_values. rewrite map_map. simpl.
    rewrite <- (map_map fst (fun i => (total_days / py_len cities
                  + (if i <? total_days mod py_len cities then 1 else 0))%Z)).
    rewrite map_fst_enumerate, sum_day_counts.
    + fold (py_len cities).
      pose proof (Z.mod_pos_bound total_days (py_len cities) Hlen).
      pose proof (Z.div_mod total_days (py_len cities)). lia.
    + apply Z.mod_pos_bound, Hlen.
  - intros i city Hi.
    apply (dict_get_nth String.eqb string_eqb_spec _ i).
    + rewrite Hkeys. exact ND.
    + rewrite nth_error_map, (nth_error_enumerate _ _ _ Hi). reflexivity.
Qed.

(** C2 (as amended).  For every trip length [d >= 1] and every non-empty
    route in which no city is repeated, [_allocate_days] returns a mapping
    whose keys are the cities in route order, whose counts sum to [d], and
    in which the first [d mod N] cities have [d // N + 1] days and the
    others [d // N]. *)
Theorem allocate_days_distinct_cities (total_days : Z) (cities : list string) :
  (1 <= total_days)%Z ->
  cities <> [] ->
  NoDup cities ->
  exists allocation,
    _allocate_days total_days cities = Ok allocation
    /\ dict_keys allocation = cities
    /\ allocation_as_specified total_days cities allocation.
Proof. apply allocate_days_nodup_specified. Qed.

Lemma allocate_days_distinct_cities_witness :
  exists allocation,
    _allocate_days 7 ["Paris"; "Rome"; "Vienna"] = Ok allocation
    /\ dict_keys allocation = ["Paris"; "Rome"; "Vienna"]
    /\ allocation_as_specified 7 ["Paris"; "Rome"; "Vienna"] allocation.
Proof.
  apply allocate_days_distinct_cities.
  - lia.
  - discriminate.
  - repeat constructor; simpl; intuition discriminate.
Defined.

(** C2 (as stated) fails on a list that names a city twice: the second
    store overwrites the first, so the counts no longer sum to the trip
    length. *)
Lemma allocate_days_repeated_city :
  ~ (exists allocation,
       _allocate_days 3 ["Paris"; "Paris"] = Ok allocation
       /\ allocation_as_specified 3 ["Paris"; "Paris"] allocation).
Proof.
  intros [allocation [H [Hsum _]]].
  vm_compute in H. injection H as <-. vm_compute in Hsum. discriminate.
Qed.

(** C6.  The city count is not clamped: on an empty route
    [total_days // len(cities)] raises, and [run] with it.  The route is
    empty when every declared destination is the origin. *)
Theorem run_empty_route_raises (top_attractions : string -> Z -> list Attraction) :
  _build_city_route prefs_round_trip_home [] = []
  /\ _allocate_days (TravelPreferences.num_days prefs_round_trip_home) []
     = Raise ZeroDivisionError
  /\ run top_attractions prefs_round_trip_home [] [] None = Raise ZeroDivisionError.
Proof. repeat split. Qed.

(** ** Comparison orders and [sorted] *)

Section CmpOrderFacts.
Context {A : Type} (cmp : A -> A -> comparison) {O : CmpOrder cmp}.

Lemma cmp_refl (a : A) : cmp a a = Eq.
Proof.
  pose proof (cmp_antisym a a) as H. destruct (cmp a a); simpl in H; congruence.
Qed.

Lemma cmp_eq_sym (a b : A) : cmp a b = Eq -> cmp b a = Eq.
Proof.
  intros H. pose proof (cmp_antisym b a) as H'. rewrite H in H'. exact H'.
Qed.

Lemma cmp_eq_r (a b c : A) : cmp b c = Eq -> cmp a b = cmp a c.
Proof.
  intros H. rewrite (cmp_antisym a b), (cmp_antisym a c).
  f_equal. apply cmp_eq_l, H.
Qed.

Lemma cmp_gt_lt (a b : A) : cmp a b = Gt <-> cmp b a = Lt.
Proof.
  rewrite (cmp_antisym a b). destruct (cmp b a); simpl; split; congruence.
Qed.

Lemma cmp_le_trans (a b c : A) : cmp a b <> Gt -> cmp b c <> Gt -> cmp a c <> Gt.
Proof.
  intros H1 H2.
  destruct (cmp a b) eqn:E1; [| |congruence].
  - rewrite (cmp_eq_l a b c E1). exact H2.
  - destruct (cmp b c) eqn:E2; [| |congruence].
    + rewrite <- (cmp_eq_r a b c E2), E1. discriminate.
    + rewrite (cmp_lt_trans a b c E1 E2). discriminate.
Qed.

Lemma cmp_lt_le_trans (a b c : A) : cmp a b = Lt -> cmp b c <> Gt -> cmp a c = Lt.
Proof.
  intros H1 H2. destruct (cmp b c) eqn:E2; [| |congruence].
  - rewrite <- (cmp_eq_r a b c E2). exact H1.
  - apply (cmp_lt_trans a b c H1 E2).
Qed.

Lemma cmp_ltb_false (a b : A) : cmp_ltb cmp a b = false <-> cmp b a <> Gt.
Proof.
  unfold cmp_ltb. rewrite (cmp_antisym b a).
  destruct (cmp a b); simpl; split; congruence.
Qed.

Lemma cmp_ltb_true (a b : A) : cmp_ltb cmp a b = true <-> cmp a b = Lt.
Proof. unfold cmp_ltb. destruct (cmp a b); split; congruence. Qed.

End CmpOrderFacts.

#[local] Instance Z_CmpOrder : CmpOrder Z.compare.
Proof.
  split.
  - intros a b. apply Z.compare_antisym.
  - intros a b c. rewrite !Z.compare_lt_iff. lia.
  - intros a b c H. apply Z.compare_eq in H. subst. reflexivity.
Qed.

#[local] Instance Q_CmpOrder : CmpOrder Qcompare.
Proof.
  split.
  - intros a b. symmetry. apply Qcompare_antisym.
  - intros a b c. rewrite <- !Qlt_alt. apply Qlt_trans.
  - intros a b c H. apply Qeq_alt in H. rewrite H. reflexivity.
Qed.

Lemma ascii_compare_refl (a : ascii) : Ascii.compare a a = Eq.
Proof. unfold Ascii.compare. apply N.compare_refl. Qed.

Lemma ascii_compare_lt_trans (a b c : ascii) :
  Ascii.compare a b = Lt -> Ascii.compare b c = Lt -> Ascii.compare a c = Lt.
Proof.
  unfold Ascii.compare. rewrite !N.compare_lt_iff. apply N.lt_trans.
Qed.

Lemma string_compare_lt_trans (a b c : string) :
  String.compare a b = Lt -> String.compare b c = Lt -> String.compare a c = Lt.
Proof.
  revert b c. induction a as [|x a IH]; intros [|y b] [|z c]; simpl; try congruence.
  destruct (Ascii.compare x y) eqn:E1; destruct (Ascii.compare y z) eqn:E2;
    try discriminate; intros H1 H2.
  - apply Ascii.compare_eq_iff in E1, E2. subst. rewrite ascii_compare_refl.
    apply (IH b c H1 H2).
  - apply Ascii.compare_eq_iff in E1. subst. rewrite E2. reflexivity.
  - apply Ascii.compare_eq_iff in E2. subst. rewrite E1. reflexivity.
  - rewrite (ascii_compare_lt_trans x y z E1 E2). reflexivity.
Qed.

#[local] Instance string_CmpOrder : CmpOrder String.compare.
Proof.
  split.
  - apply String.compare_antisym.
  - apply string_compare_lt_trans.
  - intros a b c H. apply String.compare_eq_iff in H. subst. reflexivity.
Qed.

#[local] Instance lex_CmpOrder {A B : Type} (ca : A -> A -> comparison)
    (cb : B -> B -> comparison) {OA : CmpOrder ca} {OB : CmpOrder cb} :
  CmpOrder (lex_cmp ca cb).
Proof.
  split; unfold lex_cmp.
  - intros [a1 b1] [a2 b2]. simpl. rewrite (cmp_antisym (cmp := ca) a1 a2).
    destruct (ca a2 a1); simpl; [apply cmp_antisym | reflexivity | reflexivity].
  - intros [a1 b1] [a2 b2] [a3 b3]. simpl.
    destruct (ca a1 a2) eqn:E1; try discriminate;
      destruct (ca a2 a3) eqn:E2; try discriminate; intros H1 H2.
    + rewrite (cmp_eq_l a1 a2 a3 E1), E2. apply (cmp_lt_trans _ _ _ H1 H2).
    + rewrite (cmp_eq_l a1 a2 a3 E1), E2. reflexivity.
    + rewrite <- (cmp_eq_r ca a1 a2 a3 E2), E1. reflexivity.
    + rewrite (cmp_lt_trans a1 a2 a3 E1 E2). reflexivity.
  - intros [a1 b1] [a2 b2] [a3 b3]. simpl.
    destruct (ca a1 a2) eqn:E1; try discriminate. intros H.
    rewrite (cmp_eq_l a1 a2 a3 E1).
    destruct (ca a2 a3); [apply cmp_eq_l, H | reflexivity | reflexivity].
Qed.

Section SortedFacts.
Context {A K : Type} (cmp : K -> K -> comparison) {O : CmpOrder cmp} (key : A -> K).

Let ltb (a b : A) : bool := cmp_ltb cmp (key a) (key b).
Let le (a b : A) : Prop := cmp (key a) (key b) <> Gt.

Lemma insert_sorted_perm (lt : A -> A -> bool) (x : A) (l : list A) :
  Permutation (insert_sorted lt x l) (x :: l).
Proof.
  induction l as [|y l IH]; simpl.
  - apply Permutation_refl.
  - destruct (lt y x).
    + eapply Permutation_trans; [apply perm_skip, IH | apply perm_swap].
    + apply Permutation_refl.
Qed.

Lemma py_sorted_perm (lt : A -> A -> bool) (l : list A) : Permutation (py_sorted lt l) l.
Proof.
  induction l as [|x l IH]; simpl.
  - apply Permutation_refl.
  - eapply Permutation_trans; [apply insert_sorted_perm | apply perm_skip, IH].
Qed.

Lemma insert_sorted_sorted (x : A) (l : list A) :
  StronglySorted le l -> StronglySorted le (insert_sorted ltb x l).
Proof.
  induction 1 as [|y l Hs IH Hy]; simpl.
  - repeat constructor.
  - destruct (ltb y x) eqn:E.
    + constructor; [exact IH|].
      apply (Permutation_Forall (Permutation_sym (insert_sorted_perm ltb x l))).
      constructor; [|exact Hy].
      apply cmp_ltb_true in E. unfold le. rewrite E. discriminate.
    + apply (cmp_ltb_false cmp) in E.
      constructor; [constructor; assumption|].
      constructor; [exact E|].
      eapply Forall_impl; [|exact Hy].
      intros z Hz. apply (cmp_le_trans cmp _ (key y)); assumption.
Qed.

Lemma py_sorted_sorted (l : list A) : StronglySorted le (py_sorted ltb l).
Proof.
  induction l as [|x l IH]; simpl; [constructor | apply insert_sorted_sorted, IH].
Qed.

End SortedFacts.

(** ** RouteBuilder *)

Lemma str_in_In (x : string) (l : list string) : str_in x l = true <-> In x l.
Proof.
  unfold str_in. rewrite existsb_exists. split.
  - intros [y [Hy E]]. apply String.eqb_eq in E. subst. exact Hy.
  - intros H. exists x. split; [exact H | apply String.eqb_refl].
Qed.

Lemma str_in_ext (s1 s2 : list string) (x : string) :
  (forall y, In y s1 <-> In y s2) -> str_in x s1 = str_in x s2.
Proof.
  intros H. destruct (str_in x s1) eqn:E1; destruct (str_in x s2) eqn:E2; try reflexivity.
  - apply str_in_In, H, str_in_In in E1. congruence.
  - apply str_in_In, H, str_in_In in E2. congruence.
Qed.

Lemma collect_ext (l : list string) :
  forall s1 s2, (forall y, In y s1 <-> In y s2) -> collect s1 l = collect s2 l.
Proof.
  induction l as [|c l IH]; intros s1 s2 H; simpl; [reflexivity|].
  rewrite (str_in_ext s1 s2 c H). destruct (str_in c s2).
  - apply IH, H.
  - f_equal. apply IH. intros y. simpl. rewrite H. reflexivity.
Qed.

Lemma collect_In (l : list string) :
  forall seen x, In x (collect seen l) -> In x l /\ ~ In x seen.
Proof.
  induction l as [|c l IH]; intros seen x; simpl; [tauto|].
  destruct (str_in c seen) eqn:E.
  - intros H. apply IH in H. tauto.
  - intros [<- | H].
    + split; [auto|]. intros H. apply str_in_In in H. congruence.
    + apply IH in H. simpl in H. tauto.
Qed.

Lemma collect_NoDup (l : list string) : forall seen, NoDup (collect seen l).
Proof.
  induction l as [|c l IH]; intros seen; simpl; [constructor|].
  destruct (str_in c seen); [apply IH|].
  constructor; [|apply IH].
  intros H. apply collect_In in H. simpl in H. tauto.
Qed.

Lemma collect_nil (l : list string) :
  forall seen, collect seen l = [] -> forall x, In x l -> In x seen.
Proof.
  induction l as [|c l IH]; intros seen H x; simpl in *; [tauto|].
  destruct (str_in c seen) eqn:E; [|discriminate].
  intros [<- | Hx]; [apply str_in_In, E | apply (IH seen H x Hx)].
Qed.

(** The loop of [_build_city_route] appends to the route what [collect]
    collects. *)
Lemma route_walk_collect (origin_label : string) (labels : list string) :
  forall route,
    fold_left (route_append origin_label) labels route
    = route ++ collect (origin_label :: route) labels.
Proof.
  induction labels as [|c labels IH]; intros route; simpl fold_left.
  - simpl. rewrite app_nil_r. reflexivity.
  - unfold route_append at 2. simpl collect. unfold str_in at 2. simpl existsb.
    fold (str_in c route).
    destruct (c =? origin_label); simpl orb; [apply IH|].
    destruct (str_in c route); [apply IH|].
    rewrite IH, <- app_assoc. simpl. do 2 f_equal.
    apply collect_ext. intros y. simpl. rewrite in_app_iff. simpl. tauto.
Qed.

Lemma fold_left_map_fuse {A B S : Type} (f : S -> B -> S) (g : A -> B) (l : list A) :
  forall s, fold_left f (map g l) s = fold_left (fun s x => f s (g x)) l s.
Proof.
  induction l as [|x l IH]; intros s; simpl; [reflexivity | apply IH].
Qed.

Lemma filter_all {A : Type} (f : A -> bool) (l : list A) :
  (forall x, In x l -> f x = true) -> filter f l = l.
Proof.
  induction l as [|x l IH]; simpl; intros H; [reflexivity|].
  rewrite (H x) by auto. f_equal. apply IH. auto.
Qed.

Lemma filter_none {A : Type} (f : A -> bool) (l : list A) :
  (forall x, In x l -> f x = false) -> filter f l = [].
Proof.
  induction l as [|x l IH]; simpl; intros H; [reflexivity|].
  rewrite (H x) by auto. apply IH. auto.
Qed.

Lemma build_city_route_collect (prefs : TravelPreferences.t) (flights : list FlightOption.t) :
  _build_city_route prefs flights
  = flight_walk prefs flights
    ++ collect (_label_city (TravelPreferences.origin_city prefs) :: flight_walk prefs flights)
         (map _label_city (TravelPreferences.destinations prefs)).
Proof.
  unfold _build_city_route, flight_walk, flight_destination_labels.
  set (o := _label_city (TravelPreferences.origin_city prefs)).
  set (sorted := py_sorted depart_date_ltb flights).
  set (dests := TravelPreferences.destinations prefs).
  replace (fold_left (fun route f => route_append o route (_label_city (FlightOption.destination f)))
             sorted [])
    with (fold_left (route_append o)
            (map (fun f => _label_city (FlightOption.destination f)) sorted) [])
    by (rewrite fold_left_map_fuse; reflexivity).
  rewrite route_walk_collect. simpl app.
  set (walk := collect [o] (map (fun f => _label_city (FlightOption.destination f)) sorted)).
  replace (fold_left (fun route dest => route_append o route (_label_city dest)) dests walk)
    with (fold_left (route_append o) (map _label_city dests) walk)
    by (rewrite fold_left_map_fuse; reflexivity).
  rewrite route_walk_collect.
  set (route := walk ++ collect (o :: walk) (map _label_city dests)).
  assert (Hno : forall x, In x route -> negb (x =? o) = true).
  { intros x Hx. apply negb_true_iff. destruct (String.eqb_spec x o) as [-> |]; [|reflexivity].
    exfalso. unfold route in Hx. apply in_app_iff in Hx. destruct Hx as [Hx | Hx].
    - apply collect_In in Hx. simpl in Hx. tauto.
    - apply collect_In in Hx. simpl in Hx. tauto. }
  rewrite (filter_all _ route Hno).
  destruct route as [|c route'] eqn:E; [|reflexivity].
  apply app_eq_nil in E. destruct E as [Ew Ec].
  apply filter_none. intros x Hx.
  apply (collect_nil _ _ Ec) in Hx. rewrite Ew in Hx. simpl in Hx.
  destruct Hx as [<- | []]. rewrite String.eqb_refl. reflexivity.
Qed.

Lemma build_city_route_NoDup (prefs : TravelPreferences.t) (flights : list FlightOption.t) :
  NoDup (_build_city_route prefs flights).
Proof.
  rewrite build_city_route_collect.
  apply NoDup_app; try apply collect_NoDup.
  intros x H1 H2. apply collect_In in H2. simpl in H2. tauto.
Qed.

(** On the route the planner builds, which never repeats a city, the
    allocation is as specified. *)
Lemma allocate_days_on_route (prefs : TravelPreferences.t) (flights : list FlightOption.t) :
  (1 <= TravelPreferences.num_days prefs)%Z ->
  _build_city_route prefs flights <> [] ->
  exists allocation,
    _allocate_days (TravelPreferences.num_days prefs) (_build_city_route prefs flights)
    = Ok allocation
    /\ allocation_as_specified (TravelPreferences.num_days prefs)
         (_build_city_route prefs flights) allocation.
Proof.
  intros Hd Hne.
  destruct (allocate_days_nodup_specified (TravelPreferences.num_days prefs)
              (_build_city_route prefs flights) Hd Hne (build_city_route_NoDup prefs flights))
    as [allocation [H1 [_ H2]]].
  exists allocation. auto.
Qed.

(** C7 (as amended).  The flights are walked in ascending departure-date
    order and each destination label is collected unless it is the origin
    label or already collected; the declared destinations are then walked
    the same way and every label not yet collected is appended, whether
    or not the flights gave any.  When the flights give none, the route is
    the declared order without the origin and without repeats. *)
Theorem build_city_route_appends_declared
    (prefs : TravelPreferences.t) (flights : list FlightOption.t) :
  let origin_label := _label_city (TravelPreferences.origin_city prefs) in
  let declared := map _label_city (TravelPreferences.destinations prefs) in
  Permutation (py_sorted depart_date_ltb flights) flights
  /\ StronglySorted
       (fun a b =>
          String.compare (FlightOption.depart_date a) (FlightOption.depart_date b) <> Gt)
       (py_sorted depart_date_ltb flights)
  /\ _build_city_route prefs flights
     = flight_walk prefs flights
       ++ collect (origin_label :: flight_walk prefs flights) declared
  /\ (flight_walk prefs flights = [] ->
      _build_city_route prefs flights = collect [origin_label] declared).
Proof.
  intros origin_label declared. repeat split.
  - apply py_sorted_perm.
  - exact (py_sorted_sorted String.compare FlightOption.depart_date flights).
  - apply build_city_route_collect.
  - intros H. rewrite build_city_route_collect, H. reflexivity.
Qed.

(** C7 (as stated) fails when the flights reach only some of the declared
    cities: Rome is declared, no flight goes there, and it is on the
    route all the same. *)
Lemma build_city_route_not_fallback_only :
  _build_city_route (prefs_two_cities 3) [sample_flight "GYD" "CDG" "2025-06-01" 200 "10:00"]
  <> route_fallback_only (prefs_two_cities 3)
       [sample_flight "GYD" "CDG" "2025-06-01" 200 "10:00"].
Proof. vm_compute. discriminate. Qed.

(** ** Day-level fitting *)

Lemma fit_to_budget_within (activities : list Activity.t) (budget_per_day : Q) :
  (py_sum (map Activity.est_cost (filter is_paid activities)) <= py_max budget_per_day 0)%Q ->
  _fit_to_budget activities budget_per_day = Ok activities.
Proof.
  intros H. unfold _fit_to_budget. apply Qleb_le in H. rewrite H. reflexivity.
Qed.

(** ** ItineraryAssembler: the activities of a day *)

Lemma py_index_ok {A : Type} (l : list A) (i : Z) :
  (0 <= i < py_len l)%Z ->
  exists x, py_index l i = Ok x /\ nth_error l (Z.to_nat i) = Some x.
Proof.
  intros [H0 H1]. unfold py_index.
  destruct (Z.ltb_spec i 0) as [|_]; [lia|].
  destruct (Z.ltb_spec i 0) as [|_]; [lia|].
  destruct (nth_error l (Z.to_nat i)) as [x|] eqn:E.
  - exists x. auto.
  - apply nth_error_None in E. unfold py_len in H1. lia.
Qed.

(** The window: item [(start + i) % len(pool)] of a non-empty pool. *)
Lemma window_item {A : Type} (pool : list A) (start i : Z) :
  pool <> [] ->
  exists x,
    (idx <- py_mod (start + i) (py_len pool) ;; py_index pool idx) = Ok x
    /\ nth_error pool (Z.to_nat ((start + i) mod py_len pool)) = Some x.
Proof.
  intros Hne. pose proof (py_len_pos pool Hne) as Hlen.
  rewrite py_mod_ok by lia. simpl.
  apply py_index_ok, Z.mod_pos_bound, Hlen.
Qed.

Lemma activities_for_city_empty_pool (top_attractions : string -> Z -> list Attraction)
    (city : string) (budget_per_day : Q) (day_offset days_in_city : Z)
    (travel_guide : option TravelGuideInfo.t) :
  attraction_pool top_attractions city days_in_city travel_guide = [] ->
  _activities_for_city top_attractions city budget_per_day day_offset days_in_city travel_guide
  = Ok [].
Proof. intros H. unfold _activities_for_city. rewrite H. reflexivity. Qed.

Lemma activities_for_city_window (top_attractions : string -> Z -> list Attraction)
    (city : string) (budget_per_day : Q) (day_offset days_in_city : Z)
    (travel_guide : option TravelGuideInfo.t) (pool : list Attraction) :
  attraction_pool top_attractions city days_in_city travel_guide = pool ->
  pool <> [] ->
  exists item0 item1 item2,
    nth_error pool (Z.to_nat (((day_offset * 3) mod py_len pool + 0) mod py_len pool))
    = Some item0
    /\ nth_error pool (Z.to_nat (((day_offset * 3) mod py_len pool + 1) mod py_len pool))
       = Some item1
    /\ nth_error pool (Z.to_nat (((day_offset * 3) mod py_len pool + 2) mod py_len pool))
       = Some item2
    /\ _activities_for_city top_attractions city budget_per_day day_offset days_in_city
         travel_guide
       = Ok (getting_around budget_per_day travel_guide
             ++ [ slot_item "Morning" (32 # 100) budget_per_day item0;
                  slot_item "Afternoon" (28 # 100) budget_per_day item1;
                  slot_item "Evening" (22 # 100) budget_per_day item2 ]).
Proof.
  intros Hpool Hne.
  set (start := ((day_offset * 3) mod py_len pool)%Z).
  destruct (window_item pool start 0 Hne) as [item0 [R0 N0]].
  destruct (window_item pool start 1 Hne) as [item1 [R1 N1]].
  destruct (window_item pool start 2 Hne) as [item2 [R2 N2]].
  exists item0, item1, item2. repeat split; try assumption.
  unfold _activities_for_city. rewrite Hpool.
  pose proof (py_len_pos pool Hne) as Hlen.
  destruct pool as [|a pool']; [congruence|].
  rewrite py_mod_ok by lia.
  simpl bind. fold start.
  change (py_range 3) with [0%Z; 1%Z; 2%Z].
  cbn [mapM].
  rewrite py_mod_ok in R0, R1, R2 by lia. cbn [bind] in R0, R1, R2.
  rewrite R0. cbn [bind]. rewrite R1. cbn [bind]. rewrite R2. cbn [bind].
  reflexivity.
Qed.

Lemma slot_cost_near (label : string) (share budget_per_day : Q) (item : Attraction) :
  (0 <= budget_per_day * share)%Q ->
  (Qabs (Activity.est_cost (slot_item label share budget_per_day item)
         - budget_per_day * share) <= 1 # 200)%Q.
Proof.
  intros H. unfold slot_item. cbn [Activity.est_cost].
  assert (py_round2 (py_max 0 (budget_per_day * share))
          = py_round2 (budget_per_day * share)) as ->.
  { apply py_round2_comp. destruct (py_max_cases 0 (budget_per_day * share)) as [[_ ->]|[L ->]].
    - reflexivity.
    - lra. }
  destruct (py_round2_near (budget_per_day * share)) as [H1 H2].
  apply Qabs_Qle_condition. split; lra.
Qed.

(** C8 (as amended).  For a city whose attraction pool is not empty, the
    activities of a day are the local-transport line (when a fare is
    charged) followed by exactly three slots, Morning, Afternoon and
    Evening, given in this order to the pool items at positions [start],
    [start + 1], [start + 2] modulo the number of records in the pool,
    where [start = (day_offset * 3) mod] that number; a pool of fewer than
    three records repeats.  Their costs are 32%, 28% and 22% of the
    envelope, rounded to two decimals.  The Late slot is never assigned. *)
Theorem activities_for_city_slots (top_attractions : string -> Z -> list Attraction)
    (city : string) (budget_per_day : Q) (day_offset days_in_city : Z)
    (travel_guide : option TravelGuideInfo.t) (pool : list Attraction) :
  attraction_pool top_attractions city days_in_city travel_guide = pool ->
  pool <> [] ->
  day_slots_as_amended pool budget_per_day day_offset travel_guide
    (_activities_for_city top_attractions city budget_per_day day_offset days_in_city
       travel_guide).
Proof.
  intros Hpool Hne.
  destruct (activities_for_city_window top_attractions city budget_per_day day_offset
              days_in_city travel_guide pool Hpool Hne)
    as [item0 [item1 [item2 [N0 [N1 [N2 R]]]]]].
  exists item0, item1, item2. eexists. repeat split; try eassumption.
  intros Henv. simpl firstn.
  repeat constructor; apply slot_cost_near; simpl snd; nra.
Qed.

Lemma activities_for_city_slots_witness :
  day_slots_as_amended sample_pool 50 1 None
    (_activities_for_city sample_top_attractions "Paris" 50 1 2 None).
Proof.
  apply (activities_for_city_slots sample_top_attractions "Paris" 50 1 2 None sample_pool).
  - reflexivity.
  - discriminate.
Defined.

(** C8 (as stated) fails on the fourth slot: the slots are cut to the
    size of the window, so a day has three slot activities and none for
    the Late slot, and no item is given a second slot. *)
Lemma activities_for_city_no_late_slot :
  ~ day_slots_as_claimed sample_pool 50 1 None
      (_activities_for_city sample_top_attractions "Paris" 50 1 2 None).
Proof.
  intros [item0 [item1 [item2 [_ [_ [_ H]]]]]].
  vm_compute in H. discriminate.
Qed.

(** ** ItineraryAssembler: a day without attraction records *)

Lemma first_day_entries_free (prev_city city : string) (flights : list FlightOption.t)
    (hotels : list HotelOption.t) (budget_per_day : Q) :
  Forall (fun a => Activity.est_cost a = 0%Q /\ is_first_day_entry a)
    (snd (first_day_entries prev_city city flights hotels budget_per_day)).
Proof.
  unfold first_day_entries, is_first_day_entry.
  destruct (_find_leg prev_city city flights); simpl;
    destruct (_choose_hotel_name city hotels =? ""); simpl;
    repeat apply Forall_cons; try apply Forall_nil; (split; [reflexivity | simpl; auto]).
Qed.

Lemma fit_to_budget_free (activities : list Activity.t) (budget_per_day : Q) :
  Forall (fun a => Activity.est_cost a = 0%Q) activities ->
  _fit_to_budget activities budget_per_day = Ok activities.
Proof.
  intros H. apply fit_to_budget_within.
  rewrite filter_none.
  - rewrite py_max_Qmax. apply Q.le_max_r.
  - intros a Ha. rewrite Forall_forall in H. unfold is_paid. rewrite (H a Ha). reflexivity.
Qed.

Lemma attraction_pool_none (top_attractions : string -> Z -> list Attraction)
    (city : string) (days_in_city : Z) (travel_guide : option TravelGuideInfo.t) :
  guide_attractions travel_guide = [] ->
  top_attractions (_label_city city) (Z.min 30 (Z.max 6 (days_in_city * 3))) = [] ->
  attraction_pool top_attractions city days_in_city travel_guide = [].
Proof.
  intros Hg Ht. unfold attraction_pool.
  destruct travel_guide as [g|]; simpl in Hg; [rewrite Hg|]; exact Ht.
Qed.

(** C10.  When neither the travel guide nor the attractions client has a
    record for the city, [_activities_for_city] returns no activity at all,
    whatever the transit fare, and the day holds its first-day entries
    (transfer or intercity transport, hotel check-in) on the first day in
    the city and nothing on the other days. *)
Theorem day_without_attractions (top_attractions : string -> Z -> list Attraction)
    (flights : list FlightOption.t) (hotels : list HotelOption.t)
    (travel_guides : list (string * TravelGuideInfo.t)) (budget_per_day : Q)
    (prev_city city : string) (days_in_city current_date day_idx : Z) :
  guide_attractions (dict_get String.eqb travel_guides city) = [] ->
  top_attractions (_label_city city) (Z.min 30 (Z.max 6 (days_in_city * 3))) = [] ->
  _activities_for_city top_attractions city budget_per_day day_idx days_in_city
    (dict_get String.eqb travel_guides city) = Ok []
  /\ exists day,
       plan_day top_attractions flights hotels travel_guides budget_per_day prev_city city
         days_in_city current_date day_idx = Ok day
       /\ ItineraryDay.activities day
          = (if (day_idx =? 0)%Z
             then snd (first_day_entries prev_city city flights hotels budget_per_day)
             else [])
       /\ Forall is_first_day_entry (ItineraryDay.activities day)
       /\ Forall (fun a => Activity.name a <> "Getting around") (ItineraryDay.activities day)
       /\ (day_idx <> 0%Z -> ItineraryDay.activities day = []).
Proof.
  intros Hg Ht.
  pose proof (activities_for_city_empty_pool top_attractions city budget_per_day day_idx
                days_in_city _ (attraction_pool_none _ _ _ _ Hg Ht)) as Hnone.
  split; [exact Hnone|].
  unfold plan_day, draft_day. rewrite Hnone. cbn [bind fst snd]. rewrite app_nil_r.
  pose proof (first_day_entries_free prev_city city flights hotels budget_per_day) as Hfree.
  destruct (Z.eqb_spec day_idx 0) as [E|E].
  - rewrite fit_to_budget_free
      by (eapply Forall_impl; [|exact Hfree]; intros a [H _]; exact H).
    eexists. split; [reflexivity|]. cbn [ItineraryDay.activities].
    repeat split.
    + eapply Forall_impl; [|exact Hfree]. intros a [_ H]. exact H.
    + eapply Forall_impl; [|exact Hfree].
      intros a [_ [H | [H | H]]]; rewrite H; discriminate.
    + intros H. contradiction.
  - cbn [snd]. rewrite fit_to_budget_free by constructor.
    eexists. split; [reflexivity|]. cbn [ItineraryDay.activities].
    repeat split; constructor.
Qed.

Lemma day_without_attractions_witness :
  _activities_for_city no_attractions "Paris" 50 0 2
    (dict_get String.eqb [("Paris", TravelGuideInfo.mk [] (Some (21 # 10)) [])] "Paris")
  = Ok []
  /\ exists day,
       plan_day no_attractions [] [] [("Paris", TravelGuideInfo.mk [] (Some (21 # 10)) [])]
         50 "Baku" "Paris" 2 739000 0 = Ok day
       /\ ItineraryDay.activities day
          = (if (0 =? 0)%Z then snd (first_day_entries "Baku" "Paris" [] [] 50) else [])
       /\ Forall is_first_day_entry (ItineraryDay.activities day)
       /\ Forall (fun a => Activity.name a <> "Getting around") (ItineraryDay.activities day)
       /\ (0%Z <> 0%Z -> ItineraryDay.activities day = []).
Proof.
  apply (day_without_attractions no_attractions [] []
           [("Paris", TravelGuideInfo.mk [] (Some (21 # 10)) [])] 50 "Baku" "Paris" 2 739000 0).
  - reflexivity.
  - reflexivity.
Defined.

(** ** Costs never go below zero *)

Lemma py_max_0_nonneg (x : Q) : (0 <= py_max 0 x)%Q.
Proof. destruct (py_max_cases 0 x) as [[L ->]|[L ->]]; lra. Qed.

Lemma getting_around_nonneg (budget_per_day : Q) (travel_guide : option TravelGuideInfo.t) :
  Forall cost_nonneg (getting_around budget_per_day travel_guide).
Proof.
  unfold getting_around.
  destruct (Qltb 0 (_local_transport_cost budget_per_day travel_guide)) eqn:E;
    constructor; [|constructor].
  apply Qltb_lt in E. unfold cost_nonneg. simpl. lra.
Qed.

Lemma slot_item_nonneg (label : string) (share budget_per_day : Q) (item : Attraction) :
  cost_nonneg (slot_item label share budget_per_day item).
Proof. unfold cost_nonneg, slot_item. simpl. apply py_round2_nonneg, py_max_0_nonneg. Qed.

(** [_activities_for_city] always returns, and what it creates costs at
    least zero. *)
Lemma activities_for_city_total (top_attractions : string -> Z -> list Attraction)
    (city : string) (budget_per_day : Q) (day_offset days_in_city : Z)
    (travel_guide : option TravelGuideInfo.t) :
  exists activities,
    _activities_for_city top_attractions city budget_per_day day_offset days_in_city
      travel_guide = Ok activities
    /\ Forall cost_nonneg activities.
Proof.
  destruct (attraction_pool top_attractions city days_in_city travel_guide) as [|a pool] eqn:E.
  - exists []. split; [apply activities_for_city_empty_pool, E | constructor].
  - destruct (activities_for_city_window top_attractions city budget_per_day day_offset
                days_in_city travel_guide (a :: pool) E)
      as [item0 [item1 [item2 [_ [_ [_ R]]]]]]; [discriminate|].
    eexists. split; [exact R|].
    apply Forall_app. split; [apply getting_around_nonneg|].
    repeat constructor; apply slot_item_nonneg.
Qed.

Lemma set_last_cost_nonneg (activities : list Activity.t) :
  Forall cost_nonneg activities -> Forall cost_nonneg (set_last_cost activities 0).
Proof.
  induction 1 as [|a l Ha Hl IH]; simpl; [constructor|].
  destruct l as [|b l].
  - constructor; [|constructor]. unfold cost_nonneg. simpl. lra.
  - constructor; assumption.
Qed.

(** [_fit_to_budget] always returns: the scale divides by a total that
    was just found different from zero. *)
Lemma fit_to_budget_cases (activities : list Activity.t) (budget_per_day : Q) :
  _fit_to_budget activities budget_per_day = Ok activities
  \/ exists total scaled,
       total = py_sum (map Activity.est_cost (filter is_paid activities))
       /\ (py_max budget_per_day 0 < total)%Q
       /\ scaled
          = map (fun act =>
                   if is_paid act
                   then Activity.set_est_cost act
                          (py_round2 (Activity.est_cost act * (budget_per_day / total)))
                   else act)
                activities
       /\ (_fit_to_budget activities budget_per_day = Ok scaled
           \/ _fit_to_budget activities budget_per_day = Ok (set_last_cost scaled 0)).
Proof.
  unfold _fit_to_budget.
  set (total := py_sum (map Activity.est_cost (filter is_paid activities))).
  destruct (Qleb total (py_max budget_per_day 0)) eqn:E1; [left; reflexivity|].
  destruct (Qeq_bool total 0) eqn:E2; [left; reflexivity|].
  right. exists total. eexists. split; [reflexivity|].
  split; [apply Qleb_gt, E1|]. split; [reflexivity|].
  unfold py_truediv. rewrite E2. cbn [bind].
  match goal with
  | |- context [match ?l with [] => _ | _ :: _ => _ end] => destruct l
  end.
  - left. reflexivity.
  - destruct (Qltb budget_per_day 5); [right | left]; reflexivity.
Qed.

Lemma fit_to_budget_total (activities : list Activity.t) (budget_per_day : Q) :
  exists fitted, _fit_to_budget activities budget_per_day = Ok fitted.
Proof.
  destruct (fit_to_budget_cases activities budget_per_day)
    as [H | [total [scaled [_ [_ [_ [H | H]]]]]]]; eexists; exact H.
Qed.

Lemma fit_to_budget_nonneg (activities fitted : list Activity.t) (budget_per_day : Q) :
  (0 <= budget_per_day)%Q ->
  Forall cost_nonneg activities ->
  _fit_to_budget activities budget_per_day = Ok fitted ->
  Forall cost_nonneg fitted.
Proof.
  intros Henv Hacts Hfit.
  destruct (fit_to_budget_cases activities budget_per_day)
    as [H | [total [scaled [_ [Htot [Hscaled H]]]]]].
  - rewrite H in Hfit. injection Hfit as <-. exact Hacts.
  - assert (Forall cost_nonneg scaled) as Hs.
    { rewrite Hscaled. apply Forall_map. eapply Forall_impl; [|exact Hacts].
      intros a Ha. destruct (is_paid a) eqn:Ep; [|exact Ha].
      unfold cost_nonneg. simpl. apply py_round2_nonneg.
      apply Qltb_lt in Ep.
      assert (0 < total)%Q as Hpos.
      { destruct (py_max_cases budget_per_day 0) as [[_ E]|[_ E]]; rewrite E in Htot; lra. }
      apply Qmult_le_0_compat; [lra|].
      apply Qle_shift_div_l; [exact Hpos | lra]. }
    destruct H as [H | H]; rewrite H in Hfit; injection Hfit as <-.
    + exact Hs.
    + apply set_last_cost_nonneg, Hs.
Qed.

(** ** The planner returns *)

Section PlannerRun.
Variable top_attractions : string -> Z -> list Attraction.
Variables (flights : list FlightOption.t) (hotels : list HotelOption.t).
Variable travel_guides : list (string * TravelGuideInfo.t).
Variable budget_per_day : Q.

Lemma draft_day_total (prev_city city : string) (days_in_city day_idx : Z) :
  exists draft,
    draft_day top_attractions flights hotels travel_guides budget_per_day prev_city city
      days_in_city day_idx = Ok draft
    /\ Forall cost_nonneg (snd draft).
Proof.
  unfold draft_day.
  destruct (activities_for_city_total top_attractions city budget_per_day day_idx days_in_city
              (dict_get String.eqb travel_guides city)) as [more [-> Hmore]].
  cbn [bind]. eexists. split; [reflexivity|]. cbn [snd].
  apply Forall_app. split; [|exact Hmore].
  destruct (day_idx =? 0)%Z; [|constructor].
  eapply Forall_impl; [|apply first_day_entries_free].
  intros a [H _]. unfold cost_nonneg. rewrite H. lra.
Qed.

Lemma plan_day_total (prev_city city : string) (days_in_city current_date day_idx : Z) :
  exists d,
    plan_day top_attractions flights hotels travel_guides budget_per_day prev_city city
      days_in_city current_date day_idx = Ok d
    /\ ItineraryDay.city d = _label_city city
    /\ ((0 <= budget_per_day)%Q -> day_costs_nonneg d).
Proof.
  unfold plan_day.
  destruct (draft_day_total prev_city city days_in_city day_idx) as [draft [-> Hdraft]].
  cbn [bind].
  destruct (fit_to_budget_total (snd draft) budget_per_day) as [fitted Hfit].
  rewrite Hfit. cbn [bind]. eexists. split; [reflexivity|]. split; [reflexivity|].
  intros Henv. unfold day_costs_nonneg. cbn [ItineraryDay.activities].
  apply (fit_to_budget_nonneg (snd draft) fitted budget_per_day Henv Hdraft Hfit).
Qed.

Lemma date_add_days_1 (date : Z) :
  date_add_days date 1
  = if (0 <=? date)%Z && (date + 1 <=? date_max_ordinal)%Z
    then Ok (date + 1)%Z else Raise OverflowError.
Proof.
  unfold date_add_days, date_min_ordinal. cbn [Z.abs].
  change (1 <=? 999999999)%Z with true. cbn [andb].
  destruct (Z.leb_spec 1 (date + 1)), (Z.leb_spec 0 date); try lia; reflexivity.
Qed.

Ltac zbools :=
  repeat match goal with
         | |- context [(?a <=? ?b)%Z] => destruct (Z.leb_spec a b)
         | |- context [(?a =? ?b)%Z] => destruct (Z.eqb_spec a b)
         end;
  cbn [andb orb]; try reflexivity; try lia.

Lemma days_fit_succ (date n : Z) :
  (0 <= n)%Z ->
  days_fit date (1 + n)
  = (0 <=? date)%Z && (date + 1 <=? date_max_ordinal)%Z && days_fit (date + 1) n.
Proof. intros Hn. unfold days_fit, date_max_ordinal. zbools. Qed.

Lemma days_fit_add (date a b : Z) :
  (0 <= a)%Z -> (0 <= b)%Z ->
  days_fit date (a + b) = days_fit date a && days_fit (date + a) b.
Proof. intros Ha Hb. unfold days_fit, date_max_ordinal. zbools. Qed.

Lemma days_fit_I (date n : Z) :
  (0 <= date)%Z -> (date + n <= date_max_ordinal)%Z -> days_fit date n = true.
Proof. intros H1 H2. unfold days_fit. zbools. Qed.

(** The inner loop of [run] appends one day for every index, and raises
    [OverflowError] when a date is passed [date.max]. *)
Lemma plan_days_loop (P : ItineraryDay.t -> Prop) (g : Z -> Z -> result ItineraryDay.t) :
  (forall date idx, exists d, g date idx = Ok d /\ P d) ->
  forall (idxs : list Z) (date : Z) (days : list ItineraryDay.t),
  exists new,
    foldM (fun st day_idx =>
             d <- g (fst st) day_idx ;;
             current_date <- date_add_days (fst st) 1 ;;
             Ok (current_date, snd st ++ [d]))
      idxs (date, days)
    = (if days_fit date (py_len idxs)
       then Ok ((date + py_len new)%Z, days ++ new)
       else Raise OverflowError)
    /\ List.length new = List.length idxs
    /\ Forall P new.
Proof.
  intros Hg. induction idxs as [|i idxs IH]; intros date days.
  - exists []. cbn. rewrite app_nil_r, Z.add_0_r. repeat split. constructor.
  - cbn [foldM fst snd]. destruct (Hg date i) as [d [-> Hd]]. cbn [bind].
    destruct (IH (date + 1)%Z (days ++ [d])) as [new [Hfold [Hlen Hnew]]].
    exists (d :: new). split; [|split].
    + replace (py_len (i :: idxs)) with (1 + py_len idxs)%Z
        by (unfold py_len; cbn [List.length]; lia).
      rewrite days_fit_succ by apply py_len_nonneg.
      rewrite date_add_days_1.
      destruct ((0 <=? date)%Z && (date + 1 <=? date_max_ordinal)%Z); cbn [bind andb];
        [|reflexivity].
      rewrite Hfold. destruct (days_fit (date + 1) (py_len idxs)); [|reflexivity].
      rewrite <- app_assoc. cbn [app]. f_equal. f_equal.
      unfold py_len. cbn [List.length]. lia.
    + cbn [List.length]. lia.
    + constructor; assumption.
Qed.

Lemma plan_city_total (days_per_city : list (string * Z)) (date : Z)
    (days : list ItineraryDay.t) (prev_city city : string) (days_in_city : Z) :
  dict_get String.eqb days_per_city city = Some days_in_city ->
  exists new,
    plan_city top_attractions flights hotels travel_guides budget_per_day days_per_city
      (date, days, prev_city) city
    = (if days_fit date (Z.max 0 days_in_city)
       then Ok ((date + Z.max 0 days_in_city)%Z, days ++ new, city)
       else Raise OverflowError)
    /\ List.length new = Z.to_nat days_in_city
    /\ Forall (fun d => ItineraryDay.city d = _label_city city
                        /\ ((0 <= budget_per_day)%Q -> day_costs_nonneg d)) new.
Proof.
  intros Hget. unfold plan_city. rewrite Hget. cbn [fst snd].
  destruct (plan_days_loop
              (fun d => ItineraryDay.city d = _label_city city
                        /\ ((0 <= budget_per_day)%Q -> day_costs_nonneg d))
              (fun date idx =>
                 plan_day top_attractions flights hotels travel_guides budget_per_day
                   prev_city city days_in_city date idx)
              (fun date idx => plan_day_total prev_city city days_in_city date idx)
              (py_range days_in_city) date days) as [new [-> [Hlen Hnew]]].
  assert (Hrange : py_len (py_range days_in_city) = Z.max 0 days_in_city).
  { unfold py_len, py_range. rewrite length_map, length_seq. lia. }
  assert (Hnewlen : py_len new = Z.max 0 days_in_city).
  { rewrite <- Hrange. unfold py_len. rewrite Hlen. reflexivity. }
  rewrite Hrange, Hnewlen.
  exists new. split; [|split; [|exact Hnew]].
  - destruct (days_fit date (Z.max 0 days_in_city)); reflexivity.
  - rewrite Hlen. unfold py_range. rewrite length_map, length_seq. reflexivity.
Qed.

(** The days of the cities of [items], none for a count below zero. *)
Lemma stay_total_nonneg (items : list (string * Z)) :
  (0 <= py_sumZ (map (fun cn => Z.max 0 (snd cn)) items))%Z.
Proof.
  apply py_sumZ_nonneg. rewrite Forall_map, Forall_forall. intros cn _. lia.
Qed.

(** The outer loop: every city of the route that has an allocation gets
    its days, in route order, as long as the dates last. *)
Lemma plan_cities_total (days_per_city items : list (string * Z)) :
  (forall c n, In (c, n) items -> dict_get String.eqb days_per_city c = Some n) ->
  forall (date : Z) (days : list ItineraryDay.t) (prev_city : string),
  exists new,
    Forall (fun d => (0 <= budget_per_day)%Q -> day_costs_nonneg d) new
    /\ (forall c n, In (c, n) items -> (1 <= n)%Z ->
          exists d, In d new /\ ItineraryDay.city d = _label_city c)
    /\ (days_fit date (py_sumZ (map (fun cn => Z.max 0 (snd cn)) items)) = true ->
        exists st,
          foldM (plan_city top_attractions flights hotels travel_guides budget_per_day
                   days_per_city)
            (map fst items) (date, days, prev_city) = Ok st
          /\ snd (fst st) = days ++ new)
    /\ (days_fit date (py_sumZ (map (fun cn => Z.max 0 (snd cn)) items)) = false ->
        foldM (plan_city top_attractions flights hotels travel_guides budget_per_day
                 days_per_city)
          (map fst items) (date, days, prev_city) = Raise OverflowError).
Proof.
  induction items as [|[city n] items IH]; intros Hall date days prev_city.
  - exists []. cbn. rewrite app_nil_r.
    split; [constructor|]. split; [intros c n []|]. split.
    + intros _. eexists. split; reflexivity.
    + unfold days_fit. cbn. discriminate.
  - cbn [map fst snd foldM]. rewrite py_sumZ_cons.
    rewrite days_fit_add by (try apply stay_total_nonneg; lia).
    destruct (plan_city_total days_per_city date days prev_city city n
                (Hall city n (or_introl eq_refl))) as [new1 [-> [Hlen1 Hnew1]]].
    destruct (IH (fun c m H => Hall c m (or_intror H)) (date + Z.max 0 n)%Z
                (days ++ new1) city) as [new2 [Hnew2 [Hcover [Hfit Hover]]]].
    exists (new1 ++ new2). split; [|split; [|split]].
    + apply Forall_app. split; [|exact Hnew2].
      eapply Forall_impl; [|exact Hnew1]. intros d [_ H]. exact H.
    + intros c m [E | Hc] Hpos.
      * injection E as <- <-.
        destruct new1 as [|d new1]; [simpl in Hlen1; lia|].
        exists d. split; [simpl; auto|].
        inversion Hnew1 as [|? ? [Hcity _] _]; subst. exact Hcity.
      * destruct (Hcover c m Hc Hpos) as [d [Hd Hcity]].
        exists d. split; [apply in_or_app; auto | exact Hcity].
    + intros Hok. apply andb_prop in Hok as [H1 H2]. rewrite H1. cbn [bind].
      destruct (Hfit H2) as [st [-> Hdays]].
      exists st. split; [reflexivity|]. rewrite Hdays, app_assoc. reflexivity.
    + intros Hko. destruct (days_fit date (Z.max 0 n)); cbn [bind]; [|reflexivity].
      cbn [andb] in Hko. apply Hover, Hko.
Qed.

End PlannerRun.

(** ** ActivityBudgetEstimator *)

Lemma inject_Z_pos (z : Z) : (0 < z)%Z -> (0 < inject_Z z)%Q.
Proof. intros H. unfold Qlt, inject_Z. simpl. lia. Qed.

(** The estimate divides by [sum(...) or 1], never by zero, and is never
    negative when no city has a negative day count. *)
Lemma estimate_activity_budget_ok (prefs : TravelPreferences.t)
    (flights : list FlightOption.t) (hotels : list HotelOption.t)
    (days_per_city : list (string * Z)) :
  Forall (fun v => 0 <= v)%Z (dict_values days_per_city) ->
  exists envelope,
    _estimate_activity_budget prefs flights hotels days_per_city = Ok envelope
    /\ (0 <= envelope)%Q.
Proof.
  intros Hvals. unfold _estimate_activity_budget.
  match goal with
  | |- context [Qleb ?r 0] => set (remaining := r)
  end.
  destruct (Qleb remaining 0) eqn:E.
  - exists 0%Q. split; [reflexivity | lra].
  - apply Qleb_gt in E. pose proof (py_sumZ_nonneg _ Hvals) as Hs.
    set (s := py_sumZ (dict_values days_per_city)) in *.
    assert (0 < (if (s =? 0)%Z then 1 else s))%Z as Hpos
      by (destruct (Z.eqb_spec s 0); lia).
    apply inject_Z_pos in Hpos.
    rewrite py_truediv_ok by lra.
    eexists. split; [reflexivity|].
    apply Qle_shift_div_l; [exact Hpos | lra].
Qed.

(** ** The planner's run *)

Lemma allocation_values_nonneg (total_days : Z) (cities : list string) :
  Forall (fun v => 0 <= v)%Z
    (dict_values
       (map (fun ic =>
               (snd ic,
                (Z.max 1 total_days / py_len cities
                 + (if fst ic <? Z.max 1 total_days mod py_len cities then 1 else 0))%Z))
            (enumerate cities))).
Proof.
  unfold dict_values. rewrite map_map. apply Forall_map, Forall_forall.
  intros ic _. cbn [snd].
  assert (0 <= Z.max 1 total_days / py_len cities)%Z.
  { apply Z_div_nonneg_nonneg; [lia | apply py_len_nonneg]. }
  destruct (fst ic <? _)%Z; lia.
Qed.

Lemma allocation_lookup (total_days : Z) (cities : list string) (i : nat) (city : string) :
  NoDup cities ->
  nth_error cities i = Some city ->
  dict_get String.eqb
    (map (fun ic =>
            (snd ic,
             (Z.max 1 total_days / py_len cities
              + (if fst ic <? Z.max 1 total_days mod py_len cities then 1 else 0))%Z))
         (enumerate cities))
    city
  = Some (Z.max 1 total_days / py_len cities
          + (if Z.of_nat i <? Z.max 1 total_days mod py_len cities then 1 else 0))%Z.
Proof.
  intros ND Hi. apply (dict_get_nth String.eqb string_eqb_spec _ i).
  - unfold dict_keys. rewrite map_map. cbn [fst]. rewrite map_snd_enumerate. exact ND.
  - rewrite nth_error_map, (nth_error_enumerate _ _ _ Hi). reflexivity.
Qed.

Lemma allocation_sum (total_days : Z) (cities : list string) :
  cities <> [] ->
  py_sumZ
    (dict_values
       (map (fun ic =>
               (snd ic,
                (Z.max 1 total_days / py_len cities
                 + (if fst ic <? Z.max 1 total_days mod py_len cities then 1 else 0))%Z))
            (enumerate cities)))
  = Z.max 1 total_days.
Proof.
  intros Hne. pose proof (py_len_pos cities Hne) as Hlen.
  unfold dict_values. rewrite map_map. cbn [snd].
  rewrite <- (map_map fst (fun i => (Z.max 1 total_days / py_len cities
                + (if i <? Z.max 1 total_days mod py_len cities then 1 else 0))%Z)).
  rewrite map_fst_enumerate, sum_day_counts by (apply Z.mod_pos_bound, Hlen).
  fold (py_len cities).
  pose proof (Z.mod_pos_bound (Z.max 1 total_days) (py_len cities) Hlen).
  pose proof (Z.div_mod (Z.max 1 total_days) (py_len cities)). lia.
Qed.

Lemma allocation_stay_total (total_days : Z) (cities : list string) :
  cities <> [] ->
  py_sumZ
    (map (fun cn => Z.max 0 (snd cn))
       (map (fun ic =>
               (snd ic,
                (Z.max 1 total_days / py_len cities
                 + (if fst ic <? Z.max 1 total_days mod py_len cities then 1 else 0))%Z))
            (enumerate cities)))
  = Z.max 1 total_days.
Proof.
  intros Hne. etransitivity; [|apply (allocation_sum total_days cities Hne)].
  unfold dict_values. f_equal. apply map_ext_in. intros [c n] Hin. cbn [snd].
  pose proof (allocation_values_nonneg total_days cities) as Hnn.
  rewrite Forall_forall in Hnn. specialize (Hnn n).
  assert (0 <= n)%Z; [|lia].
  apply Hnn. unfold dict_values. apply in_map_iff. exists (c, n). auto.
Qed.

(** [run] with a start date and a route that is not empty: it returns an
    itinerary when the [max(1, num_days)] days fit the calendar, and
    raises [OverflowError] when they do not.  The costs of the itinerary
    are not negative, and a city has a day as soon as the trip has as
    many days as the route has cities. *)
Lemma run_total (top_attractions : string -> Z -> list Attraction)
    (prefs : TravelPreferences.t) (flights : list FlightOption.t)
    (hotels : list HotelOption.t) (travel_guides : option (list (string * TravelGuideInfo.t)))
    (start : Z) :
  TravelPreferences.start_date prefs = Some start ->
  _build_city_route prefs flights <> [] ->
  exists itinerary,
    Itinerary.destinations itinerary = map _label_city (_build_city_route prefs flights)
    /\ costs_nonneg itinerary
    /\ ((py_len (_build_city_route prefs flights) <= TravelPreferences.num_days prefs)%Z ->
        forall c, In c (_build_city_route prefs flights) ->
                  exists d, In d (Itinerary.days itinerary)
                            /\ ItineraryDay.city d = _label_city c)
    /\ (days_fit start (Z.max 1 (TravelPreferences.num_days prefs)) = true ->
        run top_attractions prefs flights hotels travel_guides = Ok itinerary)
    /\ (days_fit start (Z.max 1 (TravelPreferences.num_days prefs)) = false ->
        run top_attractions prefs flights hotels travel_guides = Raise OverflowError).
Proof.
  intros Hstart Hne. unfold run. rewrite Hstart.
  pose proof (build_city_route_NoDup prefs flights) as ND.
  set (route := _build_city_route prefs flights) in *.
  rewrite (allocate_days_nodup _ _ Hne ND). cbn [bind].
  pose proof (allocation_stay_total (TravelPreferences.num_days prefs) route Hne) as Htotal.
  set (allocation := map _ (enumerate route)) in *.
  assert (Hkeys : dict_keys allocation = route).
  { unfold allocation, dict_keys. rewrite map_map. cbn [fst]. apply map_snd_enumerate. }
  destruct (estimate_activity_budget_ok prefs flights hotels allocation
              (allocation_values_nonneg _ _)) as [envelope [-> Henv]].
  cbn [bind].
  assert (Hall : forall c n, In (c, n) allocation ->
                   dict_get String.eqb allocation c = Some n).
  { intros c n Hin. apply In_nth_error in Hin. destruct Hin as [i Hi].
    apply (dict_get_nth String.eqb string_eqb_spec _ i); [rewrite Hkeys; exact ND | exact Hi]. }
  destruct (plan_cities_total top_attractions flights hotels
              (match travel_guides with Some g => g | None => [] end)
              envelope allocation allocation Hall start [] (TravelPreferences.origin_city prefs))
    as [new [Hnew [Hcover [Hfit Hover]]]].
  fold (dict_keys allocation) in Hfit, Hover. rewrite Hkeys, Htotal in Hfit, Hover.
  exists (Itinerary.mk (_label_city (TravelPreferences.origin_city prefs))
            (map _label_city route) new).
  cbn [Itinerary.destinations Itinerary.days].
  split; [reflexivity|]. split; [|split; [|split]].
  - unfold costs_nonneg. cbn [Itinerary.days].
    eapply Forall_impl; [|exact Hnew]. intros d H. apply H, Henv.
  - intros Hlen c Hc. pose proof Hc as Hc'.
    apply In_nth_error in Hc'. destruct Hc' as [i Hi].
    pose proof (py_len_pos route Hne) as Hpos.
    assert (Hbase : (1 <= Z.max 1 (TravelPreferences.num_days prefs) / py_len route)%Z).
    { apply Z.div_le_lower_bound; lia. }
    eapply (Hcover c).
    + apply (nth_error_In _ i). unfold allocation.
      rewrite nth_error_map, (nth_error_enumerate _ _ _ Hi). reflexivity.
    + cbn [fst]. destruct (Z.of_nat i <? _)%Z; lia.
  - intros Hok. destruct (Hfit Hok) as [st [-> Hdays]]. cbn [bind].
    rewrite Hdays. reflexivity.
  - intros Hko. rewrite (Hover Hko). reflexivity.
Qed.

(** C5 (as amended).  With a start date, a non-empty realized route, at
    least as many trip days as the route has cities, and a trip whose
    last day is before [date.max] (the planner steps to the day after
    each day it plans), [run] returns an itinerary whose destinations are
    the cities of the route and each of them is the city of at least one
    day. *)
Theorem run_days_cover_route (top_attractions : string -> Z -> list Attraction)
    (prefs : TravelPreferences.t) (flights : list FlightOption.t)
    (hotels : list HotelOption.t) (travel_guides : option (list (string * TravelGuideInfo.t)))
    (start : Z) :
  TravelPreferences.start_date prefs = Some start ->
  _build_city_route prefs flights <> [] ->
  (py_len (_build_city_route prefs flights) <= TravelPreferences.num_days prefs)%Z ->
  date_valid start ->
  (start + TravelPreferences.num_days prefs <= date_max_ordinal)%Z ->
  exists itinerary,
    run top_attractions prefs flights hotels travel_guides = Ok itinerary
    /\ Itinerary.destinations itinerary = map _label_city (_build_city_route prefs flights)
    /\ every_destination_has_a_day itinerary.
Proof.
  intros Hstart Hne Hlen [Hmin _] Hmax.
  destruct (run_total top_attractions prefs flights hotels travel_guides start Hstart Hne)
    as [itinerary [Hdest [_ [Hcover [Hrun _]]]]].
  exists itinerary. split; [|split; [exact Hdest|]].
  - apply Hrun. pose proof (py_len_pos _ Hne). unfold date_min_ordinal in Hmin.
    apply days_fit_I; lia.
  - intros c Hc. rewrite Hdest in Hc. apply in_map_iff in Hc.
    destruct Hc as [c0 [<- Hc0]]. apply (Hcover Hlen c0 Hc0).
Qed.

Lemma run_days_cover_route_witness :
  exists itinerary,
    run sample_top_attractions (prefs_two_cities 3)
      [sample_flight "GYD" "CDG" "2025-06-01" 200 "10:00"] [] None = Ok itinerary
    /\ Itinerary.destinations itinerary
       = map _label_city
           (_build_city_route (prefs_two_cities 3)
              [sample_flight "GYD" "CDG" "2025-06-01" 200 "10:00"])
    /\ every_destination_has_a_day itinerary.
Proof.
  apply (run_days_cover_route sample_top_attractions (prefs_two_cities 3)
           [sample_flight "GYD" "CDG" "2025-06-01" 200 "10:00"] [] None 739000).
  - reflexivity.
  - vm_compute. discriminate.
  - vm_compute. discriminate.
  - unfold date_valid. vm_compute. split; discriminate.
  - vm_compute. discriminate.
Defined.

(** The planner steps to the day after each day it plans: a one-day trip
    that starts on [date.max] raises [OverflowError]. *)
Example run_on_date_max_raises :
  run sample_top_attractions
    (TravelPreferences.mk "Baku" ["Paris"] 1 1 500 (Some date_max_ordinal) None) [] [] None
  = Raise OverflowError.
Proof. vm_compute. reflexivity. Qed.

(** C5 (as stated) fails when the trip is shorter than the route: with one
    day for Paris and Rome, Paris takes the day and Rome, a destination of
    the itinerary, has none. *)
Lemma run_one_day_two_cities :
  exists itinerary,
    run no_attractions (prefs_two_cities 1) [] [] None = Ok itinerary
    /\ ~ every_destination_has_a_day itinerary.
Proof.
  eexists. split; [vm_compute; reflexivity|].
  intros H. destruct (H "Rome") as [d [Hd Hcity]].
  - simpl. auto.
  - simpl in Hd. destruct Hd as [<- | []]. discriminate.
Qed.

(** ** BudgetOptimizer: the run returns *)

Lemma foldM_total {A S : Type} (f : S -> A -> result S) (l : list A) :
  (forall s x, exists s', f s x = Ok s') -> forall s, exists s', foldM f l s = Ok s'.
Proof.
  intros Hf. induction l as [|x l IH]; intros s; cbn [foldM].
  - exists s. reflexivity.
  - destruct (Hf s x) as [s' ->]. cbn [bind]. apply IH.
Qed.

Lemma inject_Z_nonzero (z : Z) : z <> 0%Z -> ~ (inject_Z z == 0)%Q.
Proof. intros H E. unfold Qeq, inject_Z in E. simpl in E. lia. Qed.

(** Both divisions of the hotel budgeting have a divisor that is not
    zero: the nights are [sum(...) or max(1, num_days)] and the
    destination count is clamped by [max(1, ...)]. *)
Lemma hotel_budgets_total (prefs : TravelPreferences.t) (nights_per_city : list (string * Z))
    (total_nights : Z) (hotel_budget : Q) :
  total_nights <> 0%Z ->
  exists per_city, hotel_budgets prefs nights_per_city total_nights hotel_budget = Ok per_city.
Proof.
  intros Hn. unfold hotel_budgets. destruct nights_per_city as [|cn rest].
  - rewrite py_truediv_ok by (apply inject_Z_nonzero; lia).
    cbn [bind]. eexists. reflexivity.
  - apply foldM_total. intros s x.
    rewrite py_truediv_ok by (apply inject_Z_nonzero, Hn).
    cbn [bind]. eexists. reflexivity.
Qed.

Lemma total_nights_nonzero (s num_days : Z) :
  (if (s =? 0)%Z then Z.max 1 num_days else s) <> 0%Z.
Proof. destruct (Z.eqb_spec s 0); lia. Qed.

(** Inside the reconciliation branch the scale is below 1. *)
Lemma reconciliation_scale_lt_1 (B f h a : Q) :
  (B < f + h + a)%Q -> (0 < a)%Q ->
  (py_max 0 (py_min 1 (py_max 0 (B - f - h) / a)) < 1)%Q.
Proof.
  intros Hover Ha.
  assert (py_max 0 (B - f - h) / a < 1)%Q as Hr.
  { apply Qlt_shift_div_r; [exact Ha|].
    destruct (py_max_cases 0 (B - f - h)) as [[_ ->]|[_ ->]]; lra. }
  revert Hr. generalize (py_max 0 (B - f - h) / a)%Q. intros r Hr.
  destruct (py_min_cases 1 r) as [[L1 ->]|[L1 ->]];
    match goal with
    | |- (py_max 0 ?x < 1)%Q => destruct (py_max_cases 0 x) as [[L2 ->]|[L2 ->]]
    end; lra.
Qed.

Lemma optimizer_run_cases (strptime : string -> string -> option datetime)
    (prefs : TravelPreferences.t) (flights : list FlightOption.t)
    (hotels : list HotelOption.t) (itinerary : Itinerary.t) :
  exists out,
    optimizer_run strptime prefs flights hotels itinerary = Ok out
    /\ chosen_flights out = choose_flights strptime prefs flights itinerary
    /\ BudgetBreakdown.flights (budget out)
       = py_sum (map FlightOption.price (chosen_flights out))
    /\ BudgetBreakdown.activities (budget out) = activities_cost_of (final_itinerary out)
    /\ let B := TravelPreferences.total_budget prefs in
       let f := BudgetBreakdown.flights (budget out) in
       let h := BudgetBreakdown.hotels (budget out) in
       let a := activities_cost_of itinerary in
       ((B < f + h + a)%Q /\ (0 < a)%Q
        /\ final_itinerary out
           = _scale_activity_costs itinerary
               (py_max 0 (py_min 1 (py_max 0 (B - f - h) / a))))
       \/ (~ ((B < f + h + a)%Q /\ (0 < a)%Q) /\ final_itinerary out = itinerary).
Proof.
  unfold optimizer_run.
  destruct (hotel_budgets_total prefs (_nights_per_city itinerary) _
              (py_max 0 (TravelPreferences.total_budget prefs
                         - py_sum (map FlightOption.price
                                     (choose_flights strptime prefs flights itinerary))))
              (total_nights_nonzero (py_sumZ (dict_values (_nights_per_city itinerary)))
                 (TravelPreferences.num_days prefs)))
    as [per_city ->].
  cbn [bind].
  set (B := TravelPreferences.total_budget prefs).
  set (f := py_sum (map FlightOption.price (choose_flights strptime prefs flights itinerary))).
  set (h := py_sum (map _ (choose_hotels prefs hotels _ per_city _))).
  set (a := activities_cost_of itinerary).
  destruct (Qltb B (f + h + a)) eqn:E1; [destruct (Qltb 0 a) eqn:E2|]; cbn [andb].
  - apply Qltb_lt in E1, E2.
    rewrite py_truediv_ok by lra. cbn [bind].
    pose proof (reconciliation_scale_lt_1 B f h a E1 E2) as Hs.
    apply Qltb_lt in Hs. rewrite Hs. cbn [bind snd fst].
    eexists. split; [reflexivity|]. cbn. repeat split. left. repeat split; assumption.
  - cbn [bind snd fst]. eexists. split; [reflexivity|]. cbn. repeat split.
    right. split; [|reflexivity]. intros [_ H]. apply Qltb_lt in H. congruence.
  - cbn [bind snd fst]. eexists. split; [reflexivity|]. cbn. repeat split.
    right. split; [|reflexivity]. intros [H _]. apply Qltb_lt in H. congruence.
Qed.

(** What [run] reports about the hotels: the selection of the hotel loop
    for the shares of the hotel budget, and its cost for the nights. *)
Lemma optimizer_run_hotels (strptime : string -> string -> option datetime)
    (prefs : TravelPreferences.t) (flights : list FlightOption.t)
    (hotels : list HotelOption.t) (itinerary : Itinerary.t) (out : Outcome) :
  optimizer_run strptime prefs flights hotels itinerary = Ok out ->
  let nights := _nights_per_city itinerary in
  let hotel_budget :=
    py_max 0 (TravelPreferences.total_budget prefs
              - py_sum (map FlightOption.price (chosen_flights out))) in
  (exists shares,
     hotel_budgets prefs nights (total_nights_of prefs itinerary) hotel_budget = Ok shares
     /\ chosen_hotels out = choose_hotels prefs hotels nights shares hotel_budget)
  /\ BudgetBreakdown.hotels (budget out)
     = py_sum
         (map (fun ch =>
                 (HotelOption.price (snd ch)
                  * inject_Z (Z.max 1%Z (dict_get_default String.eqb nights (fst ch) 0%Z)))%Q)
            (chosen_hotels out)).
Proof.
  unfold optimizer_run, total_nights_of. cbv zeta. intros H.
  destruct (hotel_budgets prefs (_nights_per_city itinerary) _ _) as [shares|e] eqn:Hs;
    cbn [bind] in H; [|discriminate].
  match type of H with
  | bind ?m _ = _ => destruct m as [fitted|e]; cbn [bind] in H; [|discriminate]
  end.
  injection H as <-. cbn [chosen_flights chosen_hotels budget BudgetBreakdown.hotels].
  split; [|reflexivity]. exists shares. split; [exact Hs | reflexivity].
Qed.

Lemma scale_activity_costs_nonneg (itinerary : Itinerary.t) (scale : Q) :
  (0 <= scale)%Q -> costs_nonneg itinerary ->
  costs_nonneg (_scale_activity_costs itinerary scale).
Proof.
  intros Hs H. unfold costs_nonneg, _scale_activity_costs in *. cbn [Itinerary.days].
  apply Forall_map. eapply Forall_impl; [|exact H].
  intros d Hd. unfold day_costs_nonneg in *. cbn [ItineraryDay.activities ItineraryDay.set_activities].
  apply Forall_map. eapply Forall_impl; [|exact Hd].
  intros a Ha. unfold cost_nonneg in *. cbn [Activity.est_cost Activity.set_est_cost].
  apply py_round2_nonneg, Qmult_le_0_compat; assumption.
Qed.

Lemma optimizer_run_nonneg (strptime : string -> string -> option datetime)
    (prefs : TravelPreferences.t) (flights : list FlightOption.t)
    (hotels : list HotelOption.t) (itinerary : Itinerary.t) (out : Outcome) :
  optimizer_run strptime prefs flights hotels itinerary = Ok out ->
  costs_nonneg itinerary ->
  costs_nonneg (final_itinerary out).
Proof.
  intros Hrun Hit.
  destruct (optimizer_run_cases strptime prefs flights hotels itinerary)
    as [out' [Hrun' [_ [_ [_ Hcases]]]]].
  rewrite Hrun in Hrun'. injection Hrun' as <-.
  destruct Hcases as [[_ [_ ->]] | [_ ->]]; [|exact Hit].
  apply scale_activity_costs_nonneg; [apply py_max_0_nonneg | exact Hit].
Qed.

Lemma run_Ok_nonneg (top_attractions : string -> Z -> list Attraction)
    (prefs : TravelPreferences.t) (flights : list FlightOption.t)
    (hotels : list HotelOption.t) (travel_guides : option (list (string * TravelGuideInfo.t)))
    (itinerary : Itinerary.t) :
  run top_attractions prefs flights hotels travel_guides = Ok itinerary ->
  costs_nonneg itinerary.
Proof.
  intros Hrun.
  destruct (TravelPreferences.start_date prefs) as [start|] eqn:Hstart;
    [|unfold run in Hrun; rewrite Hstart in Hrun; discriminate].
  destruct (_build_city_route prefs flights) as [|c route] eqn:Hroute.
  - unfold run in Hrun. rewrite Hstart, Hroute in Hrun. discriminate.
  - destruct (run_total top_attractions prefs flights hotels travel_guides start Hstart)
      as [it [_ [H [_ [Hok Hko]]]]]; [rewrite Hroute; discriminate|].
    destruct (days_fit start (Z.max 1 (TravelPreferences.num_days prefs))).
    + rewrite (Hok eq_refl) in Hrun. injection Hrun as <-. exact H.
    + rewrite (Hko eq_refl) in Hrun. discriminate.
Qed.

(** The planner followed by the optimizer returns whenever the planner's
    preconditions hold: a start date, a route that is not empty, and days
    that fit the calendar. *)
Lemma plan_and_optimize_total (top_attractions : string -> Z -> list Attraction)
    (strptime : string -> string -> option datetime)
    (prefs : TravelPreferences.t) (flights : list FlightOption.t)
    (hotels : list HotelOption.t) (travel_guides : option (list (string * TravelGuideInfo.t)))
    (start : Z) :
  TravelPreferences.start_date prefs = Some start ->
  _build_city_route prefs flights <> [] ->
  days_fit start (Z.max 1 (TravelPreferences.num_days prefs)) = true ->
  exists itinerary out,
    plan_and_optimize top_attractions strptime prefs flights hotels travel_guides
    = Ok (itinerary, out).
Proof.
  intros Hstart Hne Hfit. unfold plan_and_optimize.
  destruct (run_total top_attractions prefs flights hotels travel_guides start Hstart Hne)
    as [itinerary [_ [_ [_ [Hrun _]]]]].
  rewrite (Hrun Hfit).
  destruct (optimizer_run_cases strptime prefs flights hotels itinerary) as [out [Hout _]].
  cbn [bind]. rewrite Hout. cbn [bind]. exists itinerary, out. reflexivity.
Qed.

(** C9.  Every activity is created with a cost of at least zero, and the
    costs are still at least zero after the per-day fitting (the itinerary
    the planner returns) and after the global reconciliation (the
    itinerary the optimizer leaves). *)
Theorem est_cost_never_negative (top_attractions : string -> Z -> list Attraction)
    (strptime : string -> string -> option datetime)
    (prefs : TravelPreferences.t) (flights : list FlightOption.t)
    (hotels : list HotelOption.t) (travel_guides : option (list (string * TravelGuideInfo.t)))
    (itinerary : Itinerary.t) (out : Outcome) :
  (0 <= TravelPreferences.total_budget prefs)%Q ->
  plan_and_optimize top_attractions strptime prefs flights hotels travel_guides
  = Ok (itinerary, out) ->
  (forall guides envelope prev_city city days_in_city day_idx draft,
      draft_day top_attractions flights hotels guides envelope prev_city city days_in_city
        day_idx = Ok draft ->
      Forall cost_nonneg (snd draft))
  /\ costs_nonneg itinerary
  /\ costs_nonneg (final_itinerary out).
Proof.
  intros _ Hplan. unfold plan_and_optimize in Hplan.
  apply bind_Ok in Hplan. destruct Hplan as [it [Hrun Hplan]].
  apply bind_Ok in Hplan. destruct Hplan as [out' [Hopt Hplan]].
  injection Hplan as <- <-.
  pose proof (run_Ok_nonneg _ _ _ _ _ _ Hrun) as Hit.
  split; [|split; [exact Hit | apply (optimizer_run_nonneg _ _ _ _ _ _ Hopt Hit)]].
  intros guides envelope prev_city city days_in_city day_idx draft Hdraft.
  destruct (draft_day_total top_attractions flights hotels guides envelope prev_city city
              days_in_city day_idx) as [draft' [Hd Hn]].
  rewrite Hdraft in Hd. injection Hd as <-. exact Hn.
Qed.

Lemma est_cost_never_negative_witness :
  exists itinerary out,
    plan_and_optimize sample_top_attractions sample_strptime (prefs_two_cities 3)
      sample_flights [] None
    = Ok (itinerary, out)
    /\ costs_nonneg itinerary
    /\ costs_nonneg (final_itinerary out).
Proof.
  eexists. eexists. split; [vm_compute; reflexivity|].
  apply (est_cost_never_negative sample_top_attractions sample_strptime (prefs_two_cities 3)
           sample_flights [] None).
  - vm_compute. discriminate.
  - vm_compute. reflexivity.
Defined.

(** ** BudgetOptimizer: global reconciliation *)

Lemma scale_activity_costs_comp (itinerary : Itinerary.t) (s1 s2 : Q) :
  (s1 == s2)%Q -> _scale_activity_costs itinerary s1 = _scale_activity_costs itinerary s2.
Proof.
  intros E. unfold _scale_activity_costs. f_equal.
  apply map_ext. intros d. f_equal. apply map_ext. intros a. f_equal.
  apply py_round2_comp. rewrite E. reflexivity.
Qed.

Lemma activity_costs_scaled (itinerary : Itinerary.t) (scale : Q) :
  activity_costs (_scale_activity_costs itinerary scale)
  = map (fun c => py_round2 (c * scale)) (activity_costs itinerary).
Proof.
  unfold activity_costs, _scale_activity_costs. cbn [Itinerary.days].
  induction (Itinerary.days itinerary) as [|d days IH]; [reflexivity|].
  cbn [map flat_map]. rewrite map_app, IH. f_equal.
  cbn [ItineraryDay.activities ItineraryDay.set_activities]. rewrite !map_map. reflexivity.
Qed.

Lemma scaled_sum_bound (costs : list Q) (scale : Q) :
  (py_sum (map (fun c => py_round2 (c * scale)) costs)
   <= scale * py_sum costs + inject_Z (py_len costs) * (1 # 200))%Q.
Proof.
  induction costs as [|c costs IH].
  - unfold py_sum, py_len. cbn [map fold_left List.length].
    change (inject_Z (Z.of_nat 0)) with 0%Q. lra.
  - cbn [map]. rewrite !py_sum_cons.
    assert (inject_Z (py_len (c :: costs)) == inject_Z (py_len costs) + 1)%Q as ->.
    { unfold py_len. cbn [List.length]. rewrite Nat2Z.inj_succ, <- Z.add_1_r, inject_Z_plus.
      reflexivity. }
    destruct (py_round2_near (c * scale)) as [H _]. lra.
Qed.

Lemma reconciliation_scale_clamp (B f h a : Q) :
  (0 < a)%Q ->
  (py_max 0 (py_min 1 (py_max 0 (B - f - h) / a)) == clamp 0 1 ((B - f - h) / a))%Q.
Proof.
  intros Ha. unfold clamp. rewrite py_max_Qmax, py_min_Qmin, py_max_Qmax.
  destruct (Qlt_le_dec (B - f - h) 0) as [L | L].
  - rewrite (Q.max_l 0 (B - f - h)) by lra.
    assert ((B - f - h) / a < 0)%Q by (apply Qlt_shift_div_r; lra).
    assert (0 / a == 0)%Q as -> by (field; lra).
    rewrite (Q.min_r 1 0), (Q.min_r 1 ((B - f - h) / a)) by lra.
    rewrite !Q.max_l by lra. reflexivity.
  - rewrite (Q.max_r 0 (B - f - h)) by lra. reflexivity.
Qed.

(** What the clamped ratio leaves of the activity cost. *)
Lemma clamp_ratio_times (B f h a : Q) :
  (B < f + h + a)%Q -> (0 < a)%Q ->
  (f + h + clamp 0 1 ((B - f - h) / a) * a <= Qmax B (f + h))%Q.
Proof.
  intros Hover Ha. unfold clamp.
  destruct (Qlt_le_dec (B - f - h) 0) as [L | L].
  - assert ((B - f - h) / a < 0)%Q by (apply Qlt_shift_div_r; lra).
    rewrite (Q.min_r 1 ((B - f - h) / a)), Q.max_l by lra.
    rewrite (Q.max_r B (f + h)) by lra. lra.
  - assert (0 <= (B - f - h) / a)%Q by (apply Qle_shift_div_l; lra).
    assert ((B - f - h) / a < 1)%Q by (apply Qlt_shift_div_r; lra).
    rewrite (Q.min_r 1 ((B - f - h) / a)), Q.max_r by lra.
    rewrite (Q.max_l B (f + h)) by lra.
    assert ((B - f - h) / a * a == B - f - h)%Q as -> by (field; lra). lra.
Qed.

(** C1 (as stated) fails when the flight and hotel cost alone exceed the
    budget: the only hotel of Paris costs 150 against a budget of 100 and
    is chosen all the same, the scale is 0, and the total stays at 150. *)
Lemma reconciliation_over_budget_hotel :
  exists out,
    optimizer_run sample_strptime prefs_paris_100 [] [hotel_paris_150] itinerary_paris_one_day
    = Ok out
    /\ ~ reconciliation_as_claimed prefs_paris_100 itinerary_paris_one_day out.
Proof.
  eexists. split; [vm_compute; reflexivity|].
  intros H. destruct H as [_ H].
  - vm_compute. reflexivity.
  - vm_compute. reflexivity.
  - vm_compute in H. apply H. reflexivity.
Qed.

(** ** BudgetOptimizer: flight selection *)

Lemma pullback_CmpOrder {A B : Type} (g : A -> B) (cmp : B -> B -> comparison)
    {O : CmpOrder cmp} :
  CmpOrder (fun a b => cmp (g a) (g b)).
Proof.
  split.
  - intros a b. apply cmp_antisym.
  - intros a b c. apply cmp_lt_trans.
  - intros a b c. apply cmp_eq_l.
Qed.

#[local] Instance datetime_CmpOrder : CmpOrder datetime_cmp.
Proof. unfold datetime_cmp. apply (pullback_CmpOrder datetime_fields). typeclasses eauto. Qed.

#[local] Instance flight_key_CmpOrder : CmpOrder flight_key_cmp.
Proof. unfold flight_key_cmp. typeclasses eauto. Qed.

Lemma lex_Z_le {B : Type} (cb : B -> B -> comparison) (x m : Z) (r r' : B) :
  (x <= m)%Z -> cb r r' <> Gt -> lex_cmp Z.compare cb (x, r) (m, r') <> Gt.
Proof.
  intros Hx Hr. unfold lex_cmp. cbn [fst snd].
  destruct (Z.compare_spec x m); [exact Hr | discriminate | lia].
Qed.

Lemma datetime_le_max (d : datetime) : datetime_valid d -> datetime_cmp d datetime_max <> Gt.
Proof.
  intros [Hy [Hm [Hd [Hh [Hmi [Hs Hu]]]]]].
  unfold datetime_cmp, datetime_fields, datetime_max. cbn [year month day hour minute second microsecond].
  repeat (apply lex_Z_le; [lia|]).
  apply Z.compare_le_iff. lia.
Qed.

Section FlightSelection.
Variable strptime : string -> string -> option datetime.
Hypothesis strptime_valid : forall v fmt d, strptime v fmt = Some d -> datetime_valid d.

Lemma first_parse_valid (v : string) (fmts : list string) (d : datetime) :
  first_parse strptime v fmts = Some d -> datetime_valid d.
Proof.
  induction fmts as [|fmt fmts IH]; cbn [first_parse]; [discriminate|].
  destruct (strptime v fmt) as [dt|] eqn:E; [|exact IH].
  intros H. injection H as <-. apply strptime_valid in E.
  destruct (year dt =? 1900)%Z; [|exact E].
  unfold datetime_valid, replace_year in *. cbn [year month day hour minute second microsecond].
  intuition lia.
Qed.

Lemma parse_departure_time_le_max (value : string) (d : datetime) :
  _parse_departure_time strptime value = Some d -> datetime_cmp d datetime_max <> Gt.
Proof.
  unfold _parse_departure_time. destruct (value =? ""); [discriminate|].
  intros H. apply datetime_le_max, (first_parse_valid _ _ _ H).
Qed.

End FlightSelection.

Lemma leg_eqb_spec (a b : string * string) : leg_eqb a b = true <-> a = b.
Proof.
  destruct a as [a1 a2], b as [b1 b2]. unfold leg_eqb. cbn [fst snd].
  rewrite andb_true_iff, !String.eqb_eq. split; [intros [-> ->]; reflexivity|].
  intros H. injection H as -> ->. auto.
Qed.

Lemma legs_from_combine (current origin_label : string) (dests : list string) :
  legs_from current dests origin_label = combine (current :: dests) (dests ++ [origin_label]).
Proof.
  revert current. induction dests as [|d dests IH]; intros current; cbn; [reflexivity|].
  rewrite IH. reflexivity.
Qed.

Section FlightsByLeg.
Variable strptime : string -> string -> option datetime.

Let step (by_leg : list (string * string * FlightOption.t)) (f : FlightOption.t) :=
  match dict_get leg_eqb by_leg (flight_leg f) with
  | None => dict_set leg_eqb by_leg (flight_leg f) f
  | Some existing =>
      if flight_ltb strptime f existing then dict_set leg_eqb by_leg (flight_leg f) f
      else by_leg
  end.

Lemma flight_key_le_refl (f : FlightOption.t) : flight_key_le strptime f f.
Proof. unfold flight_key_le. rewrite (cmp_refl flight_key_cmp). discriminate. Qed.

(** One more flight: the entry of its leg is replaced only by a strictly
    smaller key, so every entry stays minimal among the flights seen. *)
Lemma flights_by_leg_step (by_leg : list (string * string * FlightOption.t))
    (seen : list FlightOption.t) (f : FlightOption.t) :
  (forall leg, selection_for_leg strptime seen leg (dict_get leg_eqb by_leg leg)) ->
  forall leg,
    selection_for_leg strptime (seen ++ [f]) leg (dict_get leg_eqb (step by_leg f) leg).
Proof.
  intros Inv leg.
  assert (Hold : selection_for_leg strptime seen leg (dict_get leg_eqb by_leg leg) ->
                 flight_leg f <> leg ->
                 selection_for_leg strptime (seen ++ [f]) leg (dict_get leg_eqb by_leg leg)).
  { intros H Hneq. destruct (dict_get leg_eqb by_leg leg) as [e|]; cbn in *.
    - destruct H as [Hin [Hleg Hmin]]. split; [apply in_or_app; auto|]. split; [exact Hleg|].
      intros g Hg Hgl. apply in_app_or in Hg. destruct Hg as [Hg | [<- | []]];
        [apply (Hmin g Hg Hgl) | contradiction].
    - intros g Hg. apply in_app_or in Hg. destruct Hg as [Hg | [<- | []]];
        [apply (H g Hg) | exact Hneq]. }
  assert (Hnew : (forall g, In g seen -> flight_leg g = flight_leg f ->
                            flight_key_le strptime f g) ->
                 selection_for_leg strptime (seen ++ [f]) leg
                   (dict_get leg_eqb (dict_set leg_eqb by_leg (flight_leg f) f) leg)).
  { intros Hmin. rewrite (dict_get_set leg_eqb leg_eqb_spec).
    destruct (leg_eqb (flight_leg f) leg) eqn:E.
    - apply leg_eqb_spec in E. subst leg. cbn.
      split; [apply in_or_app; simpl; auto|]. split; [reflexivity|].
      intros g Hg Hgl. apply in_app_or in Hg. destruct Hg as [Hg | [<- | []]];
        [apply (Hmin g Hg Hgl) | apply flight_key_le_refl].
    - apply Hold; [apply Inv|]. intros H. apply leg_eqb_spec in H. congruence. }
  unfold step. pose proof (Inv (flight_leg f)) as Hf.
  destruct (dict_get leg_eqb by_leg (flight_leg f)) as [e|] eqn:Ee; cbn in Hf.
  - destruct Hf as [_ [_ Hmin]].
    destruct (flight_ltb strptime f e) eqn:Elt.
    + apply Hnew. intros g Hg Hgl. unfold flight_ltb in Elt.
      apply (cmp_ltb_true flight_key_cmp) in Elt.
      unfold flight_key_le. rewrite (cmp_lt_le_trans flight_key_cmp _ _ _ Elt (Hmin g Hg Hgl)).
      discriminate.
    + destruct (leg_eqb (flight_leg f) leg) eqn:E.
      * apply leg_eqb_spec in E. subst leg. rewrite Ee. cbn.
        pose proof (Inv (flight_leg f)) as Hf. rewrite Ee in Hf. cbn in Hf.
        destruct Hf as [Hin [Hleg _]].
        split; [apply in_or_app; auto|]. split; [exact Hleg|].
        intros g Hg Hgl. apply in_app_or in Hg. destruct Hg as [Hg | [<- | []]].
        -- apply (Hmin g Hg Hgl).
        -- unfold flight_ltb in Elt. apply (cmp_ltb_false flight_key_cmp) in Elt. exact Elt.
      * apply Hold; [apply Inv|]. intros H. apply leg_eqb_spec in H. congruence.
  - apply Hnew. intros g Hg Hgl. exfalso. apply (Hf g Hg Hgl).
Qed.

Lemma flights_by_leg_loop (l : list FlightOption.t) :
  forall by_leg seen,
    (forall leg, selection_for_leg strptime seen leg (dict_get leg_eqb by_leg leg)) ->
    forall leg,
      selection_for_leg strptime (seen ++ l) leg
        (dict_get leg_eqb (fold_left step l by_leg) leg).
Proof.
  induction l as [|f l IH]; intros by_leg seen Inv leg; cbn [fold_left].
  - rewrite app_nil_r. apply Inv.
  - replace (seen ++ f :: l) with ((seen ++ [f]) ++ l) by (rewrite <- app_assoc; reflexivity).
    apply IH. apply flights_by_leg_step, Inv.
Qed.

Lemma selection_for_leg_same (l1 l2 : list FlightOption.t) (leg : string * string)
    (choice : option FlightOption.t) :
  (forall x, In x l1 <-> In x l2) ->
  selection_for_leg strptime l1 leg choice -> selection_for_leg strptime l2 leg choice.
Proof.
  intros H. destruct choice as [f|]; cbn.
  - intros [Hin [Hleg Hmin]]. split; [apply H, Hin|]. split; [exact Hleg|].
    intros g Hg. apply Hmin, H, Hg.
  - intros Hnone g Hg. apply Hnone, H, Hg.
Qed.

Lemma flights_by_leg_minimal (flights : list FlightOption.t) (leg : string * string) :
  selection_for_leg strptime flights leg
    (dict_get leg_eqb (flights_by_leg strptime (py_sorted (flight_ltb strptime) flights)) leg).
Proof.
  apply (selection_for_leg_same (py_sorted (flight_ltb strptime) flights)).
  - intros x. split; apply Permutation_in;
      [|apply Permutation_sym]; apply py_sorted_perm.
  - apply (flights_by_leg_loop _ [] [] (fun leg' g Hg => match Hg with end)).
Qed.

End FlightsByLeg.

(** The order of the code's keys is the order of the specification. *)
Lemma flight_key_le_order (strptime : string -> string -> option datetime)
    (a b : FlightOption.t) :
  flight_key_le strptime a b <-> flight_order strptime a b.
Proof.
  unfold flight_key_le, flight_order, departure_for_sort, flight_key_cmp, lex_cmp,
    _flight_sort_key.
  cbn [fst snd].
  set (da := match _parse_departure_time strptime (FlightOption.departure_time a) with
             | Some d => d | None => datetime_max end).
  set (db := match _parse_departure_time strptime (FlightOption.departure_time b) with
             | Some d => d | None => datetime_max end).
  destruct (Qcompare_spec (FlightOption.price a) (FlightOption.price b)) as [E | L | G].
  - destruct (datetime_cmp da db); split; intros H.
    + right. split; [exact E|]. right. split; [reflexivity | exact H].
    + destruct H as [H | [_ [H | [_ H]]]]; [lra | discriminate | exact H].
    + right. split; [exact E|]. left. reflexivity.
    + discriminate.
    + exfalso. apply H. reflexivity.
    + destruct H as [H | [_ [H | [H _]]]]; [lra | discriminate | discriminate].
  - split; intros H; [left; exact L | discriminate].
  - split; intros H; [exfalso; apply H; reflexivity|].
    destruct H as [H | [H _]]; lra.
Qed.

Lemma StronglySorted_weaken {A : Type} (R S : A -> A -> Prop) (l : list A) :
  (forall a b, R a b -> S a b) -> StronglySorted R l -> StronglySorted S l.
Proof.
  intros H. induction 1 as [|x l Hl IH Hall]; constructor; [exact IH|].
  eapply Forall_impl; [|exact Hall]. intros y. apply H.
Qed.

Lemma flight_leg_on_leg (f : FlightOption.t) (leg : string * string) :
  flight_leg f = leg <-> flight_on_leg f leg.
Proof.
  unfold flight_leg, flight_on_leg. destruct leg as [x y]. cbn [fst snd]. split.
  - intros H. injection H as <- <-. auto.
  - intros [<- <-]. reflexivity.
Qed.

Lemma selection_for_leg_selected (strptime : string -> string -> option datetime)
    (flights : list FlightOption.t) (leg : string * string)
    (choice : option FlightOption.t) :
  selection_for_leg strptime flights leg choice ->
  selected_for_leg strptime flights leg choice.
Proof.
  destruct choice as [f|]; cbn [selection_for_leg selected_for_leg].
  - intros [Hin [Hleg Hmin]]. split; [exact Hin|]. split; [apply flight_leg_on_leg, Hleg|].
    intros g Hg Hgl. apply flight_key_le_order, Hmin; [exact Hg | apply flight_leg_on_leg, Hgl].
  - intros H g Hg Hgl. apply (H g Hg), flight_leg_on_leg, Hgl.
Qed.

(** C3.  For a trip with more than one declared destination the required
    legs are origin to the first city of the itinerary, each city to the
    next, and the last city to the origin.  The flights are sorted by
    price, then by parsed departure time, where a text that does not
    parse counts as [datetime.max] and so is never before one that does,
    then by the text of the departure time.  For each leg the selection
    is a discovered flight whose origin and destination labels are those
    of the leg and that is first in this order among them, and a leg no
    discovered flight serves contributes nothing. *)
Theorem multi_city_flight_selection (strptime : string -> string -> option datetime)
    (prefs : TravelPreferences.t) (flights : list FlightOption.t) (itinerary : Itinerary.t) :
  (forall v fmt d, strptime v fmt = Some d -> datetime_valid d) ->
  (1 < py_len (TravelPreferences.destinations prefs))%Z ->
  multi_city_selection_as_specified strptime prefs flights itinerary.
Proof.
  intros Hvalid Hmulti. unfold multi_city_selection_as_specified. cbv zeta.
  split; [apply py_sorted_perm|]. split.
  { apply (StronglySorted_weaken (flight_key_le strptime)).
    - intros a b. apply flight_key_le_order.
    - exact (py_sorted_sorted flight_key_cmp (_flight_sort_key strptime) flights). }
  split; [intros value d; apply (parse_departure_time_le_max strptime Hvalid)|].
  exists (fun leg =>
            dict_get leg_eqb
              (flights_by_leg strptime (py_sorted (flight_ltb strptime) flights)) leg).
  split; [intros leg; apply selection_for_leg_selected, flights_by_leg_minimal|].
  unfold choose_flights.
  apply Z.ltb_lt in Hmulti. rewrite Hmulti, legs_from_combine. reflexivity.
Qed.

Lemma sample_strptime_valid (v fmt : string) (d : datetime) :
  sample_strptime v fmt = Some d -> datetime_valid d.
Proof.
  unfold sample_strptime.
  destruct ((fmt =? "%H:%M") && (v =? "10:00")); [|destruct ((fmt =? "%H:%M") && (v =? "07:30"))];
    intros H; try discriminate; injection H as <-; unfold datetime_valid; simpl; lia.
Defined.

Lemma multi_city_flight_selection_witness :
  multi_city_selection_as_specified sample_strptime (prefs_two_cities 3)
    flights_without_middle_leg itinerary_paris_rome.
Proof.
  apply multi_city_flight_selection.
  - exact sample_strptime_valid.
  - vm_compute. reflexivity.
Defined.

(** The scenario of the specification: flights for Baku to Paris and for
    Rome to Baku only; the cheapest of each is selected and the leg from
    Paris to Rome is absent. *)
Example missing_leg_is_absent :
  choose_flights sample_strptime (prefs_two_cities 3) flights_without_middle_leg
    itinerary_paris_rome
  = [ sample_flight "GYD" "CDG" "2025-06-01" 80 "noon";
      sample_flight "FCO" "GYD" "2025-06-03" 90 "late" ].
Proof. vm_compute. reflexivity. Qed.

(* ================================================================= *)
(** * Further properties of the planner *)

Lemma mapM_app {A B : Type} (f : A -> result B) (l1 l2 : list A) (r1 r2 : list B) :
  mapM f l1 = Ok r1 -> mapM f l2 = Ok r2 -> mapM f (l1 ++ l2) = Ok (r1 ++ r2).
Proof.
  revert r1. induction l1 as [|x l1 IH]; intros r1 H1 H2; cbn [mapM app] in *.
  - injection H1 as <-. exact H2.
  - destruct (f x) as [y|e]; cbn [bind] in *; [|discriminate].
    destruct (mapM f l1) as [ys|e]; cbn [bind] in *; [|discriminate].
    injection H1 as <-. rewrite (IH ys eq_refl H2). reflexivity.
Qed.

Lemma mapM_map {A B C : Type} (f : B -> result C) (h : A -> B) (l : list A) :
  mapM f (map h l) = mapM (fun x => f (h x)) l.
Proof.
  induction l as [|x l IH]; cbn [mapM map]; [reflexivity|]. rewrite IH. reflexivity.
Qed.

Lemma mapM_Forall2 {A B : Type} (f : A -> result B) (l : list A) (r : list B) :
  mapM f l = Ok r -> Forall2 (fun x y => f x = Ok y) l r.
Proof.
  revert r. induction l as [|x l IH]; intros r H; cbn [mapM] in H.
  - injection H as <-. constructor.
  - destruct (f x) as [y|e] eqn:E; cbn [bind] in H; [|discriminate].
    destruct (mapM f l) as [ys|e]; cbn [bind] in H; [|discriminate].
    injection H as <-. constructor; [exact E | apply IH; reflexivity].
Qed.

(** The inner loop of [run], day by day: day [k] of the city is planned on
    the date of the first day plus [k]. *)
Lemma plan_days_loop_slots (g : Z -> Z -> result ItineraryDay.t) :
  (forall date idx, exists d, g date idx = Ok d) ->
  forall (m s : nat) (date0 : Z) (days : list ItineraryDay.t),
  exists new,
    mapM (fun k => g (date0 + k)%Z k) (map Z.of_nat (seq s m)) = Ok new
    /\ foldM (fun st day_idx =>
                d <- g (fst st) day_idx ;;
                current_date <- date_add_days (fst st) 1 ;;
                Ok (current_date, snd st ++ [d]))
         (map Z.of_nat (seq s m)) ((date0 + Z.of_nat s)%Z, days)
       = (if days_fit (date0 + Z.of_nat s) (Z.of_nat m)
          then Ok ((date0 + Z.of_nat s + Z.of_nat m)%Z, days ++ new)
          else Raise OverflowError).
Proof.
  intros Hg. induction m as [|m IH]; intros s date0 days.
  - exists []. cbn. rewrite app_nil_r, Z.add_0_r. auto.
  - cbn [seq map mapM foldM fst snd].
    destruct (Hg (date0 + Z.of_nat s)%Z (Z.of_nat s)) as [d Hd]. rewrite Hd. cbn [bind].
    destruct (IH (S s) date0 (days ++ [d])) as [new [Hmap Hfold]].
    exists (d :: new). rewrite Hmap. cbn [bind]. split; [reflexivity|].
    replace (Z.of_nat (S m)) with (1 + Z.of_nat m)%Z by lia.
    rewrite days_fit_succ by lia. rewrite date_add_days_1.
    destruct ((0 <=? date0 + Z.of_nat s)%Z && (date0 + Z.of_nat s + 1 <=? date_max_ordinal)%Z);
      cbn [bind andb]; [|reflexivity].
    replace (date0 + Z.of_nat s + 1)%Z with (date0 + Z.of_nat (S s))%Z by lia.
    rewrite Hfold. destruct (days_fit (date0 + Z.of_nat (S s)) (Z.of_nat m)); [|reflexivity].
    rewrite <- app_assoc. cbn [app]. f_equal. f_equal. lia.
Qed.

Section PlannerSchedule.
Variable top_attractions : string -> Z -> list Attraction.
Variables (flights : list FlightOption.t) (hotels : list HotelOption.t).
Variable travel_guides : list (string * TravelGuideInfo.t).
Variable budget_per_day : Q.

Lemma plan_city_slots (days_per_city : list (string * Z)) (date : Z)
    (days : list ItineraryDay.t) (prev_city city : string) (days_in_city : Z) :
  dict_get String.eqb days_per_city city = Some days_in_city ->
  exists new,
    mapM (plan_slot top_attractions flights hotels travel_guides budget_per_day)
      (city_slots date prev_city city days_in_city) = Ok new
    /\ plan_city top_attractions flights hotels travel_guides budget_per_day days_per_city
         (date, days, prev_city) city
       = (if days_fit date (Z.max 0 days_in_city)
          then Ok ((date + Z.max 0 days_in_city)%Z, days ++ new, city)
          else Raise OverflowError).
Proof.
  intros Hget. unfold plan_city. rewrite Hget. cbn [fst snd].
  destruct (plan_days_loop_slots
              (fun dt idx =>
                 plan_day top_attractions flights hotels travel_guides budget_per_day
                   prev_city city days_in_city dt idx)
              (fun dt idx =>
                 match plan_day_total top_attractions flights hotels travel_guides
                         budget_per_day prev_city city days_in_city dt idx with
                 | ex_intro _ d (conj H _) => ex_intro _ d H
                 end)
              (Z.to_nat days_in_city) 0%nat date days) as [new [Hmap Hfold]].
  exists new. split.
  - unfold city_slots. rewrite mapM_map. exact Hmap.
  - unfold py_range. cbn [Z.of_nat] in Hfold. rewrite Z.add_0_r in Hfold.
    rewrite Hfold.
    replace (Z.of_nat (Z.to_nat days_in_city)) with (Z.max 0 days_in_city) by lia.
    destruct (days_fit date (Z.max 0 days_in_city)); reflexivity.
Qed.

(** The outer loop of [run] plans the slots of the schedule, one after
    the other, as long as the dates last. *)
Lemma plan_cities_slots (days_per_city items : list (string * Z)) :
  (forall c n, In (c, n) items -> dict_get String.eqb days_per_city c = Some n) ->
  forall (date : Z) (days : list ItineraryDay.t) (prev_city : string),
  exists new,
    mapM (plan_slot top_attractions flights hotels travel_guides budget_per_day)
      (schedule date prev_city items) = Ok new
    /\ (days_fit date (py_sumZ (map (fun cn => Z.max 0 (snd cn)) items)) = true ->
        exists st,
          foldM (plan_city top_attractions flights hotels travel_guides budget_per_day
                   days_per_city)
            (map fst items) (date, days, prev_city) = Ok st
          /\ snd (fst st) = days ++ new)
    /\ (days_fit date (py_sumZ (map (fun cn => Z.max 0 (snd cn)) items)) = false ->
        foldM (plan_city top_attractions flights hotels travel_guides budget_per_day
                 days_per_city)
          (map fst items) (date, days, prev_city) = Raise OverflowError).
Proof.
  induction items as [|[city n] items IH]; intros Hall date days prev_city.
  - exists []. cbn. rewrite app_nil_r. split; [reflexivity|]. split.
    + intros _. eexists. split; reflexivity.
    + unfold days_fit. cbn. discriminate.
  - cbn [map fst foldM schedule snd]. rewrite py_sumZ_cons.
    rewrite days_fit_add by (try apply stay_total_nonneg; lia).
    destruct (plan_city_slots days_per_city date days prev_city city n
                (Hall city n (or_introl eq_refl))) as [new1 [Hmap1 ->]].
    destruct (IH (fun c m H => Hall c m (or_intror H)) (date + Z.max 0 n)%Z
                (days ++ new1) city) as [new2 [Hmap2 [Hfit Hover]]].
    exists (new1 ++ new2). split; [apply mapM_app; assumption|]. split.
    + intros Hok. apply andb_prop in Hok as [H1 H2]. rewrite H1. cbn [bind].
      destruct (Hfit H2) as [st [-> Hdays]].
      exists st. split; [reflexivity|]. rewrite Hdays, app_assoc. reflexivity.
    + intros Hko. destruct (days_fit date (Z.max 0 n)); cbn [bind]; [|reflexivity].
      cbn [andb] in Hko. apply Hover, Hko.
Qed.

End PlannerSchedule.

(** [run] as one pass over the schedule: the allocation of the route, the
    envelope, and one planned day per slot. *)
Lemma run_schedule (top_attractions : string -> Z -> list Attraction)
    (prefs : TravelPreferences.t) (flights : list FlightOption.t)
    (hotels : list HotelOption.t) (travel_guides : option (list (string * TravelGuideInfo.t)))
    (itinerary : Itinerary.t) :
  run top_attractions prefs flights hotels travel_guides = Ok itinerary ->
  exists start allocation envelope,
    TravelPreferences.start_date prefs = Some start
    /\ _allocate_days (TravelPreferences.num_days prefs) (_build_city_route prefs flights)
       = Ok allocation
    /\ dict_keys allocation = _build_city_route prefs flights
    /\ py_sumZ (dict_values allocation) = Z.max 1 (TravelPreferences.num_days prefs)
    /\ Forall (fun v => 0 <= v)%Z (dict_values allocation)
    /\ _estimate_activity_budget prefs flights hotels allocation = Ok envelope
    /\ (0 <= envelope)%Q
    /\ mapM (plan_slot top_attractions flights hotels (guides_or_empty travel_guides) envelope)
         (schedule start (TravelPreferences.origin_city prefs) allocation)
       = Ok (Itinerary.days itinerary)
    /\ Itinerary.origin itinerary = _label_city (TravelPreferences.origin_city prefs)
    /\ Itinerary.destinations itinerary = map _label_city (_build_city_route prefs flights).
Proof.
  intros Hrun.
  destruct (TravelPreferences.start_date prefs) as [start|] eqn:Hstart;
    [|unfold run in Hrun; rewrite Hstart in Hrun; discriminate].
  destruct (_build_city_route prefs flights) as [|c0 route0] eqn:Hroute;
    [unfold run in Hrun; rewrite Hstart, Hroute in Hrun; discriminate|].
  rewrite <- Hroute in *.
  assert (Hne : _build_city_route prefs flights <> []) by (rewrite Hroute; discriminate).
  pose proof (build_city_route_NoDup prefs flights) as ND.
  set (route := _build_city_route prefs flights) in *.
  unfold run in Hrun. rewrite Hstart in Hrun. fold route in Hrun.
  rewrite (allocate_days_nodup _ _ Hne ND) in Hrun. cbn [bind] in Hrun.
  set (allocation := map _ (enumerate route)) in *.
  assert (Hkeys : dict_keys allocation = route).
  { unfold allocation, dict_keys. rewrite map_map. cbn [fst]. apply map_snd_enumerate. }
  destruct (estimate_activity_budget_ok prefs flights hotels allocation
              (allocation_values_nonneg _ _)) as [envelope [Henv Hpos]].
  rewrite Henv in Hrun. cbn [bind] in Hrun.
  assert (Hall : forall c n, In (c, n) allocation ->
                   dict_get String.eqb allocation c = Some n).
  { intros c n Hin. apply In_nth_error in Hin. destruct Hin as [i Hi].
    apply (dict_get_nth String.eqb string_eqb_spec _ i); [rewrite Hkeys; exact ND | exact Hi]. }
  destruct (plan_cities_slots top_attractions flights hotels (guides_or_empty travel_guides)
              envelope allocation allocation Hall start []
              (TravelPreferences.origin_city prefs)) as [new [Hmap [Hfit Hover]]].
  fold (dict_keys allocation) in Hfit, Hover. rewrite Hkeys in Hfit, Hover.
  unfold guides_or_empty in Hfit, Hover.
  destruct (days_fit start (py_sumZ (map (fun cn => Z.max 0 (snd cn)) allocation)));
    [|rewrite (Hover eq_refl) in Hrun; discriminate].
  destruct (Hfit eq_refl) as [st [Hfold Hdays]].
  rewrite Hfold in Hrun. cbn [bind] in Hrun.
  injection Hrun as <-. cbn [Itinerary.days Itinerary.origin Itinerary.destinations].
  rewrite Hdays. cbn [app].
  exists start, allocation, envelope. repeat split; try assumption; try reflexivity.
  - apply (allocate_days_nodup _ _ Hne ND).
  - apply allocation_sum, Hne.
  - apply allocation_values_nonneg.
Qed.

Lemma plan_day_fields (top_attractions : string -> Z -> list Attraction)
    (flights : list FlightOption.t) (hotels : list HotelOption.t)
    (travel_guides : list (string * TravelGuideInfo.t)) (budget_per_day : Q)
    (prev_city city : string) (days_in_city current_date day_idx : Z) (d : ItineraryDay.t) :
  plan_day top_attractions flights hotels travel_guides budget_per_day prev_city city
    days_in_city current_date day_idx = Ok d ->
  ItineraryDay.date d = current_date
  /\ ItineraryDay.city d = _label_city city
  /\ ItineraryDay.transport d
     = (if (day_idx =? 0)%Z
        then fst (first_day_entries prev_city city flights hotels budget_per_day)
        else None).
Proof.
  unfold plan_day. intros H.
  apply bind_Ok in H. destruct H as [draft [Hdraft H]].
  apply bind_Ok in H. destruct H as [fitted [_ H]]. injection H as <-.
  cbn [ItineraryDay.date ItineraryDay.city ItineraryDay.transport].
  repeat split. unfold draft_day in Hdraft.
  apply bind_Ok in Hdraft. destruct Hdraft as [more [_ Hdraft]]. injection Hdraft as <-.
  cbn [fst]. destruct (day_idx =? 0)%Z; reflexivity.
Qed.

(** ** The shape of the schedule *)

Lemma dates_from_seq (n : nat) :
  forall (start : Z) (s : nat),
    map (fun k => (start + Z.of_nat k)%Z) (seq s n) = dates_from (start + Z.of_nat s) n.
Proof.
  induction n as [|n IH]; intros start s; [reflexivity|].
  unfold dates_from. cbn [seq map]. rewrite (IH start (S s)), (IH (start + Z.of_nat s)%Z 1%nat).
  f_equal; [lia|]. f_equal. lia.
Qed.

Lemma dates_from_app (start : Z) (n m : nat) :
  dates_from start (n + m) = dates_from start n ++ dates_from (start + Z.of_nat n) m.
Proof.
  unfold dates_from at 1 2. rewrite seq_app, map_app. f_equal. apply dates_from_seq.
Qed.

Lemma city_slots_dates (date : Z) (prev_city city : string) (n : Z) :
  map slot_date (city_slots date prev_city city n) = dates_from date (Z.to_nat n).
Proof.
  unfold city_slots, py_range, dates_from. rewrite !map_map. reflexivity.
Qed.

Lemma city_slots_length (date : Z) (prev_city city : string) (n : Z) :
  List.length (city_slots date prev_city city n) = Z.to_nat n.
Proof. unfold city_slots, py_range. rewrite !length_map, length_seq. reflexivity. Qed.

Lemma schedule_dates (allocation : list (string * Z)) :
  forall date prev_city,
    map slot_date (schedule date prev_city allocation)
    = dates_from date (List.length (schedule date prev_city allocation)).
Proof.
  induction allocation as [|[c n] rest IH]; intros date prev_city; [reflexivity|].
  cbn [schedule fst snd]. rewrite map_app, length_app, dates_from_app.
  rewrite city_slots_dates, city_slots_length, IH.
  replace (date + Z.of_nat (Z.to_nat n))%Z with (date + Z.max 0 n)%Z by lia. reflexivity.
Qed.

Lemma schedule_length (allocation : list (string * Z)) :
  forall date prev_city,
    Forall (fun v => 0 <= v)%Z (dict_values allocation) ->
    py_len (schedule date prev_city allocation) = py_sumZ (dict_values allocation).
Proof.
  induction allocation as [|[c n] rest IH]; intros date prev_city Hpos; [reflexivity|].
  cbn [schedule fst snd dict_values map] in *. inversion Hpos as [|? ? Hn Hrest]; subst.
  unfold py_len in *. rewrite length_app, city_slots_length, Nat2Z.inj_add.
  rewrite (IH _ _ Hrest), py_sumZ_cons. unfold dict_values. lia.
Qed.

Lemma schedule_cities (allocation : list (string * Z)) :
  forall date prev_city,
    map slot_city (schedule date prev_city allocation)
    = flat_map (fun cn => repeat (fst cn) (Z.to_nat (snd cn))) allocation.
Proof.
  induction allocation as [|[c n] rest IH]; intros date prev_city; [reflexivity|].
  cbn [schedule flat_map fst snd]. rewrite map_app, IH. f_equal.
  unfold city_slots, py_range. rewrite !map_map. cbn [slot_city].
  generalize 0%nat. induction (Z.to_nat n) as [|m IHm]; intros s; [reflexivity|].
  cbn [seq map repeat]. rewrite IHm. reflexivity.
Qed.

Lemma Forall2_map_eq {A B C : Type} (R : A -> B -> Prop) (f : A -> C) (g : B -> C)
    (l : list A) (r : list B) :
  (forall x y, R x y -> f x = g y) -> Forall2 R l r -> map f l = map g r.
Proof.
  intros H. induction 1 as [|x y l r Hxy _ IH]; cbn [map]; [reflexivity|].
  rewrite (H x y Hxy), IH. reflexivity.
Qed.

Lemma map_flat_map_repeat {A B C : Type} (f : B -> C) (key : A -> B) (count : A -> nat)
    (l : list A) :
  map f (flat_map (fun x => repeat (key x) (count x)) l)
  = flat_map (fun x => repeat (f (key x)) (count x)) l.
Proof.
  induction l as [|x l IH]; cbn [flat_map map]; [reflexivity|].
  rewrite map_app, map_repeat, IH. reflexivity.
Qed.

(** X1.  The days of a planned itinerary carry consecutive dates starting
    at the start date, and there are exactly [max(1, num_days)] of them. *)
Theorem run_dates_consecutive (top_attractions : string -> Z -> list Attraction)
    (prefs : TravelPreferences.t) (flights : list FlightOption.t)
    (hotels : list HotelOption.t) (travel_guides : option (list (string * TravelGuideInfo.t)))
    (itinerary : Itinerary.t) :
  run top_attractions prefs flights hotels travel_guides = Ok itinerary ->
  exists start,
    TravelPreferences.start_date prefs = Some start
    /\ map ItineraryDay.date (Itinerary.days itinerary)
       = dates_from start (List.length (Itinerary.days itinerary))
    /\ py_len (Itinerary.days itinerary) = Z.max 1 (TravelPreferences.num_days prefs).
Proof.
  intros Hrun.
  destruct (run_schedule _ _ _ _ _ _ Hrun)
    as [start [allocation [envelope [Hstart [_ [_ [Hsum [Hpos [_ [_ [Hmap _]]]]]]]]]]].
  apply mapM_Forall2 in Hmap. pose proof (Forall2_length Hmap) as Hlen.
  exists start. split; [exact Hstart|]. split.
  - rewrite <- Hlen, <- schedule_dates. symmetry.
    apply (Forall2_map_eq _ _ _ _ _ (fun s d H => eq_sym (proj1 (plan_day_fields _ _ _ _ _ _ _ _ _ _ _ H))) Hmap).
  - unfold py_len. rewrite <- Hlen. fold (py_len (schedule start (TravelPreferences.origin_city prefs) allocation)).
    rewrite (schedule_length _ _ _ Hpos). exact Hsum.
Qed.

Lemma run_dates_consecutive_witness :
  exists itinerary,
    sample_run = Ok itinerary
    /\ exists start,
         TravelPreferences.start_date (prefs_two_cities 3) = Some start
         /\ map ItineraryDay.date (Itinerary.days itinerary)
            = dates_from start (List.length (Itinerary.days itinerary))
         /\ py_len (Itinerary.days itinerary)
            = Z.max 1 (TravelPreferences.num_days (prefs_two_cities 3)).
Proof.
  eexists. split; [vm_compute; reflexivity|].
  apply (run_dates_consecutive sample_top_attractions (prefs_two_cities 3) sample_flights
           [] None).
  vm_compute. reflexivity.
Defined.

(** X2.  The days of a planned itinerary visit the cities of the route in
    route order, each city on as many days in a row as [_allocate_days]
    gave it. *)
Theorem run_cities_in_blocks (top_attractions : string -> Z -> list Attraction)
    (prefs : TravelPreferences.t) (flights : list FlightOption.t)
    (hotels : list HotelOption.t) (travel_guides : option (list (string * TravelGuideInfo.t)))
    (itinerary : Itinerary.t) :
  run top_attractions prefs flights hotels travel_guides = Ok itinerary ->
  exists allocation,
    _allocate_days (TravelPreferences.num_days prefs) (_build_city_route prefs flights)
    = Ok allocation
    /\ dict_keys allocation = _build_city_route prefs flights
    /\ map ItineraryDay.city (Itinerary.days itinerary)
       = flat_map (fun cn => repeat (_label_city (fst cn)) (Z.to_nat (snd cn))) allocation.
Proof.
  intros Hrun.
  destruct (run_schedule _ _ _ _ _ _ Hrun)
    as [start [allocation [envelope [_ [Halloc [Hkeys [_ [_ [_ [_ [Hmap _]]]]]]]]]]].
  apply mapM_Forall2 in Hmap.
  exists allocation. split; [exact Halloc|]. split; [exact Hkeys|].
  rewrite <- (map_flat_map_repeat _label_city fst (fun cn => Z.to_nat (snd cn))).
  rewrite <- (schedule_cities allocation start (TravelPreferences.origin_city prefs)).
  rewrite map_map. symmetry.
  apply (Forall2_map_eq _ _ _ _ _
           (fun s d H => eq_sym (proj1 (proj2 (plan_day_fields _ _ _ _ _ _ _ _ _ _ _ H)))) Hmap).
Qed.

Lemma run_cities_in_blocks_witness :
  exists itinerary,
    sample_run = Ok itinerary
    /\ exists allocation,
         _allocate_days (TravelPreferences.num_days (prefs_two_cities 3))
           (_build_city_route (prefs_two_cities 3) sample_flights) = Ok allocation
         /\ dict_keys allocation = _build_city_route (prefs_two_cities 3) sample_flights
         /\ map ItineraryDay.city (Itinerary.days itinerary)
            = flat_map (fun cn => repeat (_label_city (fst cn)) (Z.to_nat (snd cn)))
                allocation.
Proof.
  eexists. split; [vm_compute; reflexivity|].
  apply (run_cities_in_blocks sample_top_attractions (prefs_two_cities 3) sample_flights
           [] None).
  vm_compute. reflexivity.
Defined.

Lemma first_day_entries_transport (prev_city city : string) (flights : list FlightOption.t)
    (hotels : list HotelOption.t) (budget_per_day : Q) :
  fst (first_day_entries prev_city city flights hotels budget_per_day) <> None.
Proof.
  unfold first_day_entries. destruct (_find_leg prev_city city flights); cbn; discriminate.
Qed.

(** X3.  A planned day has a transport description exactly when it is the
    first day in its city; the days that follow in the same city have
    none. *)
Theorem run_transport_on_arrival_only (top_attractions : string -> Z -> list Attraction)
    (prefs : TravelPreferences.t) (flights : list FlightOption.t)
    (hotels : list HotelOption.t) (travel_guides : option (list (string * TravelGuideInfo.t)))
    (itinerary : Itinerary.t) :
  run top_attractions prefs flights hotels travel_guides = Ok itinerary ->
  exists start allocation,
    TravelPreferences.start_date prefs = Some start
    /\ _allocate_days (TravelPreferences.num_days prefs) (_build_city_route prefs flights)
       = Ok allocation
    /\ Forall2
         (fun s d =>
            (slot_day_idx s = 0%Z -> ItineraryDay.transport d <> None)
            /\ (slot_day_idx s <> 0%Z -> ItineraryDay.transport d = None))
         (schedule start (TravelPreferences.origin_city prefs) allocation)
         (Itinerary.days itinerary).
Proof.
  intros Hrun.
  destruct (run_schedule _ _ _ _ _ _ Hrun)
    as [start [allocation [envelope [Hstart [Halloc [_ [_ [_ [_ [_ [Hmap _]]]]]]]]]]].
  apply mapM_Forall2 in Hmap.
  exists start, allocation. split; [exact Hstart|]. split; [exact Halloc|].
  eapply Forall2_impl; [|exact Hmap].
  intros s d H. apply plan_day_fields in H. destruct H as [_ [_ Ht]]. rewrite Ht.
  destruct (Z.eqb_spec (slot_day_idx s) 0) as [E|E]; split; intros H; try contradiction.
  - apply first_day_entries_transport.
  - reflexivity.
Qed.

Lemma run_transport_on_arrival_only_witness :
  exists itinerary,
    sample_run = Ok itinerary
    /\ exists start allocation,
         TravelPreferences.start_date (prefs_two_cities 3) = Some start
         /\ _allocate_days (TravelPreferences.num_days (prefs_two_cities 3))
              (_build_city_route (prefs_two_cities 3) sample_flights) = Ok allocation
         /\ Forall2
              (fun s d =>
                 (slot_day_idx s = 0%Z -> ItineraryDay.transport d <> None)
                 /\ (slot_day_idx s <> 0%Z -> ItineraryDay.transport d = None))
              (schedule start (TravelPreferences.origin_city (prefs_two_cities 3)) allocation)
              (Itinerary.days itinerary).
Proof.
  eexists. split; [vm_compute; reflexivity|].
  apply (run_transport_on_arrival_only sample_top_attractions (prefs_two_cities 3)
           sample_flights [] None).
  vm_compute. reflexivity.
Defined.

(** * Further properties of the day-level fitting *)

Lemma set_last_cost_labels (activities : list Activity.t) (c : Q) :
  map activity_label (set_last_cost activities c) = map activity_label activities.
Proof.
  induction activities as [|a l IH]; [reflexivity|].
  destruct l as [|b l]; [reflexivity|].
  change (set_last_cost (a :: b :: l) c) with (a :: set_last_cost (b :: l) c).
  cbn [map]. rewrite IH. reflexivity.
Qed.

(** X4.  [_fit_to_budget] always returns, and it changes nothing but costs:
    the fitted day has the same activities, in the same order, with the
    same names, descriptions and links. *)
Theorem fit_to_budget_keeps_activities (activities : list Activity.t) (budget_per_day : Q) :
  exists fitted,
    _fit_to_budget activities budget_per_day = Ok fitted
    /\ map activity_label fitted = map activity_label activities.
Proof.
  destruct (fit_to_budget_cases activities budget_per_day)
    as [H | [total [scaled [_ [_ [Hscaled H]]]]]].
  - exists activities. auto.
  - assert (map activity_label scaled = map activity_label activities) as Hl.
    { rewrite Hscaled, map_map. apply map_ext. intros a. destruct (is_paid a); reflexivity. }
    destruct H as [H | H]; eexists; (split; [exact H|]); [|rewrite set_last_cost_labels];
      exact Hl.
Qed.

Lemma paid_total_cons (a : Activity.t) (l : list Activity.t) :
  (paid_total (a :: l)
   == (if is_paid a then Activity.est_cost a else 0) + paid_total l)%Q.
Proof.
  unfold paid_total. cbn [filter]. destruct (is_paid a); cbn [map].
  - apply py_sum_cons.
  - lra.
Qed.

Lemma paid_total_scaled (scale : Q) (activities : list Activity.t) :
  (0 <= scale)%Q ->
  (paid_total
     (map (fun act =>
             if is_paid act
             then Activity.set_est_cost act (py_round2 (Activity.est_cost act * scale))
             else act)
          activities)
   <= py_sum (map (fun c => py_round2 (c * scale))
                (map Activity.est_cost (filter is_paid activities))))%Q.
Proof.
  intros Hs. induction activities as [|a l IH].
  - unfold paid_total, py_sum. cbn. lra.
  - cbn [map filter]. rewrite paid_total_cons.
    destruct (is_paid a) eqn:Ep.
    + cbn [map]. rewrite py_sum_cons.
      assert (0 <= py_round2 (Activity.est_cost a * scale))%Q as Hr.
      { apply py_round2_nonneg. apply Qltb_lt in Ep. apply Qmult_le_0_compat; lra. }
      unfold is_paid at 1. cbn [Activity.est_cost Activity.set_est_cost].
      destruct (Qltb 0 (py_round2 (Activity.est_cost a * scale))); lra.
    + rewrite Ep. lra.
Qed.

Lemma paid_total_set_last (activities : list Activity.t) :
  (paid_total (set_last_cost activities 0) <= paid_total activities)%Q.
Proof.
  induction activities as [|a l IH]; [apply Qle_refl|].
  destruct l as [|b l].
  - cbn [set_last_cost]. rewrite !paid_total_cons. unfold is_paid at 1.
    cbn [Activity.est_cost Activity.set_est_cost]. cbn [Qltb Qcompare].
    destruct (is_paid a) eqn:Ep; [apply Qltb_lt in Ep|]; cbn; lra.
  - change (set_last_cost (a :: b :: l) 0) with (a :: set_last_cost (b :: l) 0).
    rewrite (paid_total_cons a (set_last_cost (b :: l) 0)), (paid_total_cons a (b :: l)). lra.
Qed.

(** The two ways [_fit_to_budget] ends: the day already fits and is
    returned as it is, or every positive cost is scaled by
    [budget_per_day / total] and rounded, and the last cost is zeroed when
    the envelope is below 5. *)
Lemma fit_to_budget_split (activities : list Activity.t) (budget_per_day : Q) :
  ((paid_total activities <= py_max budget_per_day 0)%Q
   /\ _fit_to_budget activities budget_per_day = Ok activities)
  \/ ((py_max budget_per_day 0 < paid_total activities)%Q
      /\ exists scaled,
           scaled
           = map (fun act =>
                    if is_paid act
                    then Activity.set_est_cost act
                           (py_round2 (Activity.est_cost act
                                       * (budget_per_day / paid_total activities)))
                    else act)
                 activities
           /\ (((5 <= budget_per_day)%Q
                /\ _fit_to_budget activities budget_per_day = Ok scaled)
               \/ ((budget_per_day < 5)%Q
                   /\ _fit_to_budget activities budget_per_day
                      = Ok (set_last_cost scaled 0)))).
Proof.
  unfold _fit_to_budget. fold (paid_total activities).
  destruct (Qleb (paid_total activities) (py_max budget_per_day 0)) eqn:E1.
  - left. split; [apply Qleb_le, E1 | reflexivity].
  - right. apply Qleb_gt in E1. split; [exact E1|].
    assert (0 < paid_total activities)%Q as Hpos.
    { destruct (py_max_cases budget_per_day 0) as [[L E]|[L E]]; rewrite E in E1; lra. }
    destruct (Qeq_bool (paid_total activities) 0) eqn:E2;
      [apply Qeq_bool_iff in E2; lra|].
    unfold py_truediv. rewrite E2. cbn [bind].
    eexists. split; [reflexivity|].
    destruct activities as [|a l].
    + exfalso. unfold paid_total, py_sum in Hpos. cbn in Hpos. lra.
    + cbn [map]. destruct (Qltb budget_per_day 5) eqn:E5.
      * right. split; [apply Qltb_lt, E5 | reflexivity].
      * left. split; [apply Qltb_ge, E5 | reflexivity].
Qed.

(** X5.  With an envelope of at least zero, the positive costs of the
    fitted day sum to at most the envelope plus half a cent of rounding
    for each activity that had a positive cost. *)
Theorem fit_to_budget_within_envelope (activities : list Activity.t) (budget_per_day : Q) :
  (0 <= budget_per_day)%Q ->
  exists fitted,
    _fit_to_budget activities budget_per_day = Ok fitted
    /\ (paid_total fitted
        <= budget_per_day
           + inject_Z (py_len (filter is_paid activities)) * (1 # 200))%Q.
Proof.
  intros Henv.
  assert (0 <= inject_Z (py_len (filter is_paid activities)) * (1 # 200))%Q as Hslack.
  { apply Qmult_le_0_compat; [|lra]. unfold py_len, Qle, inject_Z. simpl. lia. }
  destruct (fit_to_budget_split activities budget_per_day)
    as [[Hfit H] | [Hover [scaled [Hscaled H]]]].
  - exists activities. split; [exact H|].
    destruct (py_max_cases budget_per_day 0) as [[_ E]|[_ E]]; rewrite E in Hfit; lra.
  - assert (0 < paid_total activities)%Q as Hpos.
    { destruct (py_max_cases budget_per_day 0) as [[_ E]|[_ E]]; rewrite E in Hover; lra. }
    assert (0 <= budget_per_day / paid_total activities)%Q as Hs
      by (apply Qle_shift_div_l; lra).
    assert (paid_total scaled
            <= budget_per_day
               + inject_Z (py_len (filter is_paid activities)) * (1 # 200))%Q as Hb.
    { rewrite Hscaled.
      eapply Qle_trans; [apply (paid_total_scaled _ _ Hs)|].
      eapply Qle_trans; [apply scaled_sum_bound|].
      unfold py_len. rewrite length_map.
      fold (paid_total activities).
      assert (budget_per_day / paid_total activities * paid_total activities
              == budget_per_day)%Q as -> by (field; lra).
      lra. }
    destruct H as [[_ H] | [_ H]]; eexists; (split; [exact H|]); [exact Hb|].
    eapply Qle_trans; [apply paid_total_set_last | exact Hb].
Qed.

Lemma fit_to_budget_within_envelope_witness :
  exists fitted,
    _fit_to_budget
      [sample_activity "Morning: Louvre" 64; sample_activity "Hotel check-in" 0;
       sample_activity "Evening: Orsay" 56]
      50
    = Ok fitted
    /\ (paid_total fitted
        <= 50
           + inject_Z
               (py_len (filter is_paid
                          [sample_activity "Morning: Louvre" 64;
                           sample_activity "Hotel check-in" 0;
                           sample_activity "Evening: Orsay" 56]))
             * (1 # 200))%Q.
Proof.
  apply fit_to_budget_within_envelope. vm_compute. discriminate.
Defined.




(** * Further properties of the day assembly *)

Lemma local_transport_cost_capped (budget_per_day : Q) (guide : option TravelGuideInfo.t) :
  (0 < _local_transport_cost budget_per_day guide)%Q ->
  (_local_transport_cost budget_per_day guide <= budget_per_day)%Q.
Proof.
  unfold _local_transport_cost.
  destruct (match guide with Some g => TravelGuideInfo.transit_fare g | None => None end)
    as [fare|]; [|lra].
  destruct (Qleb budget_per_day 0); [lra|]. intros _.
  destruct (py_min_cases (py_round2 fare) budget_per_day) as [[L ->]|[L ->]]; lra.
Qed.

(** X7.  The local-transport line of a day, when [_activities_for_city]
    emits one, costs more than nothing and at most the day's envelope; in
    particular there is none when the envelope is zero or negative. *)
Theorem getting_around_within_envelope (top_attractions : string -> Z -> list Attraction)
    (city : string) (budget_per_day : Q) (day_offset days_in_city : Z)
    (travel_guide : option TravelGuideInfo.t) (activities : list Activity.t)
    (a : Activity.t) :
  _activities_for_city top_attractions city budget_per_day day_offset days_in_city
    travel_guide = Ok activities ->
  In a activities ->
  Activity.name a = "Getting around" ->
  (0 < Activity.est_cost a <= budget_per_day)%Q.
Proof.
  intros Hrun Hin Hname.
  destruct (attraction_pool top_attractions city days_in_city travel_guide) as [|p pool] eqn:E.
  - rewrite (activities_for_city_empty_pool _ _ _ _ _ _ E) in Hrun.
    injection Hrun as <-. destruct Hin.
  - destruct (activities_for_city_window top_attractions city budget_per_day day_offset
                days_in_city travel_guide (p :: pool) E)
      as [item0 [item1 [item2 [_ [_ [_ R]]]]]]; [discriminate|].
    rewrite R in Hrun. injection Hrun as <-.
    apply in_app_or in Hin. destruct Hin as [Hin | Hin].
    + unfold getting_around in Hin.
      destruct (Qltb 0 (_local_transport_cost budget_per_day travel_guide)) eqn:Ep;
        [|destruct Hin].
      destruct Hin as [<- | []]. cbn [Activity.est_cost]. apply Qltb_lt in Ep.
      split; [exact Ep | apply local_transport_cost_capped, Ep].
    + exfalso. cbn [In] in Hin.
      destruct Hin as [<- | [<- | [<- | []]]]; cbn in Hname; discriminate.
Qed.

Lemma getting_around_within_envelope_witness :
  (0 < Activity.est_cost
         (Activity.mk "Getting around" "Metro/tram/bus (typical single ride)" 2 None)
   <= 2)%Q.
Proof.
  apply (getting_around_within_envelope sample_top_attractions "Paris" 2 0 2
           (Some sample_guide)
           [ Activity.mk "Getting around" "Metro/tram/bus (typical single ride)" 2 None;
             slot_item "Morning" (32 # 100) 2
               [("name", "Louvre"); ("link", "https://louvre.fr"); ("description", "Museum")];
             slot_item "Afternoon" (28 # 100) 2 [("name", "Eiffel Tower"); ("link", "")];
             slot_item "Evening" (22 # 100) 2 [("name", "Montmartre")] ]).
  - vm_compute. reflexivity.
  - left. reflexivity.
  - reflexivity.
Defined.

(** ** [min(..., key=price)] *)

Section MinByPrice.
Context {A : Type} (key : A -> Q).

Let ltb (a b : A) : bool := Qltb (key a) (key b).

Lemma min_from_price (l : list A) :
  forall best,
    In (min_from ltb best l) (best :: l)
    /\ forall x, In x (best :: l) -> (key (min_from ltb best l) <= key x)%Q.
Proof.
  induction l as [|y l IH]; intros best; cbn [min_from].
  - split; [left; reflexivity|]. intros x [<- | []]. apply Qle_refl.
  - destruct (IH (if ltb y best then y else best)) as [Hin Hmin].
    assert (key (if ltb y best then y else best) <= key best
            /\ key (if ltb y best then y else best) <= key y)%Q as [Hb Hy].
    { unfold ltb. destruct (Qltb (key y) (key best)) eqn:E.
      - apply Qltb_lt in E. split; lra.
      - apply Qltb_ge in E. split; lra. }
    split.
    + destruct Hin as [Hin | Hin]; [|right; right; exact Hin].
      rewrite <- Hin. destruct (ltb y best); [right; left | left]; reflexivity.
    + intros x [<- | [<- | Hx]].
      * eapply Qle_trans; [apply Hmin; left; reflexivity | exact Hb].
      * eapply Qle_trans; [apply Hmin; left; reflexivity | exact Hy].
      * apply Hmin. right. exact Hx.
Qed.

Lemma py_min_by_price (l : list A) :
  match py_min_by ltb l with
  | Some m => In m l /\ forall x, In x l -> (key m <= key x)%Q
  | None => l = []
  end.
Proof.
  destruct l as [|x l]; [reflexivity|]. cbn [py_min_by]. apply min_from_price.
Qed.

End MinByPrice.

(** X8.  When the city has a discovered hotel, the hotel named in the
    check-in entry is a discovered hotel of that city at the lowest
    nightly price of the city, which is the price the envelope estimate
    reserves for it. *)
Theorem check_in_names_cheapest_hotel (city : string) (hotels : list HotelOption.t)
    (h0 : HotelOption.t) :
  In h0 hotels ->
  hotel_in_city city h0 ->
  exists h,
    In h hotels
    /\ hotel_in_city city h
    /\ _choose_hotel_name city hotels = HotelOption.name h
    /\ (HotelOption.price h == _cheapest_hotel_price city hotels)%Q
    /\ forall h', In h' hotels -> hotel_in_city city h' ->
                  (HotelOption.price h <= HotelOption.price h')%Q.
Proof.
  intros Hin0 Hcity0. unfold _choose_hotel_name, _cheapest_hotel_price.
  set (matches := filter (fun h => _label_city (HotelOption.location h) =? _label_city city)
                    hotels).
  assert (Hm : forall h, In h matches <-> In h hotels /\ hotel_in_city city h).
  { intros h. unfold matches, hotel_in_city. rewrite filter_In, String.eqb_eq. reflexivity. }
  pose proof (py_min_by_price HotelOption.price matches) as Hname.
  pose proof (py_min_by_price (fun p : Q => p) (map HotelOption.price matches)) as Hprice.
  cbv zeta in Hname, Hprice.
  destruct (py_min_by (fun a b => Qltb (HotelOption.price a) (HotelOption.price b)) matches)
    as [h|]; [|exfalso; assert (In h0 matches) as H by (apply Hm; auto);
                rewrite Hname in H; destruct H].
  destruct Hname as [Hh Hmin].
  destruct (py_min_by Qltb (map HotelOption.price matches)) as [p|];
    [|apply map_eq_nil in Hprice; rewrite Hprice in Hh; destruct Hh].
  destruct Hprice as [Hp Hpmin]. apply in_map_iff in Hp. destruct Hp as [hp [<- Hhp]].
  exists h. split; [apply Hm, Hh|]. split; [apply Hm, Hh|]. split; [reflexivity|]. split.
  - apply Qle_antisym; [apply Hmin, Hhp | apply Hpmin, in_map, Hh].
  - intros h' Hin' Hc'. apply Hmin, Hm. auto.
Qed.

Lemma check_in_names_cheapest_hotel_witness :
  exists h,
    In h sample_hotels
    /\ hotel_in_city "CDG" h
    /\ _choose_hotel_name "CDG" sample_hotels = HotelOption.name h
    /\ (HotelOption.price h == _cheapest_hotel_price "CDG" sample_hotels)%Q
    /\ forall h', In h' sample_hotels -> hotel_in_city "CDG" h' ->
                  (HotelOption.price h <= HotelOption.price h')%Q.
Proof.
  apply (check_in_names_cheapest_hotel "CDG" sample_hotels hotel_paris_150).
  - left. reflexivity.
  - reflexivity.
Defined.

(** * Further properties of the envelope *)

Lemma min_price_nonneg (prices : list Q) :
  Forall (fun p => 0 <= p)%Q prices ->
  (0 <= match py_min_by Qltb prices with Some p => p | None => 0 end)%Q.
Proof.
  intros H. pose proof (py_min_by_price (fun p : Q => p) prices) as Hm. cbv zeta in Hm.
  destruct (py_min_by Qltb prices) as [p|]; [|lra].
  destruct Hm as [Hin _]. rewrite Forall_forall in H. apply (H p Hin).
Qed.

Lemma cheapest_hotel_price_nonneg (city : string) (hotels : list HotelOption.t) :
  hotel_prices_nonneg hotels -> (0 <= _cheapest_hotel_price city hotels)%Q.
Proof.
  intros H. unfold _cheapest_hotel_price. apply min_price_nonneg.
  apply Forall_map. apply Forall_forall. intros h Hh. apply filter_In in Hh.
  unfold hotel_prices_nonneg in H. rewrite Forall_forall in H. apply H, Hh.
Qed.

Lemma hotel_floor_nonneg (hotels : list HotelOption.t) (days_per_city : list (string * Z)) :
  hotel_prices_nonneg hotels ->
  forall acc, (0 <= acc)%Q ->
  (0 <= fold_left
          (fun hotel_floor cn =>
             hotel_floor
             + _cheapest_hotel_price (fst cn) hotels * inject_Z (Z.max 1 (snd cn)))
          days_per_city acc)%Q.
Proof.
  intros H. induction days_per_city as [|cn rest IH]; intros acc Hacc; cbn [fold_left].
  - exact Hacc.
  - apply IH.
    assert (0 <= inject_Z (Z.max 1 (snd cn)))%Q by (unfold Qle, inject_Z; simpl; lia).
    pose proof (cheapest_hotel_price_nonneg (fst cn) hotels H).
    assert (0 <= _cheapest_hotel_price (fst cn) hotels * inject_Z (Z.max 1 (snd cn)))%Q
      by (apply Qmult_le_0_compat; assumption).
    lra.
Qed.

Lemma estimate_activity_budget_bound (prefs : TravelPreferences.t)
    (flights : list FlightOption.t) (hotels : list HotelOption.t)
    (days_per_city : list (string * Z)) :
  flight_prices_nonneg flights ->
  hotel_prices_nonneg hotels ->
  Forall (fun v => 0 <= v)%Z (dict_values days_per_city) ->
  exists envelope,
    _estimate_activity_budget prefs flights hotels days_per_city = Ok envelope
    /\ (0 <= envelope)%Q
    /\ (envelope * inject_Z (Z.max 1 (py_sumZ (dict_values days_per_city)))
        <= Qmax 0 (TravelPreferences.total_budget prefs))%Q.
Proof.
  intros Hf Hh Hvals. unfold _estimate_activity_budget.
  pose proof (min_price_nonneg (map FlightOption.price flights)
                (proj2 (Forall_map _ _ _) Hf)) as Hcf.
  pose proof (hotel_floor_nonneg hotels days_per_city Hh 0 (Qle_refl 0)) as Hhf.
  set (cf := match py_min_by Qltb (map FlightOption.price flights) with
             | Some p => p | None => 0%Q end) in *.
  set (hf := fold_left _ days_per_city 0%Q) in *.
  pose proof (Q.le_max_l 0 (TravelPreferences.total_budget prefs)) as Hm0.
  pose proof (Q.le_max_r 0 (TravelPreferences.total_budget prefs)) as HmB.
  destruct (Qleb (TravelPreferences.total_budget prefs - cf - hf) 0) eqn:E.
  - exists 0%Q. split; [reflexivity|]. split; [lra|]. lra.
  - apply Qleb_gt in E. pose proof (py_sumZ_nonneg _ Hvals) as Hs.
    set (s := py_sumZ (dict_values days_per_city)) in *.
    replace (if (s =? 0)%Z then 1%Z else s) with (Z.max 1 s)
      by (destruct (Z.eqb_spec s 0); lia).
    assert (0 < inject_Z (Z.max 1 s))%Q as Hpos by (apply inject_Z_pos; lia).
    rewrite py_truediv_ok by lra.
    eexists. split; [reflexivity|]. split; [apply Qle_shift_div_l; lra|].
    assert ((TravelPreferences.total_budget prefs - cf - hf) / inject_Z (Z.max 1 s)
            * inject_Z (Z.max 1 s)
            == TravelPreferences.total_budget prefs - cf - hf)%Q as -> by (field; lra).
    lra.
Qed.

(** X9.  When no price and no day count is negative, the envelope is at
    least zero and, over all the days of the trip, at most the total
    budget: [envelope * max(1, days) <= max(0, total_budget)]. *)
Theorem estimate_within_budget (prefs : TravelPreferences.t)
    (flights : list FlightOption.t) (hotels : list HotelOption.t)
    (days_per_city : list (string * Z)) :
  flight_prices_nonneg flights ->
  hotel_prices_nonneg hotels ->
  Forall (fun v => 0 <= v)%Z (dict_values days_per_city) ->
  exists envelope,
    _estimate_activity_budget prefs flights hotels days_per_city = Ok envelope
    /\ (0 <= envelope)%Q
    /\ (envelope * inject_Z (Z.max 1 (py_sumZ (dict_values days_per_city)))
        <= Qmax 0 (TravelPreferences.total_budget prefs))%Q.
Proof. apply estimate_activity_budget_bound. Qed.

Lemma estimate_within_budget_witness :
  exists envelope,
    _estimate_activity_budget (prefs_two_cities 4) sample_flights sample_hotels
      [("Paris", 2%Z); ("Rome", 2%Z)] = Ok envelope
    /\ (0 <= envelope)%Q
    /\ (envelope * inject_Z (Z.max 1 (py_sumZ (dict_values [("Paris", 2%Z); ("Rome", 2%Z)])))
        <= Qmax 0 (TravelPreferences.total_budget (prefs_two_cities 4)))%Q.
Proof.
  apply estimate_within_budget.
  - repeat constructor; vm_compute; discriminate.
  - repeat constructor; vm_compute; discriminate.
  - repeat constructor; vm_compute; discriminate.
Defined.

(** * The planner keeps the activities inside the budget *)

Lemma sum_le_paid_total (activities : list Activity.t) :
  (py_sum (map Activity.est_cost activities) <= paid_total activities)%Q.
Proof.
  induction activities as [|a l IH].
  - unfold paid_total. cbn. apply Qle_refl.
  - cbn [map]. rewrite py_sum_cons, paid_total_cons.
    destruct (is_paid a) eqn:E; [lra|].
    unfold is_paid in E. apply Qltb_ge in E. lra.
Qed.

Lemma filter_length_le {A : Type} (f : A -> bool) (l : list A) :
  (py_len (filter f l) <= py_len l)%Z.
Proof.
  unfold py_len. pose proof (filter_length_le f l). lia.
Qed.

Lemma fit_to_budget_bound (activities fitted : list Activity.t) (budget_per_day : Q) :
  (0 <= budget_per_day)%Q ->
  _fit_to_budget activities budget_per_day = Ok fitted ->
  List.length fitted = List.length activities
  /\ (paid_total fitted
      <= budget_per_day + inject_Z (py_len (filter is_paid activities)) * (1 # 200))%Q.
Proof.
  intros Henv Hfit.
  assert (0 <= inject_Z (py_len (filter is_paid activities)) * (1 # 200))%Q as Hslack.
  { apply Qmult_le_0_compat; [|lra]. unfold py_len, Qle, inject_Z. simpl. lia. }
  destruct (fit_to_budget_split activities budget_per_day)
    as [[Hin H] | [Hover [scaled [Hscaled H]]]].
  - rewrite H in Hfit. injection Hfit as <-. split; [reflexivity|].
    destruct (py_max_cases budget_per_day 0) as [[_ E]|[_ E]]; rewrite E in Hin; lra.
  - assert (0 < paid_total activities)%Q as Hpos.
    { destruct (py_max_cases budget_per_day 0) as [[L E]|[L E]]; rewrite E in Hover; lra. }
    assert (0 <= budget_per_day / paid_total activities)%Q as Hs
      by (apply Qle_shift_div_l; lra).
    assert (List.length scaled = List.length activities) as Hlen
      by (rewrite Hscaled; apply length_map).
    assert (paid_total scaled
            <= budget_per_day
               + inject_Z (py_len (filter is_paid activities)) * (1 # 200))%Q as Hb.
    { rewrite Hscaled.
      eapply Qle_trans; [apply (paid_total_scaled _ _ Hs)|].
      eapply Qle_trans; [apply scaled_sum_bound|].
      unfold py_len. rewrite length_map.
      fold (paid_total activities).
      assert (budget_per_day / paid_total activities * paid_total activities
              == budget_per_day)%Q as -> by (field; lra).
      lra. }
    destruct H as [[_ H] | [_ H]]; rewrite H in Hfit; injection Hfit as <-.
    + split; [exact Hlen | exact Hb].
    + split.
      * rewrite <- Hlen, <- !(length_map activity_label), set_last_cost_labels. reflexivity.
      * eapply Qle_trans; [apply paid_total_set_last | exact Hb].
Qed.

Lemma plan_day_cost_bound (top_attractions : string -> Z -> list Attraction)
    (flights : list FlightOption.t) (hotels : list HotelOption.t)
    (travel_guides : list (string * TravelGuideInfo.t)) (budget_per_day : Q)
    (prev_city city : string) (days_in_city current_date day_idx : Z) (d : ItineraryDay.t) :
  (0 <= budget_per_day)%Q ->
  plan_day top_attractions flights hotels travel_guides budget_per_day prev_city city
    days_in_city current_date day_idx = Ok d ->
  (py_sum (map Activity.est_cost (ItineraryDay.activities d))
   <= budget_per_day + inject_Z (py_len (ItineraryDay.activities d)) * (1 # 200))%Q.
Proof.
  intros Henv H. unfold plan_day in H.
  apply bind_Ok in H. destruct H as [draft [_ H]].
  apply bind_Ok in H. destruct H as [fitted [Hfit H]]. injection H as <-.
  cbn [ItineraryDay.activities].
  destruct (fit_to_budget_bound _ _ _ Henv Hfit) as [Hlen Hb].
  eapply Qle_trans; [apply sum_le_paid_total|].
  eapply Qle_trans; [exact Hb|].
  assert (inject_Z (py_len (filter is_paid (snd draft))) <= inject_Z (py_len fitted))%Q.
  { rewrite <- Zle_Qle. unfold py_len at 2. rewrite Hlen. apply filter_length_le. }
  lra.
Qed.

Lemma days_cost_bound (envelope : Q) (days : list ItineraryDay.t) :
  Forall (fun d =>
            py_sum (map Activity.est_cost (ItineraryDay.activities d))
            <= envelope + inject_Z (py_len (ItineraryDay.activities d)) * (1 # 200))%Q
    days ->
  (py_sum (flat_map (fun day => map Activity.est_cost (ItineraryDay.activities day)) days)
   <= envelope * inject_Z (py_len days)
      + inject_Z
          (py_len (flat_map (fun day => map Activity.est_cost (ItineraryDay.activities day))
                     days))
        * (1 # 200))%Q.
Proof.
  induction 1 as [|d days Hd _ IH].
  - unfold py_sum, py_len. cbn [flat_map fold_left List.length Z.of_nat].
    change (inject_Z 0) with 0%Q. lra.
  - cbn [flat_map]. rewrite py_sum_app.
    assert (inject_Z (py_len (d :: days)) == 1 + inject_Z (py_len days))%Q as ->.
    { unfold py_len. cbn [List.length]. rewrite Nat2Z.inj_succ, <- Z.add_1_l, inject_Z_plus.
      reflexivity. }
    assert (inject_Z
              (py_len (map Activity.est_cost (ItineraryDay.activities d)
                       ++ flat_map (fun day => map Activity.est_cost
                                                 (ItineraryDay.activities day)) days))
            == inject_Z (py_len (ItineraryDay.activities d))
               + inject_Z
                   (py_len (flat_map (fun day => map Activity.est_cost
                                                   (ItineraryDay.activities day)) days)))%Q
      as ->.
    { unfold py_len. rewrite length_app, length_map, Nat2Z.inj_add, inject_Z_plus.
      reflexivity. }
    lra.
Qed.

(** X10.  With no negative flight or hotel price, the activities of a
    planned itinerary cost in all at most the total budget, up to half a
    cent of rounding per activity: the planner keeps the activities inside
    the budget envelope. *)
Theorem run_activities_within_budget (top_attractions : string -> Z -> list Attraction)
    (prefs : TravelPreferences.t) (flights : list FlightOption.t)
    (hotels : list HotelOption.t) (travel_guides : option (list (string * TravelGuideInfo.t)))
    (itinerary : Itinerary.t) :
  flight_prices_nonneg flights ->
  hotel_prices_nonneg hotels ->
  run top_attractions prefs flights hotels travel_guides = Ok itinerary ->
  (activities_cost_of itinerary
   <= Qmax 0 (TravelPreferences.total_budget prefs)
      + inject_Z (py_len (activity_costs itinerary)) * (1 # 200))%Q.
Proof.
  intros Hf Hh Hrun.
  destruct (run_schedule _ _ _ _ _ _ Hrun)
    as [start [allocation [envelope [_ [_ [_ [Hsum [Hpos [Hest [Henv [Hmap _]]]]]]]]]]].
  destruct (estimate_activity_budget_bound prefs flights hotels allocation Hf Hh Hpos)
    as [envelope' [Hest' [_ Hbound]]].
  rewrite Hest in Hest'. injection Hest' as <-.
  apply mapM_Forall2 in Hmap.
  assert (Hdays : Forall (fun d =>
                     py_sum (map Activity.est_cost (ItineraryDay.activities d))
                     <= envelope
                        + inject_Z (py_len (ItineraryDay.activities d)) * (1 # 200))%Q
                    (Itinerary.days itinerary)).
  { clear - Hmap Henv. induction Hmap as [|s d l r Hsd _ IH]; constructor; [|exact IH].
    apply (plan_day_cost_bound _ _ _ _ _ _ _ _ _ _ _ Henv Hsd). }
  pose proof (days_cost_bound envelope _ Hdays) as Hcost.
  assert (py_len (Itinerary.days itinerary) = Z.max 1 (py_sumZ (dict_values allocation)))
    as Hlen.
  { pose proof (Forall2_length Hmap) as Hl. unfold py_len. rewrite <- Hl.
    fold (py_len (schedule start (TravelPreferences.origin_city prefs) allocation)).
    rewrite (schedule_length _ _ _ Hpos), Hsum. lia. }
  rewrite Hlen in Hcost. unfold activities_cost_of, activity_costs. lra.
Qed.

Lemma run_activities_within_budget_witness :
  exists itinerary,
    run sample_top_attractions (prefs_two_cities 3) sample_flights sample_hotels None
    = Ok itinerary
    /\ (activities_cost_of itinerary
        <= Qmax 0 (TravelPreferences.total_budget (prefs_two_cities 3))
           + inject_Z (py_len (activity_costs itinerary)) * (1 # 200))%Q.
Proof.
  eexists. split; [vm_compute; reflexivity|].
  apply (run_activities_within_budget sample_top_attractions (prefs_two_cities 3)
           sample_flights sample_hotels None).
  - repeat constructor; vm_compute; discriminate.
  - repeat constructor; vm_compute; discriminate.
  - vm_compute. reflexivity.
Defined.

(** * Further properties of the optimizer *)

Lemma flight_key_le_price (strptime : string -> string -> option datetime)
    (f g : FlightOption.t) :
  flight_key_le strptime f g -> (FlightOption.price f <= FlightOption.price g)%Q.
Proof.
  unfold flight_key_le, flight_key_cmp, lex_cmp, _flight_sort_key. cbn [fst snd].
  intros H. apply Qle_alt. intros E. rewrite E in H. apply H. reflexivity.
Qed.

Lemma find_none_all {A : Type} (f : A -> bool) (l : list A) :
  (forall x, In x l -> f x = false) -> find f l = None.
Proof.
  induction l as [|x l IH]; intros H; cbn [find]; [reflexivity|].
  rewrite (H x) by (left; reflexivity). apply IH. intros y Hy. apply H. right. exact Hy.
Qed.

Lemma single_destination_first (strptime : string -> string -> option datetime)
    (prefs : TravelPreferences.t) (flights : list FlightOption.t) (itinerary : Itinerary.t) :
  (py_len (TravelPreferences.destinations prefs) <= 1)%Z ->
  choose_flights strptime prefs flights itinerary
  = firstn 1 (py_sorted (flight_ltb strptime) flights).
Proof.
  intros Hlen. unfold choose_flights.
  assert ((1 <? py_len (TravelPreferences.destinations prefs))%Z = false) as ->
    by (apply Z.ltb_ge, Hlen).
  pose proof (py_sorted_sorted flight_key_cmp (_flight_sort_key strptime) flights) as Hs.
  fold (flight_ltb strptime) in Hs.
  destruct (py_sorted (flight_ltb strptime) flights) as [|f r]; [reflexivity|].
  cbn [find]. destruct (Qleb (FlightOption.price f) _) eqn:E; [reflexivity|].
  rewrite find_none_all; [reflexivity|].
  intros g Hg. apply Qleb_gt in E. apply Qleb_gt.
  inversion Hs as [|? ? _ Hall]; subst. rewrite Forall_forall in Hall.
  pose proof (flight_key_le_price strptime f g (Hall g Hg)). lra.
Qed.

(** X11.  For a trip with at most one declared destination the flights
    are sorted by price, then departure time, then the text of the
    departure time, and the selection is the first flight of the sorted
    list: a discovered flight that no discovered flight precedes in this
    order, whatever the budget, so that the 45% threshold never changes
    the choice.  Nothing is selected only when no flight was
    discovered. *)
Theorem single_destination_takes_cheapest (strptime : string -> string -> option datetime)
    (prefs : TravelPreferences.t) (flights : list FlightOption.t) (itinerary : Itinerary.t) :
  (py_len (TravelPreferences.destinations prefs) <= 1)%Z ->
  Permutation (py_sorted (flight_ltb strptime) flights) flights
  /\ StronglySorted (flight_order strptime) (py_sorted (flight_ltb strptime) flights)
  /\ choose_flights strptime prefs flights itinerary
     = firstn 1 (py_sorted (flight_ltb strptime) flights)
  /\ cheapest_flight_only strptime flights (choose_flights strptime prefs flights itinerary).
Proof.
  intros Hlen. rewrite (single_destination_first strptime prefs flights itinerary Hlen).
  pose proof (py_sorted_sorted flight_key_cmp (_flight_sort_key strptime) flights) as Hs.
  pose proof (py_sorted_perm (flight_ltb strptime) flights) as Hp.
  fold (flight_ltb strptime) in Hs.
  apply (StronglySorted_weaken _ (flight_order strptime)) in Hs;
    [|intros a b; apply flight_key_le_order].
  split; [exact Hp|]. split; [exact Hs|]. split; [reflexivity|].
  destruct (py_sorted (flight_ltb strptime) flights) as [|f r]; cbn [firstn cheapest_flight_only].
  - apply Permutation_nil in Hp. exact Hp.
  - split; [apply (Permutation_in _ Hp); left; reflexivity|].
    intros g Hg. apply (Permutation_in _ (Permutation_sym Hp)) in Hg.
    destruct Hg as [<- | Hg]; [apply flight_key_le_order, flight_key_le_refl|].
    inversion Hs as [|? ? _ Hall]; subst. rewrite Forall_forall in Hall. apply Hall, Hg.
Qed.

Lemma single_destination_takes_cheapest_witness :
  Permutation (py_sorted (flight_ltb sample_strptime) flights_without_middle_leg)
    flights_without_middle_leg
  /\ StronglySorted (flight_order sample_strptime)
       (py_sorted (flight_ltb sample_strptime) flights_without_middle_leg)
  /\ choose_flights sample_strptime (prefs_paris_only 100) flights_without_middle_leg
       itinerary_paris_one_day
     = firstn 1 (py_sorted (flight_ltb sample_strptime) flights_without_middle_leg)
  /\ cheapest_flight_only sample_strptime flights_without_middle_leg
       (choose_flights sample_strptime (prefs_paris_only 100) flights_without_middle_leg
          itinerary_paris_one_day).
Proof.
  apply single_destination_takes_cheapest. vm_compute. discriminate.
Defined.

Lemma fold_left_ext_eq {A S : Type} (f g : S -> A -> S) (l : list A) (s : S) :
  (forall s x, f s x = g s x) -> fold_left f l s = fold_left g l s.
Proof.
  intros H. revert s. induction l as [|x l IH]; intros s; cbn [fold_left]; [reflexivity|].
  rewrite H. apply IH.
Qed.

Lemma pick_hotel_choice (hotels : list HotelOption.t) (nights_per_city : list (string * Z))
    (hotel_budget_per_city : list (string * Q)) (hotel_budget : Q) (city_label : string) :
  hotel_choice hotels nights_per_city hotel_budget_per_city hotel_budget city_label
    (pick_hotel hotels nights_per_city hotel_budget_per_city hotel_budget city_label).
Proof.
  unfold pick_hotel, hotel_choice. cbv zeta.
  match goal with
  | |- context [py_min_by _ (filter ?f hotels)] => set (fit := f)
  end.
  set (loc := fun h => _label_city (HotelOption.location h) =? city_label).
  assert (Hloc : forall h, In h (filter loc hotels)
                 <-> In h hotels /\ _label_city (HotelOption.location h) = city_label).
  { intros h. unfold loc. rewrite filter_In, String.eqb_eq. reflexivity. }
  assert (Hfit : forall h, In h (filter fit hotels)
                 <-> (In h hotels /\ _label_city (HotelOption.location h) = city_label)
                     /\ hotel_fits nights_per_city hotel_budget_per_city hotel_budget
                          city_label h).
  { intros h. unfold fit, hotel_fits.
    rewrite filter_In, andb_true_iff, String.eqb_eq, Qleb_le. tauto. }
  pose proof (py_min_by_price HotelOption.price (filter fit hotels)) as H1.
  pose proof (py_min_by_price HotelOption.price (filter loc hotels)) as H2.
  cbv zeta in H1, H2. fold hotel_price_ltb in H1, H2.
  destruct (py_min_by hotel_price_ltb (filter fit hotels)) as [h|].
  - destruct H1 as [Hin Hmin]. apply Hfit in Hin. destruct Hin as [Hl Hf].
    split; [exact Hl|]. left. split; [exact Hf|].
    intros h' Hl' Hf'. apply Hmin, Hfit. auto.
  - destruct (py_min_by hotel_price_ltb (filter loc hotels)) as [h|].
    + destruct H2 as [Hin Hmin]. split; [apply Hloc, Hin|]. right. split.
      * intros h' Hl' Hf'. assert (In h' (filter fit hotels)) as Hc by (apply Hfit; auto).
        rewrite H1 in Hc. destruct Hc.
      * intros h' Hl'. apply Hmin, Hloc, Hl'.
    + intros h Hl. apply Hloc in Hl. rewrite H2 in Hl. destruct Hl.
Qed.

Lemma choose_hotels_lookup (hotels : list HotelOption.t)
    (nights_per_city : list (string * Z)) (hotel_budget_per_city : list (string * Q))
    (hotel_budget : Q) (city_label : string) (dests : list string) :
  forall chosen,
    dict_get String.eqb
      (fold_left
         (fun chosen city =>
            match pick_hotel hotels nights_per_city hotel_budget_per_city hotel_budget
                    (_label_city city) with
            | Some h => dict_set String.eqb chosen (_label_city city) h
            | None => chosen
            end)
         dests chosen)
      city_label
    = if str_in city_label (map _label_city dests)
      then match pick_hotel hotels nights_per_city hotel_budget_per_city hotel_budget
                   city_label with
           | Some h => Some h
           | None => dict_get String.eqb chosen city_label
           end
      else dict_get String.eqb chosen city_label.
Proof.
  induction dests as [|city dests IH]; intros chosen; cbn [fold_left map]; [reflexivity|].
  rewrite IH. unfold str_in at 2. cbn [existsb]. fold (str_in city_label (map _label_city dests)).
  destruct (String.eqb_spec city_label (_label_city city)) as [E | E]; cbn [orb].
  - rewrite <- E.
    destruct (pick_hotel hotels nights_per_city hotel_budget_per_city hotel_budget city_label)
      as [h|]; [|destruct (str_in _ _); reflexivity].
    rewrite (dict_get_set String.eqb string_eqb_spec), String.eqb_refl.
    destruct (str_in _ _); reflexivity.
  - destruct (pick_hotel hotels nights_per_city hotel_budget_per_city hotel_budget
                (_label_city city)) as [h|]; [|reflexivity].
    rewrite (dict_get_set String.eqb string_eqb_spec).
    destruct (String.eqb_spec (_label_city city) city_label) as [E' | _]; [congruence|].
    reflexivity.
Qed.

Lemma choose_hotels_pick (prefs : TravelPreferences.t) (hotels : list HotelOption.t)
    (nights_per_city : list (string * Z)) (hotel_budget_per_city : list (string * Q))
    (hotel_budget : Q) (city_label : string) :
  dict_get String.eqb
    (choose_hotels prefs hotels nights_per_city hotel_budget_per_city hotel_budget) city_label
  = if str_in city_label (map _label_city (TravelPreferences.destinations prefs))
    then pick_hotel hotels nights_per_city hotel_budget_per_city hotel_budget city_label
    else None.
Proof.
  unfold choose_hotels.
  rewrite (fold_left_ext_eq _
             (fun chosen city =>
                match pick_hotel hotels nights_per_city hotel_budget_per_city hotel_budget
                        (_label_city city) with
                | Some h => dict_set String.eqb chosen (_label_city city) h
                | None => chosen
                end)).
  2: { intros chosen city. unfold pick_hotel.
       destruct (py_min_by hotel_price_ltb (filter _ hotels)); reflexivity. }
  rewrite choose_hotels_lookup. cbn [dict_get].
  destruct (str_in _ _); [|reflexivity].
  destruct (pick_hotel _ _ _ _ _); reflexivity.
Qed.

(** X12.  The hotel selected for a declared city is a discovered hotel of
    that city: the cheapest of those whose price for the stay fits the
    city's share of the hotel budget, or, when none fits, the cheapest of
    the city, over budget.  A declared city has no entry only when no
    hotel was discovered for it, and an undeclared city has none. *)
Theorem hotel_selection (prefs : TravelPreferences.t) (hotels : list HotelOption.t)
    (nights_per_city : list (string * Z)) (hotel_budget_per_city : list (string * Q))
    (hotel_budget : Q) (city_label : string) :
  let chosen :=
    choose_hotels prefs hotels nights_per_city hotel_budget_per_city hotel_budget in
  (In city_label (map _label_city (TravelPreferences.destinations prefs)) ->
   hotel_choice hotels nights_per_city hotel_budget_per_city hotel_budget city_label
     (dict_get String.eqb chosen city_label))
  /\ (~ In city_label (map _label_city (TravelPreferences.destinations prefs)) ->
      dict_get String.eqb chosen city_label = None).
Proof.
  cbv zeta. rewrite choose_hotels_pick. split; intros H.
  - apply str_in_In in H. rewrite H. apply pick_hotel_choice.
  - destruct (str_in _ _) eqn:E; [apply str_in_In in E; contradiction | reflexivity].
Qed.

Lemma hotel_selection_witness :
  hotel_choice sample_hotels [("Paris", 2%Z); ("Rome", 1%Z)]
    [("Paris", 100%Q); ("Rome", 50%Q)] 150 "Paris"
    (dict_get String.eqb
       (choose_hotels (prefs_two_cities 3) sample_hotels [("Paris", 2%Z); ("Rome", 1%Z)]
          [("Paris", 100%Q); ("Rome", 50%Q)] 150)
       "Paris").
Proof.
  apply (hotel_selection (prefs_two_cities 3) sample_hotels [("Paris", 2%Z); ("Rome", 1%Z)]
           [("Paris", 100%Q); ("Rome", 50%Q)] 150 "Paris").
  left. reflexivity.
Defined.

(** X13.  When the flights, hotels and activities together are within the
    budget, or the activities cost nothing, the optimizer returns the
    itinerary untouched and reports its activity cost as it was. *)
Theorem reconciliation_leaves_fitting_itinerary
    (strptime : string -> string -> option datetime)
    (prefs : TravelPreferences.t) (flights : list FlightOption.t)
    (hotels : list HotelOption.t) (itinerary : Itinerary.t) (out : Outcome) :
  optimizer_run strptime prefs flights hotels itinerary = Ok out ->
  (BudgetBreakdown.flights (budget out) + BudgetBreakdown.hotels (budget out)
   + activities_cost_of itinerary <= TravelPreferences.total_budget prefs
   \/ activities_cost_of itinerary <= 0)%Q ->
  final_itinerary out = itinerary
  /\ BudgetBreakdown.activities (budget out) = activities_cost_of itinerary.
Proof.
  intros Hrun Hfits.
  destruct (optimizer_run_cases strptime prefs flights hotels itinerary)
    as [out' [Hrun' [_ [_ [Hact Hcases]]]]].
  rewrite Hrun in Hrun'. injection Hrun' as <-. cbv zeta in Hcases.
  destruct Hcases as [[Hover [Hpos _]] | [_ Hsame]].
  - exfalso. destruct Hfits; lra.
  - rewrite Hact, Hsame. auto.
Qed.

Lemma reconciliation_leaves_fitting_itinerary_witness :
  exists out,
    optimizer_run sample_strptime (prefs_paris_only 500) [] [hotel_paris_95]
      itinerary_paris_one_day = Ok out
    /\ final_itinerary out = itinerary_paris_one_day
    /\ BudgetBreakdown.activities (budget out) = activities_cost_of itinerary_paris_one_day.
Proof.
  eexists. split; [vm_compute; reflexivity|].
  apply (reconciliation_leaves_fitting_itinerary sample_strptime (prefs_paris_only 500) []
           [hotel_paris_95] itinerary_paris_one_day).
  - vm_compute. reflexivity.
  - left. vm_compute. discriminate.
Defined.

(** ** Nights per city *)

Lemma dict_set_values_sum (d : list (string * Z)) (k : string) (v : Z) :
  py_sumZ (dict_values (dict_set String.eqb d k v))
  = (py_sumZ (dict_values d) - dict_get_default String.eqb d k 0 + v)%Z.
Proof.
  unfold dict_get_default.
  induction d as [|[k' v'] d IH]; cbn [dict_set dict_get dict_values map].
  - rewrite py_sumZ_single. unfold py_sumZ. cbn. lia.
  - destruct (k' =? k) eqn:E; cbn [dict_values map snd].
    + rewrite !py_sumZ_cons. lia.
    + fold (dict_values (dict_set String.eqb d k v)) (dict_values d).
      rewrite !py_sumZ_cons, IH. lia.
Qed.

Lemma dict_set_keys_NoDup {V : Type} (d : list (string * V)) (k : string) (v : V) :
  NoDup (dict_keys d) -> NoDup (dict_keys (dict_set String.eqb d k v)).
Proof.
  induction d as [|[k' v'] d IH]; cbn [dict_set dict_keys map fst]; intros ND.
  - repeat constructor. intros [].
  - inversion ND as [|? ? Hk ND']; subst.
    destruct (k' =? k) eqn:E; cbn [map fst].
    + constructor; assumption.
    + constructor; [|apply IH, ND'].
      intros H. apply (dict_keys_set String.eqb string_eqb_spec) in H.
      destruct H as [-> | H]; [rewrite String.eqb_refl in E; discriminate | contradiction].
Qed.

Lemma nights_loop (days : list ItineraryDay.t) :
  forall nights,
    NoDup (dict_keys nights) ->
    let result :=
      fold_left
        (fun nights day =>
           dict_set String.eqb nights (ItineraryDay.city day)
             (dict_get_default String.eqb nights (ItineraryDay.city day) 0 + 1)%Z)
        days nights in
    NoDup (dict_keys result)
    /\ py_sumZ (dict_values result) = (py_sumZ (dict_values nights) + py_len days)%Z
    /\ forall c,
         dict_get String.eqb result c
         = match dict_get String.eqb nights c,
                 count_occ string_dec (map ItineraryDay.city days) c with
           | None, O => None
           | None, n => Some (Z.of_nat n)
           | Some v, n => Some (v + Z.of_nat n)%Z
           end.
Proof.
  induction days as [|d days IH]; intros nights ND; cbv zeta; cbn [fold_left map count_occ].
  - split; [exact ND|]. split; [unfold py_len; cbn; lia|].
    intros c. destruct (dict_get String.eqb nights c); [f_equal; lia | reflexivity].
  - destruct (IH (dict_set String.eqb nights (ItineraryDay.city d)
                    (dict_get_default String.eqb nights (ItineraryDay.city d) 0 + 1)%Z)
                (dict_set_keys_NoDup _ _ _ ND)) as [H1 [H2 H3]].
    split; [exact H1|]. split.
    + rewrite H2, dict_set_values_sum. unfold py_len. cbn [List.length]. lia.
    + intros c. rewrite H3, (dict_get_set String.eqb string_eqb_spec).
      unfold dict_get_default.
      destruct (string_dec (ItineraryDay.city d) c) as [E | E].
      * rewrite E, String.eqb_refl.
        destruct (dict_get String.eqb nights c); f_equal; lia.
      * apply String.eqb_neq in E. rewrite E. reflexivity.
Qed.

(** X14.  [_nights_per_city] counts the days of each city: a city with
    days has their number, a city without a day has no entry, no city has
    two entries, and the nights add up to the number of days. *)
Theorem nights_per_city_counts_days (itinerary : Itinerary.t) :
  NoDup (dict_keys (_nights_per_city itinerary))
  /\ py_sumZ (dict_values (_nights_per_city itinerary)) = py_len (Itinerary.days itinerary)
  /\ forall c,
       dict_get String.eqb (_nights_per_city itinerary) c
       = match count_occ string_dec (map ItineraryDay.city (Itinerary.days itinerary)) c with
         | O => None
         | n => Some (Z.of_nat n)
         end.
Proof.
  destruct (nights_loop (Itinerary.days itinerary) [] (NoDup_nil _)) as [H1 [H2 H3]].
  split; [exact H1|]. split; [exact H2|]. exact H3.
Qed.

(** ** The hotel budget per city *)

Lemma foldM_pure {A S : Type} (f : S -> A -> result S) (g : S -> A -> S) (l : list A) :
  (forall s x, f s x = Ok (g s x)) -> forall s, foldM f l s = Ok (fold_left g l s).
Proof.
  intros H. induction l as [|x l IH]; intros s; cbn [foldM fold_left]; [reflexivity|].
  rewrite H. cbn [bind]. apply IH.
Qed.

Lemma shares_sum (hotel_budget : Q) (total : Z) (nights : list (string * Z)) :
  (py_sum (map (fun cn => hotel_budget * (inject_Z (snd cn) / inject_Z total)) nights)
   == hotel_budget * (inject_Z (py_sumZ (dict_values nights)) / inject_Z total))%Q.
Proof.
  induction nights as [|cn rest IH].
  - unfold py_sum, py_sumZ. cbn. unfold Qdiv. change (inject_Z 0) with 0%Q. ring.
  - cbn [map dict_values]. fold (dict_values rest).
    rewrite py_sum_cons, py_sumZ_cons, IH, inject_Z_plus. unfold Qdiv. ring.
Qed.

(** X15.  For an itinerary with at least one day, the hotel budget is
    split over the cities of the itinerary in proportion to their nights:
    every city with a day has the share [hotel_budget * nights / total
    nights], and the shares add up to the hotel budget. *)
Theorem hotel_budget_split_by_nights (prefs : TravelPreferences.t) (itinerary : Itinerary.t)
    (hotel_budget : Q) :
  Itinerary.days itinerary <> [] ->
  let nights := _nights_per_city itinerary in
  let total := py_sumZ (dict_values nights) in
  exists shares,
    hotel_budgets prefs nights total hotel_budget = Ok shares
    /\ shares
       = map (fun cn => (fst cn, (hotel_budget * (inject_Z (snd cn) / inject_Z total))%Q))
           nights
    /\ (py_sum (dict_values shares) == hotel_budget)%Q.
Proof.
  intros Hdays. cbv zeta.
  destruct (nights_loop (Itinerary.days itinerary) [] (NoDup_nil _)) as [ND [Hsum _]].
  cbv zeta in ND, Hsum. fold (_nights_per_city itinerary) in ND, Hsum.
  assert (Hpos : (0 < py_sumZ (dict_values (_nights_per_city itinerary)))%Z).
  { rewrite Hsum. pose proof (py_len_pos _ Hdays). unfold py_sumZ at 1. cbn. lia. }
  set (nights := _nights_per_city itinerary) in *.
  set (total := py_sumZ (dict_values nights)) in *.
  assert (Hne : nights <> []).
  { intros E. unfold total in Hpos. rewrite E in Hpos. unfold py_sumZ in Hpos. cbn in Hpos. lia. }
  eexists. split; [|split; [reflexivity|]].
  - unfold hotel_budgets. destruct nights as [|cn rest] eqn:En; [congruence|].
    rewrite <- En in *.
    rewrite (foldM_pure _
               (fun per_city cn =>
                  dict_set String.eqb per_city (fst cn)
                    (hotel_budget * (inject_Z (snd cn) / inject_Z total))%Q)).
    + rewrite (fold_dict_set_fresh String.eqb string_eqb_spec fst
                 (fun cn => (hotel_budget * (inject_Z (snd cn) / inject_Z total))%Q)).
      * reflexivity.
      * exact ND.
      * intros x _ [].
    + intros s x. rewrite py_truediv_ok; [reflexivity|]. apply inject_Z_nonzero. lia.
  - unfold dict_values. rewrite map_map. cbn [snd].
    rewrite shares_sum. fold total. field. apply inject_Z_nonzero. lia.
Qed.

Lemma hotel_budget_split_by_nights_witness :
  exists shares,
    hotel_budgets (prefs_two_cities 3) (_nights_per_city itinerary_paris_rome)
      (py_sumZ (dict_values (_nights_per_city itinerary_paris_rome))) 300 = Ok shares
    /\ shares
       = map (fun cn =>
                (fst cn,
                 (300 * (inject_Z (snd cn)
                         / inject_Z (py_sumZ (dict_values
                                                (_nights_per_city itinerary_paris_rome)))))%Q))
           (_nights_per_city itinerary_paris_rome)
    /\ (py_sum (dict_values shares) == 300)%Q.
Proof.
  apply (hotel_budget_split_by_nights (prefs_two_cities 3) itinerary_paris_rome 300).
  discriminate.
Defined.

(* ================================================================= *)
(** * Global reconciliation *)

Lemma nights_default_count (itinerary : Itinerary.t) (city : string) :
  dict_get_default String.eqb (_nights_per_city itinerary) city 0%Z
  = nights_in itinerary city.
Proof.
  destruct (nights_loop (Itinerary.days itinerary) [] (NoDup_nil _)) as [_ [_ H]].
  cbv zeta in H. fold (_nights_per_city itinerary) in H.
  unfold dict_get_default, nights_in. rewrite H. cbn [dict_get].
  destruct (count_occ string_dec (map ItineraryDay.city (Itinerary.days itinerary)) city);
    reflexivity.
Qed.

(** C1 (as amended).  [run] always returns; its flights are the selection
    of the flight step and its hotels the selection of the hotel step
    for the shares of what the flights leave of the budget.  The reported
    costs are those of the selected flights, of the selected hotels for
    their nights, and of all activities.  When the spend exceeds the
    budget and the activities cost something, every activity cost of
    every day is multiplied by [clamp(0, 1, (budget - flights - hotels) /
    activities)] and rounded to two decimals, and the total is at most
    the budget, or the flight and hotel cost where these alone exceed the
    budget, plus half a cent of rounding per activity. *)
Theorem reconciliation_scales_activities (strptime : string -> string -> option datetime)
    (prefs : TravelPreferences.t) (flights : list FlightOption.t)
    (hotels : list HotelOption.t) (itinerary : Itinerary.t) :
  exists out,
    optimizer_run strptime prefs flights hotels itinerary = Ok out
    /\ chosen_flights out = choose_flights strptime prefs flights itinerary
    /\ (exists shares,
          hotel_budgets prefs (_nights_per_city itinerary) (total_nights_of prefs itinerary)
            (py_max 0 (TravelPreferences.total_budget prefs
                       - py_sum (map FlightOption.price (chosen_flights out))))
          = Ok shares
          /\ chosen_hotels out
             = choose_hotels prefs hotels (_nights_per_city itinerary) shares
                 (py_max 0 (TravelPreferences.total_budget prefs
                            - py_sum (map FlightOption.price (chosen_flights out)))))
    /\ reconciliation_as_amended prefs itinerary out.
Proof.
  destruct (optimizer_run_cases strptime prefs flights hotels itinerary)
    as [out [Hrun [Hsel [Hf [Ha Hcases]]]]].
  destruct (optimizer_run_hotels strptime prefs flights hotels itinerary out Hrun)
    as [Hshares Hh].
  exists out. split; [exact Hrun|]. split; [exact Hsel|]. split; [exact Hshares|].
  assert (Hh' : BudgetBreakdown.hotels (budget out)
                = selected_hotel_cost itinerary (chosen_hotels out)).
  { rewrite Hh. unfold selected_hotel_cost. f_equal. apply map_ext. intros ch.
    rewrite nights_default_count. reflexivity. }
  unfold reconciliation_as_amended. cbv zeta.
  split; [exact Hf|]. split; [exact Hh'|]. split; [exact Ha|].
  rewrite <- Hf, <- Hh'.
  change (py_sum (activity_costs itinerary)) with (activities_cost_of itinerary).
  intros Hover Hpos.
  cbv zeta in Hcases. destruct Hcases as [[_ [_ Hfinal]] | [Hno _]]; [|tauto].
  set (B := TravelPreferences.total_budget prefs) in *.
  set (f := BudgetBreakdown.flights (budget out)) in *.
  set (h := BudgetBreakdown.hotels (budget out)) in *.
  set (a := activities_cost_of itinerary) in *.
  rewrite (scale_activity_costs_comp itinerary _ _ (reconciliation_scale_clamp B f h a Hpos))
    in Hfinal.
  split; [exact Hfinal|]. split; [rewrite Hfinal; apply activity_costs_scaled|].
  rewrite Hfinal, activity_costs_scaled.
  pose proof (scaled_sum_bound (activity_costs itinerary) (clamp 0 1 ((B - f - h) / a))) as Hsum.
  pose proof (clamp_ratio_times B f h a Hover Hpos) as Hclamp.
  change (py_sum (activity_costs itinerary)) with a in Hsum. lra.
Qed.

Lemma reconciliation_scales_activities_witness :
  exists out,
    optimizer_run sample_strptime prefs_paris_100 [] [hotel_paris_95] itinerary_paris_one_day
    = Ok out
    /\ (TravelPreferences.total_budget prefs_paris_100
        < py_sum (map FlightOption.price (chosen_flights out))
          + selected_hotel_cost itinerary_paris_one_day (chosen_hotels out)
          + py_sum (activity_costs itinerary_paris_one_day))%Q
    /\ (0 < py_sum (activity_costs itinerary_paris_one_day))%Q
    /\ reconciliation_as_amended prefs_paris_100 itinerary_paris_one_day out.
Proof.
  destruct (reconciliation_scales_activities sample_strptime prefs_paris_100 []
              [hotel_paris_95] itinerary_paris_one_day) as [out [Hrun [_ [_ H]]]].
  exists out. split; [exact Hrun|].
  vm_compute in Hrun. injection Hrun as <-.
  split; [vm_compute; reflexivity|]. split; [vm_compute; reflexivity | exact H].
Defined.

(* ================================================================= *)
(** * Airport codes *)

Lemma rstrip_idem (s : string) : rstrip (rstrip s) = rstrip s.
Proof.
  induction s as [|c r IH]; [reflexivity|].
  cbn [rstrip]. destruct (rstrip r) as [|d r'] eqn:E.
  - destruct (is_space c) eqn:Ec; [reflexivity|].
    cbn [rstrip]. rewrite Ec. reflexivity.
  - cbn [rstrip] in *. rewrite IH. reflexivity.
Qed.

Lemma lstrip_cases (s : string) :
  lstrip s = EmptyString \/ exists c r, lstrip s = String c r /\ is_space c = false.
Proof.
  induction s as [|c r IH]; [left; reflexivity|].
  cbn [lstrip]. destruct (is_space c) eqn:Ec; [exact IH|].
  right. exists c, r. split; [reflexivity | exact Ec].
Qed.

Lemma rstrip_head (c : ascii) (r : string) :
  is_space c = false -> exists r', rstrip (String c r) = String c r'.
Proof.
  intros Ec. cbn [rstrip]. destruct (rstrip r) as [|d r'].
  - rewrite Ec. eexists. reflexivity.
  - eexists. reflexivity.
Qed.

Lemma py_strip_idem (s : string) : py_strip (py_strip s) = py_strip s.
Proof.
  unfold py_strip. destruct (lstrip_cases s) as [E | [c [r [E Ec]]]]; rewrite E.
  - reflexivity.
  - destruct (rstrip_head c r Ec) as [r' E']. rewrite E'.
    cbn [lstrip]. rewrite Ec. rewrite <- E'. apply rstrip_idem.
Qed.

Lemma lstrip_spaces (a s : string) :
  all_spaces a = true -> lstrip (a ++ s)%string = lstrip s.
Proof.
  unfold all_spaces. induction a as [|c a IH]; cbn; [reflexivity|].
  intros H. apply andb_prop in H as [Hc Ha]. rewrite Hc. auto.
Qed.

Lemma rstrip_all_spaces (b : string) : all_spaces b = true -> rstrip b = EmptyString.
Proof.
  unfold all_spaces. induction b as [|c b IH]; cbn; [reflexivity|].
  intros H. apply andb_prop in H as [Hc Hb]. rewrite (IH Hb), Hc. reflexivity.
Qed.

Lemma rstrip_spaces (s b : string) :
  all_spaces b = true -> rstrip (s ++ b)%string = rstrip s.
Proof.
  intros Hb. induction s as [|c r IH].
  - cbn. apply rstrip_all_spaces. exact Hb.
  - cbn [append rstrip]. rewrite IH. reflexivity.
Qed.

Lemma py_strip_spaces (a s b : string) :
  all_spaces a = true -> all_spaces b = true ->
  py_strip (a ++ s ++ b)%string = py_strip s.
Proof.
  intros Ha Hb. unfold py_strip. rewrite (lstrip_spaces a _ Ha).
  induction s as [|c r IH].
  - cbn [append]. rewrite <- (lstrip_spaces b EmptyString Hb).
    assert (E : (b ++ EmptyString)%string = b).
    { clear. induction b as [|c b IH]; cbn; [reflexivity | rewrite IH; reflexivity]. }
    rewrite E. cbn [lstrip].
    assert (L : lstrip b = EmptyString).
    { clear - Hb. unfold all_spaces in Hb. induction b as [|c b IH]; cbn; [reflexivity|].
      cbn in Hb. apply andb_prop in Hb as [Hc Hb]. rewrite Hc. auto. }
    rewrite L. reflexivity.
  - cbn [append lstrip]. destruct (is_space c); [exact IH|].
    apply (rstrip_spaces (String c r) b Hb).
Qed.

Lemma table_codes_fixed (city code : string) :
  In (city, code) CITY_TO_AIRPORT -> to_airport_code code = Ok code.
Proof.
  assert (H : forallb
                (fun kv => match to_airport_code (snd kv) with
                           | Ok c => String.eqb c (snd kv)
                           | Raise _ => false
                           end) CITY_TO_AIRPORT = true) by (vm_compute; reflexivity).
  rewrite forallb_forall in H. intros Hin. specialize (H _ Hin). cbn [snd] in H.
  destruct (to_airport_code code) as [c|e]; [|discriminate].
  apply String.eqb_eq in H. subst. reflexivity.
Qed.

Lemma alias_codes_fixed (alias code : string) :
  In (alias, code) IATA_ALIASES -> to_airport_code code = Ok code.
Proof.
  intros H. cbn in H.
  repeat (destruct H as [H|H]; [injection H as <- <-; vm_compute; reflexivity|]).
  destruct H.
Qed.

Lemma table_round_trip (city code : string) :
  In (city, code) CITY_TO_AIRPORT ->
  to_airport_code city = Ok code /\ _label_city code = city.
Proof.
  assert (H : forallb
                (fun kv => match to_airport_code (fst kv) with
                           | Ok c => String.eqb c (snd kv)
                           | Raise _ => false
                           end && String.eqb (_label_city (snd kv)) (fst kv))
                CITY_TO_AIRPORT = true) by (vm_compute; reflexivity).
  rewrite forallb_forall in H. intros Hin. specialize (H _ Hin). cbn [fst snd] in H.
  apply andb_prop in H as [H1 H2]. apply String.eqb_eq in H2.
  destruct (to_airport_code city) as [c|e]; [|discriminate].
  apply String.eqb_eq in H1. subst. split; reflexivity.
Qed.

(** X16. A code that [to_airport_code] returns is resolved to itself:
    resolving twice is the same as resolving once. *)
Theorem to_airport_code_idempotent (value code : string) :
  to_airport_code value = Ok code -> to_airport_code code = Ok code.
Proof.
  unfold to_airport_code at 1. cbv zeta.
  destruct ((String.length (py_strip value) =? 3)%nat && py_isupper (py_strip value)) eqn:C.
  - unfold dict_get_default.
    destruct (dict_get String.eqb IATA_ALIASES (py_strip value)) as [c|] eqn:A;
      intros H; injection H as <-.
    + apply (dict_get_In String.eqb string_eqb_spec) in A.
      exact (alias_codes_fixed _ _ A).
    + unfold to_airport_code. cbv zeta. rewrite py_strip_idem, C.
      unfold dict_get_default. rewrite A. reflexivity.
  - destruct (dict_get String.eqb CITY_TO_AIRPORT (py_strip value)) as [c|] eqn:T.
    + intros H. injection H as <-.
      apply (dict_get_In String.eqb string_eqb_spec) in T.
      exact (table_codes_fixed _ _ T).
    + destruct (dict_get String.eqb CITY_TO_AIRPORT (py_title (py_strip value)))
        as [c|] eqn:T'; [|discriminate].
      intros H. injection H as <-.
      apply (dict_get_In String.eqb string_eqb_spec) in T'.
      exact (table_codes_fixed _ _ T').
Qed.

Lemma to_airport_code_idempotent_witness :
  to_airport_code " new york " = Ok "JFK" /\ to_airport_code "JFK" = Ok "JFK".
Proof.
  split; [vm_compute; reflexivity|].
  apply (to_airport_code_idempotent " new york "). vm_compute. reflexivity.
Defined.

(** X17. Every city of [CITY_TO_AIRPORT] is resolved to its code, and the
    planner's [_label_city] takes that code back to the city: the two are
    inverse to each other on the table. *)
Theorem airport_table_round_trip (city code : string) :
  dict_get String.eqb CITY_TO_AIRPORT city = Some code ->
  to_airport_code city = Ok code
  /\ _label_city code = city
  /\ to_airport_code (_label_city code) = Ok code.
Proof.
  intros H. apply (dict_get_In String.eqb string_eqb_spec) in H.
  destruct (table_round_trip _ _ H) as [H1 H2].
  rewrite H2. auto.
Qed.

Lemma airport_table_round_trip_witness :
  to_airport_code "Rio de Janeiro" = Ok "GIG"
  /\ _label_city "GIG" = "Rio de Janeiro"
  /\ to_airport_code (_label_city "GIG") = Ok "GIG".
Proof.
  apply (airport_table_round_trip "Rio de Janeiro" "GIG"). vm_compute. reflexivity.
Defined.

(** X18. [to_airport_code] ignores white space around its argument: the
    result, a code or the error with its message, is that of the bare
    text. *)
Theorem to_airport_code_ignores_padding (before value after : string) :
  all_spaces before = true ->
  all_spaces after = true ->
  to_airport_code (before ++ value ++ after)%string = to_airport_code value.
Proof.
  intros Ha Hb. unfold to_airport_code. cbv zeta.
  rewrite (py_strip_spaces before value after Ha Hb). reflexivity.
Qed.

Lemma to_airport_code_ignores_padding_witness :
  to_airport_code ("  " ++ "Baku" ++ " ")%string = to_airport_code "Baku".
Proof.
  apply (to_airport_code_ignores_padding "  " "Baku" " "); vm_compute; reflexivity.
Defined.

(* ================================================================= *)
(** * The travel tips *)

Lemma filter_filter {A : Type} (p q : A -> bool) (l : list A) :
  filter p (filter q l) = filter (fun x => q x && p x) l.
Proof.
  induction l as [|x l IH]; cbn; [reflexivity|].
  destruct (q x); cbn; [destruct (p x)|]; rewrite IH; reflexivity.
Qed.

Lemma dedupe_loop (tips seen out : list string) :
  snd (fold_left
         (fun st t => if str_in t (fst st) then st else (t :: fst st, snd st ++ [t]))
         tips (seen, out))
  = out ++ filter (fun t => negb (str_in t seen)) (dedupe_tips tips).
Proof.
  unfold dedupe_tips.
  revert seen out. induction tips as [|t tips IH]; intros seen out.
  - cbn. rewrite app_nil_r. reflexivity.
  - cbn [fold_left fst snd]. change (str_in t []) with false. cbv iota.
    rewrite (IH [t] ([] ++ [t])). cbn [app filter].
    destruct (str_in t seen) eqn:E; cbn [negb].
    + rewrite IH. f_equal.
      rewrite filter_filter. apply filter_ext. intros u.
      change (str_in u [t]) with (String.eqb u t || false). rewrite orb_false_r.
      destruct (String.eqb u t) eqn:Eu; [|reflexivity].
      apply String.eqb_eq in Eu. subst. rewrite E. reflexivity.
    + rewrite IH. rewrite <- app_assoc. f_equal. cbn [app].
      f_equal. rewrite filter_filter. apply filter_ext. intros u.
      change (str_in u [t]) with (String.eqb u t || false).
      change (str_in u (t :: seen)) with (String.eqb u t || str_in u seen).
      rewrite orb_false_r. destruct (String.eqb u t); reflexivity.
Qed.

Lemma dedupe_tips_cons (t : string) (tips : list string) :
  dedupe_tips (t :: tips)
  = t :: filter (fun u => negb (String.eqb u t)) (dedupe_tips tips).
Proof.
  unfold dedupe_tips at 1. cbn [fold_left fst snd str_in existsb].
  change (str_in t []) with false. cbv iota.
  rewrite dedupe_loop. cbn [app]. f_equal. apply filter_ext. intros u.
  change (str_in u [t]) with (String.eqb u t || false).
  rewrite orb_false_r. reflexivity.
Qed.

Lemma dedupe_tips_In (tips : list string) (t : string) :
  In t (dedupe_tips tips) <-> In t tips.
Proof.
  induction tips as [|x tips IH]; [cbn; tauto|].
  rewrite dedupe_tips_cons. cbn [In]. rewrite filter_In, IH.
  destruct (String.eqb_spec t x) as [->|N]; cbn.
  - split; auto.
  - split; [intros [H|[H _]]; auto | intros [H|H]; [left; exact H | right; auto]].
Qed.

Lemma dedupe_tips_NoDup (tips : list string) : NoDup (dedupe_tips tips).
Proof.
  induction tips as [|x tips IH]; [constructor|].
  rewrite dedupe_tips_cons. constructor.
  - rewrite filter_In. intros [_ H]. rewrite String.eqb_refl in H. discriminate.
  - apply NoDup_filter. exact IH.
Qed.

Lemma StronglySorted_map_filter {A B : Type} (R : B -> B -> Prop) (f : A -> B)
    (p : A -> bool) (l : list A) :
  StronglySorted R (map f l) -> StronglySorted R (map f (filter p l)).
Proof.
  induction l as [|x l IH]; cbn [map filter]; intros H; [constructor|].
  inversion H as [|? ? Hl Hall]; subst.
  destruct (p x); cbn [map]; [|apply IH, Hl].
  constructor; [apply IH, Hl|].
  rewrite Forall_map, Forall_forall in *. intros y Hy.
  apply filter_In in Hy. apply Hall, Hy.
Qed.

Lemma dedupe_tips_order (tips : list string) :
  StronglySorted lt (map (fun t => first_index t tips) (dedupe_tips tips)).
Proof.
  induction tips as [|x tips IH]; [constructor|].
  rewrite dedupe_tips_cons. cbn [map first_index]. rewrite String.eqb_refl.
  set (kept := filter (fun u => negb (String.eqb u x)) (dedupe_tips tips)).
  assert (E : map (fun t => if String.eqb x t then O else S (first_index t tips)) kept
              = map S (map (fun t => first_index t tips) kept)).
  { rewrite map_map. apply map_ext_in. intros t Ht. unfold kept in Ht.
    apply filter_In in Ht. destruct Ht as [_ Ht].
    rewrite String.eqb_sym. destruct (String.eqb t x); [discriminate | reflexivity]. }
  rewrite E. constructor.
  - apply (StronglySorted_map_filter lt _ (fun u => negb (String.eqb u x))) in IH.
    fold kept in IH. clear E. induction IH as [|y l Hl IHl Hall]; cbn [map]; constructor.
    + exact IHl.
    + rewrite Forall_map. eapply Forall_impl; [|exact Hall]. intros z Hz. lia.
  - rewrite Forall_map, Forall_forall. intros z _. lia.
Qed.

(** X19. The tips shown to the traveller are those of the guides of all
    destinations, each one once, in the order of its first occurrence:
    the first occurrences, in the tips of all guides taken together, of
    the tips that are kept are at increasing positions. *)
Theorem combined_tips_first_occurrences (travel_guides : list (string * TravelGuideInfo.t)) :
  NoDup (combined_tips travel_guides)
  /\ (forall t, In t (combined_tips travel_guides)
                <-> exists info, In info (dict_values travel_guides)
                                 /\ In t (TravelGuideInfo.tips info))
  /\ StronglySorted lt
       (map (fun t =>
               first_index t (flat_map TravelGuideInfo.tips (dict_values travel_guides)))
          (combined_tips travel_guides)).
Proof.
  unfold combined_tips. split; [apply dedupe_tips_NoDup|]. split.
  - intros t. rewrite dedupe_tips_In, in_flat_map. tauto.
  - apply dedupe_tips_order.
Qed.

(* ================================================================= *)
(** * The dates of the legs *)

Lemma date_add_days_nonneg (d n : Z) :
  date_valid d -> (0 <= n)%Z ->
  date_add_days d n
  = if (d + n <=? date_max_ordinal)%Z then Ok (d + n)%Z else Raise OverflowError.
Proof.
  unfold date_valid, date_add_days, date_min_ordinal, date_max_ordinal.
  intros [H1 H2] Hn. rewrite (Z.abs_eq n Hn).
  destruct (Z.leb_spec n 999999999), (Z.leb_spec 1 (d + n)), (Z.leb_spec (d + n) 3652059);
    cbn [andb]; try reflexivity; lia.
Qed.

(** The loop of [_leg_dates]: the dates are the start date plus the steps
    taken so far, and the loop raises when a step, the one after the
    last leg included, leaves the calendar. *)
Lemma leg_dates_loop (step : Z -> Z) (l dates : list Z) (current : Z) :
  date_valid current ->
  (forall i, 0 <= step i)%Z ->
  foldM (fun st i =>
           current <- date_add_days (snd st) (step i) ;;
           Ok (fst st ++ [snd st], current))
    l (dates, current)
  = if (current + py_sumZ (map step l) <=? date_max_ordinal)%Z
    then Ok (dates ++ map (fun k => (current + py_sumZ (map step (firstn k l)))%Z)
                        (seq 0 (List.length l)),
             (current + py_sumZ (map step l))%Z)
    else Raise OverflowError.
Proof.
  intros Hvalid Hstep. revert dates current Hvalid.
  induction l as [|i l IH]; intros dates current Hvalid.
  - cbn [foldM map List.length seq]. rewrite app_nil_r.
    replace (current + py_sumZ [])%Z with current by (unfold py_sumZ; cbn; lia).
    destruct Hvalid as [_ H]. apply Z.leb_le in H. rewrite H. reflexivity.
  - cbn [foldM fst snd map]. rewrite py_sumZ_cons.
    rewrite (date_add_days_nonneg _ _ Hvalid (Hstep i)).
    assert (Hrest : (0 <= py_sumZ (map step l))%Z).
    { apply py_sumZ_nonneg. rewrite Forall_map, Forall_forall. intros j _. apply Hstep. }
    destruct (Z.leb_spec (current + step i) date_max_ordinal) as [Hle|Hgt]; cbn [bind].
    + rewrite IH by (destruct Hvalid; pose proof (Hstep i); split; lia).
      replace (current + step i + py_sumZ (map step l))%Z
        with (current + (step i + py_sumZ (map step l)))%Z by lia.
      destruct (current + (step i + py_sumZ (map step l)) <=? date_max_ordinal)%Z;
        [|reflexivity].
      f_equal. f_equal.
      rewrite <- app_assoc. f_equal. cbn [List.length seq map app firstn].
      f_equal; [unfold py_sumZ; cbn; lia|].
      rewrite <- seq_shift, map_map. apply map_ext. intros k.
      cbn [firstn map]. rewrite py_sumZ_cons. lia.
    + destruct (Z.leb_spec (current + (step i + py_sumZ (map step l))) date_max_ordinal);
        [lia | reflexivity].
Qed.

Lemma prefix_sums_sorted (step : Z -> Z) (l : list Z) (c : Z) :
  (forall i, 1 <= step i)%Z ->
  StronglySorted Z.lt
    (map (fun k => (c + py_sumZ (map step (firstn k l)))%Z) (seq 0 (List.length l))).
Proof.
  intros Hstep. revert c. induction l as [|i l IH]; intros c; [constructor|].
  cbn [List.length seq map]. rewrite <- seq_shift, map_map.
  rewrite (map_ext _ (fun k => (c + step i + py_sumZ (map step (firstn k l)))%Z)).
  - constructor; [apply IH|].
    rewrite Forall_map, Forall_forall. intros k _.
    assert (H : (0 <= py_sumZ (map step (firstn k l)))%Z).
    { apply py_sumZ_nonneg. rewrite Forall_map, Forall_forall. intros j _.
      specialize (Hstep j). lia. }
    specialize (Hstep i). cbn [firstn map]. unfold py_sumZ at 1. cbn. lia.
  - intros k. cbn [firstn map]. rewrite py_sumZ_cons. lia.
Qed.

Lemma enumerate_length {A : Type} (l : list A) : List.length (enumerate l) = List.length l.
Proof. rewrite <- (map_snd_enumerate l) at 2. rewrite length_map. reflexivity. Qed.

Lemma allocation_values (base remainder : Z) (cities : list string) :
  dict_values
    (map (fun ic => (snd ic, (base + (if fst ic <? remainder then 1 else 0))%Z))
       (enumerate cities))
  = map (fun i => (base + (if i <? remainder then 1 else 0))%Z) (py_range (py_len cities)).
Proof.
  unfold dict_values. rewrite map_map. cbn [snd].
  rewrite py_range_len, <- map_fst_enumerate, map_map. reflexivity.
Qed.

Lemma max_1_py_len {A : Type} (l : list A) : l <> [] -> Z.max 1 (py_len l) = py_len l.
Proof. intros H. pose proof (py_len_pos l H). lia. Qed.

Lemma py_range_length (n : Z) : List.length (py_range n) = Z.to_nat n.
Proof. unfold py_range. rewrite length_map, length_seq. reflexivity. Qed.

(** The steps of [n] legs add up to [n * base + remainder]. *)
Lemma leg_steps_sum (n base remainder : Z) :
  (1 <= n)%Z -> (0 <= remainder < n)%Z ->
  py_sumZ (map (fun i => (base + (if i <? remainder then 1 else 0))%Z) (py_range n))
  = (n * base + remainder)%Z.
Proof.
  intros Hn Hr. unfold py_range. rewrite sum_day_counts by lia. lia.
Qed.

Lemma hotel_leg_dates_closed (prefs : TravelPreferences.t) (start_date : Z) :
  date_valid start_date ->
  let n := Z.max 1 (py_len (TravelPreferences.destinations prefs)) in
  let total_days := Z.max 1 (TravelPreferences.num_days prefs) in
  HotelFinderAgent._leg_dates prefs start_date
  = if (start_date + total_days <=? date_max_ordinal)%Z
    then Ok (map (fun k =>
                    (start_date
                     + py_sumZ
                         (map (fun i => (total_days / n
                                         + (if i <? total_days mod n then 1 else 0))%Z)
                            (firstn k (py_range n))))%Z)
               (seq 0 (Z.to_nat n)))
    else Raise OverflowError.
Proof.
  intros Hvalid n total_days. unfold HotelFinderAgent._leg_dates. cbv zeta.
  fold n total_days.
  assert (Hn : (1 <= n)%Z) by (unfold n; lia).
  assert (Ht : (1 <= total_days)%Z) by (unfold total_days; lia).
  pose proof (Z.mod_pos_bound total_days n ltac:(lia)) as Hr.
  assert (Hb : (0 <= total_days / n)%Z) by (apply Z.div_pos; lia).
  rewrite (leg_dates_loop
             (fun i => (total_days / n + (if i <? total_days mod n then 1 else 0))%Z)
             (py_range n) [] start_date Hvalid)
    by (intros i; destruct (i <? total_days mod n)%Z; lia).
  rewrite (leg_steps_sum n (total_days / n) (total_days mod n) Hn Hr).
  replace (n * (total_days / n) + total_days mod n)%Z with total_days
    by (pose proof (Z.div_mod total_days n); lia).
  rewrite py_range_length.
  destruct (start_date + total_days <=? date_max_ordinal)%Z; reflexivity.
Qed.

Lemma flight_leg_dates_closed (prefs : TravelPreferences.t) (start_date : Z) :
  date_valid start_date ->
  let n := Z.max 1 (py_len (TravelPreferences.destinations prefs)) in
  let d := TravelPreferences.num_days prefs in
  FlightFinderAgent._leg_dates prefs start_date
  = if (start_date + flight_legs_span prefs <=? date_max_ordinal)%Z
    then Ok (map (fun k =>
                    (start_date
                     + py_sumZ
                         (map (fun i => (Z.max 1 (d / n)
                                         + (if i <? d mod n then 1 else 0))%Z)
                            (firstn k (py_range n))))%Z)
               (seq 0 (Z.to_nat n)))
    else Raise OverflowError.
Proof.
  intros Hvalid n d. unfold FlightFinderAgent._leg_dates, flight_legs_span. cbv zeta.
  fold n d.
  assert (Hn : (1 <= n)%Z) by (unfold n; lia).
  pose proof (Z.mod_pos_bound d n ltac:(lia)) as Hr.
  rewrite (leg_dates_loop
             (fun i => (Z.max 1 (d / n) + (if i <? d mod n then 1 else 0))%Z)
             (py_range n) [] start_date Hvalid)
    by (intros i; destruct (i <? d mod n)%Z; lia).
  rewrite (leg_steps_sum n (Z.max 1 (d / n)) (d mod n) Hn Hr).
  rewrite py_range_length.
  destruct (start_date + (n * Z.max 1 (d / n) + d mod n) <=? date_max_ordinal)%Z;
    reflexivity.
Qed.

(** X20. The hotel finder's leg dates are the first days of the stays
    that the itinerary planner allocates: for as many distinct cities as
    there are destinations, the i-th leg date is the start date plus the
    days allocated to the cities before the i-th one.  [_leg_dates]
    returns them when the day after the trip's [max(1, num_days)] days is
    a date, and raises [OverflowError] when it is past [date.max]. *)
Theorem hotel_leg_dates_follow_allocation (prefs : TravelPreferences.t) (start_date : Z)
    (cities : list string) (allocation : list (string * Z)) :
  py_len cities = py_len (TravelPreferences.destinations prefs) ->
  NoDup cities ->
  _allocate_days (TravelPreferences.num_days prefs) cities = Ok allocation ->
  date_valid start_date ->
  ((start_date + Z.max 1 (TravelPreferences.num_days prefs) <= date_max_ordinal)%Z ->
   HotelFinderAgent._leg_dates prefs start_date = Ok (stay_starts start_date allocation))
  /\ ((date_max_ordinal < start_date + Z.max 1 (TravelPreferences.num_days prefs))%Z ->
      HotelFinderAgent._leg_dates prefs start_date = Raise OverflowError).
Proof.
  intros Hlen ND H Hvalid.
  assert (Hne : cities <> []).
  { intros ->. cbn in H. discriminate. }
  rewrite (allocate_days_nodup _ _ Hne ND) in H. injection H as <-.
  rewrite (hotel_leg_dates_closed prefs start_date Hvalid). cbv zeta.
  split; intros Hrange.
  - apply Z.leb_le in Hrange. rewrite Hrange. f_equal.
    unfold stay_starts. rewrite <- Hlen, (max_1_py_len _ Hne).
    rewrite length_map, enumerate_length, allocation_values.
    replace (Z.to_nat (py_len cities)) with (List.length cities)
      by (unfold py_len; lia).
    apply map_ext. intros k. rewrite firstn_map. reflexivity.
  - apply Z.leb_gt in Hrange. rewrite Hrange. reflexivity.
Qed.

Lemma hotel_leg_dates_follow_allocation_witness :
  exists allocation,
    _allocate_days 7 ["Paris"; "Rome"; "Vienna"] = Ok allocation
    /\ HotelFinderAgent._leg_dates
         (TravelPreferences.mk "Baku" ["CDG"; "FCO"; "VIE"] 7 3 900 (Some 739000%Z) None)
         739000
       = Ok (stay_starts 739000 allocation).
Proof.
  eexists. split; [vm_compute; reflexivity|].
  apply (hotel_leg_dates_follow_allocation
           (TravelPreferences.mk "Baku" ["CDG"; "FCO"; "VIE"] 7 3 900 (Some 739000%Z) None)
           739000 ["Paris"; "Rome"; "Vienna"]).
  - reflexivity.
  - repeat constructor; cbn; intuition discriminate.
  - vm_compute. reflexivity.
  - unfold date_valid. vm_compute. split; discriminate.
  - vm_compute. discriminate.
Defined.

Lemma py_range_pos_length (n : Z) : (1 <= n)%Z -> exists m, Z.to_nat n = S m.
Proof. intros H. exists (Z.to_nat n - 1)%nat. lia. Qed.

(** X21. The flight finder gives every leg a departure date: one date per
    destination (one when there is none), the first on the start date
    and each one at least a day after the one before, whatever
    [num_days] is.  It returns them when the start date plus the steps of
    all legs is a date, and raises [OverflowError] when that is past
    [date.max]. *)
Theorem flight_leg_dates_increasing (prefs : TravelPreferences.t) (start_date : Z) :
  date_valid start_date ->
  ((start_date + flight_legs_span prefs <= date_max_ordinal)%Z ->
   exists dates,
     FlightFinderAgent._leg_dates prefs start_date = Ok dates
     /\ py_len dates = Z.max 1 (py_len (TravelPreferences.destinations prefs))
     /\ hd_error dates = Some start_date
     /\ StronglySorted Z.lt dates)
  /\ ((date_max_ordinal < start_date + flight_legs_span prefs)%Z ->
      FlightFinderAgent._leg_dates prefs start_date = Raise OverflowError).
Proof.
  intros Hvalid. rewrite (flight_leg_dates_closed prefs start_date Hvalid). cbv zeta.
  set (n := Z.max 1 (py_len (TravelPreferences.destinations prefs))).
  assert (Hn : (1 <= n)%Z) by (unfold n; lia).
  split; intros Hrange.
  - apply Z.leb_le in Hrange. rewrite Hrange. eexists. split; [reflexivity|].
    split; [|split].
    + unfold py_len at 1. rewrite length_map, length_seq. lia.
    + destruct (py_range_pos_length n Hn) as [m ->].
      cbn [seq map hd_error firstn]. f_equal. unfold py_sumZ. cbn. lia.
    + rewrite <- (py_range_length n).
      apply (prefix_sums_sorted
               (fun i => Z.max 1 (TravelPreferences.num_days prefs / n)
                         + (if i <? TravelPreferences.num_days prefs mod n then 1 else 0))%Z).
      intros i. destruct (i <? _)%Z; lia.
  - apply Z.leb_gt in Hrange. rewrite Hrange. reflexivity.
Qed.

Lemma flight_leg_dates_increasing_witness :
  exists dates,
    FlightFinderAgent._leg_dates (prefs_two_cities 1) 739000 = Ok dates
    /\ py_len dates = Z.max 1 (py_len (TravelPreferences.destinations (prefs_two_cities 1)))
    /\ hd_error dates = Some 739000%Z
    /\ StronglySorted Z.lt dates.
Proof.
  apply (flight_leg_dates_increasing (prefs_two_cities 1) 739000).
  - unfold date_valid. vm_compute. split; discriminate.
  - vm_compute. discriminate.
Defined.

(** X22. For a trip of at least one day, the flight finder and the hotel
    finder give the legs the same dates when the trip has at least as
    many days as destinations; with fewer days, and every date within
    the calendar, both return and their dates differ. *)
Theorem leg_dates_agree_or_differ (prefs : TravelPreferences.t) (start_date : Z) :
  date_valid start_date ->
  (1 <= TravelPreferences.num_days prefs)%Z ->
  ((py_len (TravelPreferences.destinations prefs) <= TravelPreferences.num_days prefs)%Z ->
   FlightFinderAgent._leg_dates prefs start_date
   = HotelFinderAgent._leg_dates prefs start_date)
  /\ ((TravelPreferences.num_days prefs < py_len (TravelPreferences.destinations prefs))%Z ->
      (start_date + py_len (TravelPreferences.destinations prefs)
       + TravelPreferences.num_days prefs <= date_max_ordinal)%Z ->
      exists flight_dates hotel_dates,
        FlightFinderAgent._leg_dates prefs start_date = Ok flight_dates
        /\ HotelFinderAgent._leg_dates prefs start_date = Ok hotel_dates
        /\ flight_dates <> hotel_dates).
Proof.
  intros Hvalid Hdays.
  set (d := TravelPreferences.num_days prefs) in *.
  set (n := Z.max 1 (py_len (TravelPreferences.destinations prefs))).
  assert (Hn : (1 <= n)%Z) by (unfold n; lia).
  split.
  - intros L. unfold FlightFinderAgent._leg_dates, HotelFinderAgent._leg_dates. cbv zeta.
    fold d n. rewrite (Z.max_r 1 d) by lia.
    assert (Hb : (1 <= d / n)%Z).
    { apply Z.div_le_lower_bound; unfold n; lia. }
    rewrite (Z.max_r 1 (d / n)) by lia. reflexivity.
  - intros G Hrange.
    assert (Hn2 : n = py_len (TravelPreferences.destinations prefs)) by (unfold n; lia).
    rewrite (flight_leg_dates_closed prefs start_date Hvalid),
      (hotel_leg_dates_closed prefs start_date Hvalid). cbv zeta.
    unfold flight_legs_span. cbv zeta. fold d n. rewrite (Z.max_r 1 d) by lia.
    rewrite (Z.div_small d n), (Z.mod_small d n) by lia.
    replace (Z.max 1 0) with 1%Z by reflexivity.
    assert (H1 : (start_date + (n * 1 + d) <=? date_max_ordinal)%Z = true)
      by (apply Z.leb_le; lia).
    assert (H2 : (start_date + d <=? date_max_ordinal)%Z = true) by (apply Z.leb_le; lia).
    rewrite H1, H2. eexists. eexists. split; [reflexivity|]. split; [reflexivity|].
    assert (Hm : exists m, Z.to_nat n = S (S m)).
    { exists (Z.to_nat n - 2)%nat. lia. }
    destruct Hm as [m Em]. unfold py_range. rewrite Em.
    cbn [seq map firstn]. intros E.
    apply (f_equal (fun l => nth 1 l 0%Z)) in E. cbn [nth] in E.
    rewrite !py_sumZ_single in E.
    change (Z.of_nat 0) with 0%Z in E.
    destruct (0 <? d)%Z eqn:Ed; lia.
Qed.

Lemma leg_dates_agree_or_differ_witness :
  exists flight_dates hotel_dates,
    FlightFinderAgent._leg_dates (prefs_two_cities 1) 739000 = Ok flight_dates
    /\ HotelFinderAgent._leg_dates (prefs_two_cities 1) 739000 = Ok hotel_dates
    /\ flight_dates <> hotel_dates.
Proof.
  apply (leg_dates_agree_or_differ (prefs_two_cities 1) 739000).
  - unfold date_valid. vm_compute. split; discriminate.
  - vm_compute. discriminate.
  - vm_compute. reflexivity.
  - vm_compute. discriminate.
Defined.

(* ================================================================= *)
(** * Day-level fitting on binary64 *)



